(** * Bulk IoT device provisioning: a verification development

    A shallow embedding of [bulk_device_creation.py]: the MAC identifier
    generator ([GenerateMacID]) and the provisioning orchestrator
    ([DeviceHandler]), with the properties of the specification stated
    and proved over the embedding. *)

From Stdlib Require Import ZArith String Ascii List Lia Bool.
From stdpp Require Import base gmap sets list strings.

Local Open Scope string_scope.
Local Open Scope Z_scope.
Local Open Scope list_scope.

(** ** Python strings: formatting and joining *)

Module PyStr.

(** The digit alphabet of the [x] presentation type (lowercase). *)
Definition hex_alphabet : list ascii := list_ascii_of_string "0123456789abcdef".

Definition hex_digit (d : Z) : ascii := nth (Z.to_nat d) hex_alphabet "0"%char.

(** Base 16 digits of a positive number, most significant first; [fuel]
    bounds the number of digits. *)
Fixpoint hex_digits (fuel : nat) (n : Z) (acc : string) : string :=
  match fuel with
  | O => acc
  | S fuel' =>
      let acc' := String (hex_digit (n mod 16)) acc in
      if n / 16 =? 0 then acc' else hex_digits fuel' (n / 16) acc'
  end.

(** [format(n, 'x')] for [0 <= n]. *)
Definition hex (n : Z) : string := hex_digits (S (Z.to_nat (Z.log2 n))) n "".

(** Left padding with the fill character ['0'] up to [width]. *)
Definition zfill (width : nat) (s : string) : string :=
  string_of_list_ascii (repeat "0"%char (width - String.length s)) +:+ s.

(** [f'{x:02x}']: zero padded to width two, the sign counted in the width. *)
Definition format_02x (x : Z) : string :=
  if x <? 0 then "-" +:+ zfill 1 (hex (- x)) else zfill 2 (hex x).

(** [sep.join(l)]. *)
Fixpoint join (sep : string) (l : list string) : string :=
  match l with
  | [] => ""
  | [s] => s
  | s :: rest => s +:+ sep +:+ join sep rest
  end.

Definition is_lower_hex (c : ascii) : bool :=
  existsb (Ascii.eqb c) hex_alphabet.

(** Value of a lowercase hex digit ([16] for any other character). *)
Definition hex_value (c : ascii) : Z :=
  (fix find (l : list ascii) (i : Z) : Z :=
     match l with
     | [] => i
     | d :: l' => if Ascii.eqb c d then i else find l' (i + 1)
     end) hex_alphabet 0.

(** The rendering of an octet: its two hex digits. *)
Definition two_digits (x : Z) : string :=
  String (hex_digit (x / 16)) (String (hex_digit (x mod 16)) "").

End PyStr.

(** ** The random source

    [random.randint(a, b)] draws from the interpreter's generator state and
    returns an integer of the closed interval [a..b]. The generator is an
    interface: a state type and the draw, with the library's range
    guarantee. *)

Class RandomSource (G : Type) := {
  randint : Z -> Z -> G -> Z * G;
  randint_range : forall a b g, a <= b -> a <= fst (randint a b g) <= b
}.

(** ** GenerateMacID *)

Module GenerateMacID.

Section Generator.
Context {G : Type} `{RandomSource G}.

(** [generate_mac]: three fixed octets, then three draws, left to right. *)
Definition generate_mac (g : G) : string * G :=
  let '(r1, g1) := randint 0x00 0x7f g in
  let '(r2, g2) := randint 0x00 0xff g1 in
  let '(r3, g3) := randint 0x00 0xff g2 in
  let mac := [0x00; 0x16; 0x3e; r1; r2; r3] in
  (PyStr.join "-" (map PyStr.format_02x mac), g3).

(** The [while] loop of [generate_mac_addresses]: one unit of [fuel] per
    execution of the loop body. [None]: the loop is still running when the
    fuel is spent. *)
Fixpoint generate_loop (fuel : nat) (num_of_ids : Z) (mac_addresses : gset string)
    (g : G) : option (gset string * G) :=
  if Z.of_nat (size mac_addresses) <? num_of_ids then
    match fuel with
    | O => None
    | S fuel' =>
        let '(mac, g') := generate_mac g in
        generate_loop fuel' num_of_ids ({[ mac ]} ∪ mac_addresses) g'
    end
  else Some (mac_addresses, g).

(** [list(mac_addresses)]: Python iterates a set in an order fixed by the
    hashes of its elements, which for strings change from process to
    process; the order is a parameter. *)
Variable list_of_set : gset string -> list string.

Definition generate_mac_addresses (fuel : nat) (num_of_ids : Z) (g : G)
    : option (list string * G) :=
  match generate_loop fuel num_of_ids ∅ g with
  | Some (mac_addresses, g') => Some (list_of_set mac_addresses, g')
  | None => None
  end.

End Generator.

(** The identifier built from the three drawn octets. *)
Definition mac_of_octets (r1 r2 r3 : Z) : string :=
  PyStr.join "-" (map PyStr.format_02x [0x00; 0x16; 0x3e; r1; r2; r3]).

(** The identifiers [generate_mac] can return, numbered by the 23 bits
    drawn: 7 bits for the fourth octet, 8 for each of the last two. *)
Definition mac_of_code (c : Z) : string :=
  mac_of_octets (c / 65536) ((c / 256) mod 256) (c mod 256).

Definition mac_space_size : Z := 2 ^ 23.

Definition mac_space : gset string :=
  set_map (fun n : nat => mac_of_code (Z.of_nat n))
          (set_seq 0 (Z.to_nat mac_space_size) : gset nat).

(** The identifier format: seventeen characters, six groups of two
    lowercase hex digits joined by hyphens, the vendor prefix [00-16-3e],
    and a fourth octet below [0x80]. *)
Definition mac_format (s : string) : bool :=
  match list_ascii_of_string s with
  | [a1; a2; s1; b1; b2; s2; c1; c2; s3; d1; d2; s4; e1; e2; s5; f1; f2] =>
      forallb (Ascii.eqb "-"%char) [s1; s2; s3; s4; s5]
      && String.eqb (string_of_list_ascii [a1; a2; s1; b1; b2; s2; c1; c2]) "00-16-3e"
      && forallb PyStr.is_lower_hex [d1; d2; e1; e2; f1; f2]
      && (PyStr.hex_value d1 <? 8)
  | _ => false
  end.

(** The identifiers drawn by the first [n] executions of the loop body. *)
Fixpoint drawn {G : Type} `{RandomSource G} (n : nat) (g : G) : gset string :=
  match n with
  | O => ∅
  | S n' => let '(mac, g') := generate_mac g in {[ mac ]} ∪ drawn n' g'
  end.

(** The generator state after [n] calls of [generate_mac]. *)
Fixpoint after {G : Type} `{RandomSource G} (n : nat) (g : G) : G :=
  match n with
  | O => g
  | S n' => after n' (snd (generate_mac g))
  end.

(** A fair source, started in [g]: every identifier of the space is
    drawn again after any number of draws. *)
Definition fair {G : Type} `{RandomSource G} (g : G) : Prop :=
  forall (n : nat) (mac : string), mac ∈ mac_space ->
    exists k : nat, (n <= k)%nat /\ fst (generate_mac (after k g)) = mac.

(** Two sources, possibly of different implementations, that are seeded
    identically: from related states they return the same draws, and the
    states they move to are related again. *)
Definition same_draws {G1 G2 : Type} `{RandomSource G1} `{RandomSource G2}
    (R : G1 -> G2 -> Prop) : Prop :=
  forall a b g1 g2, R g1 g2 ->
    fst (randint a b g1) = fst (randint a b g2)
    /\ R (snd (randint a b g1)) (snd (randint a b g2)).

End GenerateMacID.

(** A linear congruential generator, for running the definitions. *)
Definition lcg_next (s : Z) : Z := (s * 1103515245 + 12345) mod 2147483648.

#[export] Program Instance lcg_source : RandomSource Z := {
  randint a b s := (a + (lcg_next s / 65536) mod (b - a + 1), lcg_next s)
}.
Next Obligation.
  intros a b g Hab. cbn.
  pose proof (Z.mod_pos_bound (lcg_next g / 65536) (b - a + 1)). lia.
Qed.

(** ** Python values, exceptions and dictionaries *)

(** The values stored in a credential: a [str], or [None]. *)
Inductive pyval : Type :=
| PStr (s : string)
| PNone.

(** [str(v)], as an f-string renders a value. *)
Definition py_str (v : pyval) : string :=
  match v with
  | PStr s => s
  | PNone => "None"
  end.

(** Exceptions of class [Exception]: the two the interpreter raises in
    this program, and whatever a collaborator (registry, device client,
    file system) raises. *)
Inductive exn : Type :=
| AttributeError (msg : string)
| KeyError (key : string)
| IndexError (msg : string)
| RaisedError (msg : string).

(** [str(e)], as [{e}] renders an exception in a log message. *)
Definition exn_str (e : exn) : string :=
  match e with
  | AttributeError msg => msg
  | KeyError key => "'" +:+ key +:+ "'"
  | IndexError msg => msg
  | RaisedError msg => msg
  end.

(** The outcome of an expression or call: a value, or a raised exception. *)
Inductive result (A : Type) : Type :=
| Ok (a : A)
| Raise (e : exn).
Arguments Ok {A} a.
Arguments Raise {A} e.

Definition is_ok {A : Type} (r : result A) : bool :=
  match r with
  | Ok _ => true
  | Raise _ => false
  end.

(** A [dict] with string keys: the items in insertion order, each key
    once. *)
Definition dict (V : Type) : Type := list (string * V).

(** [d[key]]: raises [KeyError] for a missing key. *)
Fixpoint dict_getitem {V : Type} (d : dict V) (key : string) : result V :=
  match d with
  | [] => Raise (KeyError key)
  | (k, v) :: d' => if String.eqb k key then Ok v else dict_getitem d' key
  end.

(** [d[key] = v]: a present key keeps its place, a new key goes last. *)
Fixpoint dict_setitem {V : Type} (d : dict V) (key : string) (v : V) : dict V :=
  match d with
  | [] => [(key, v)]
  | (k, v') :: d' =>
      if String.eqb k key then (k, v) :: d' else (k, v') :: dict_setitem d' key v
  end.

(** Truth value of a dictionary: non-empty. *)
Definition dict_truthy {V : Type} (d : dict V) : bool :=
  match d with
  | [] => false
  | _ :: _ => true
  end.

Definition dict_keys {V : Type} (d : dict V) : list string := map fst d.
Definition dict_values {V : Type} (d : dict V) : list V := map snd d.

(** ** [json.dump(credentials, f, indent=4)] *)

Module Json.

Definition newline : string := String "010"%char "".
Definition quote : string := String "034"%char "".
Definition backslash : string := String "092"%char "".

(** [\uXXXX] for a character below [0x20] or above [0x7e]. *)
Definition escape_u (c : ascii) : string :=
  backslash +:+ "u" +:+ PyStr.zfill 4 (PyStr.hex (Z.of_N (N_of_ascii c))).

(** The encoder's escapes with [ensure_ascii=True]; a character of the
    string stands for the code point of its number. *)
Definition escape_char (c : ascii) : string :=
  let n := N_of_ascii c in
  if (n =? 34)%N then backslash +:+ quote
  else if (n =? 92)%N then backslash +:+ backslash
  else if (n =? 10)%N then backslash +:+ "n"
  else if (n =? 13)%N then backslash +:+ "r"
  else if (n =? 9)%N then backslash +:+ "t"
  else if (n =? 8)%N then backslash +:+ "b"
  else if (n =? 12)%N then backslash +:+ "f"
  else if (n <? 32)%N || (126 <? n)%N then escape_u c
  else String c "".

Fixpoint escape (s : string) : string :=
  match s with
  | EmptyString => ""
  | String c s' => escape_char c +:+ escape s'
  end.

Definition encode_str (s : string) : string := quote +:+ escape s +:+ quote.

Definition encode_value (v : pyval) : string :=
  match v with
  | PStr s => encode_str s
  | PNone => "null"
  end.

Definition spaces (n : nat) : string := string_of_list_ascii (repeat " "%char n).

(** A dictionary at nesting depth [level] (its items are indented by
    [4 * (level + 1)] spaces); [{}] when empty. *)
Definition encode_dict {V : Type} (encode_item : V -> string) (level : nat)
    (d : dict V) : string :=
  match d with
  | [] => "{}"
  | _ =>
      "{" +:+ newline
      +:+ PyStr.join ("," +:+ newline)
            (map (fun '(k, v) => spaces (4 * S level) +:+ encode_str k +:+ ": "
                                 +:+ encode_item v) d)
      +:+ newline +:+ spaces (4 * level) +:+ "}"
  end.

(** The text [json.dump(credentials, f, indent=4)] writes for a store of
    credentials. *)
Definition dumps (credentials : dict (dict pyval)) : string :=
  encode_dict (encode_dict encode_value 1) 0 credentials.

End Json.

(** ** The collaborators

    The objects the Azure SDK returns for a device identity. An attribute
    that can be [None] is an [option]. *)

Record SymmetricKey : Type := {
  primary_key : pyval;
  secondary_key : pyval
}.

Record AuthenticationMechanism : Type := {
  symmetric_key : option SymmetricKey
}.

Record Device : Type := {
  device_id : string;
  authentication : option AuthenticationMechanism
}.

(** File operations of [create_device_credentials_file], and what the
    file system answers: success, or an exception after some characters
    of a write went through. *)
Inductive file_op : Type :=
| FOpen (path mode : string)
| FWrite (path text : string)
| FClose (path : string).

Inductive io_outcome : Type :=
| IoOk
| IoFail (e : exn) (written : nat).

(** The environment of a run: the state [E] of everything outside the
    program (the registry service, the network, the file system's
    readiness), and the calls into it. Each call returns or raises, and
    moves the environment. [RM] is [IoTHubRegistryManager], [DC] is
    [IoTHubDeviceClient]. *)
Class Environment (E RM DC : Type) : Type := {
  registry_from_connection_string : string -> E -> result RM * E;
  get_device : RM -> string -> E -> result Device * E;
  create_device_with_sas : RM -> string -> pyval -> pyval -> string -> E -> result Device * E;
  client_create_from_connection_string : string -> E -> result DC * E;
  client_connect : DC -> E -> result unit * E;
  client_disconnect : DC -> E -> result unit * E;
  file_outcome : file_op -> E -> io_outcome * E
}.

(** ** The world of a run *)

Inductive level : Type := INFO | ERROR.

Section World.
Context {E RM DC : Type} `{Environment E RM DC}.

(** Calls into the collaborators, as the history records them. *)
Inductive call : Type :=
| CallRegistryFromConnectionString (connection_string : string)
| CallGetDevice (device_id : string)
| CallCreateDeviceWithSas (device_id : string) (primary secondary : pyval) (status : string)
| CallClientCreate (connection_string : string)
| CallConnect (client : DC)
| CallDisconnect (client : DC)
| CallFile (op : file_op).

(** What happened, in order: the records the logger received, and (for the
    proofs only) the calls made, each with whether it returned. *)
Inductive event : Type :=
| Logged (lvl : level) (msg : string)
| Called (c : call) (returned : bool).

Record World : Type := {
  env : E;
  files : gmap string string;
  history : list event
}.

Definition record (ev : event) (w : World) : World :=
  {| env := env w; files := files w; history := history w ++ [ev] |}.

(** *** Statements: state passing with exceptions

    A statement runs in a world and returns or raises; its effects stay
    when it raises. *)
Definition M (A : Type) : Type := World -> result A * World.

Definition ret {A : Type} (a : A) : M A := fun w => (Ok a, w).

Definition raise {A : Type} (e : exn) : M A := fun w => (Raise e, w).

Definition bind {A B : Type} (m : M A) (k : A -> M B) : M B :=
  fun w =>
    match m w with
    | (Ok a, w') => k a w'
    | (Raise e, w') => (Raise e, w')
    end.

(** [try: body except Exception as e: handler]. *)
Definition try_except {A : Type} (body : M A) (handler : exn -> M A) : M A :=
  fun w =>
    match body w with
    | (Ok a, w') => (Ok a, w')
    | (Raise e, w') => handler e w'
    end.

(** A pure expression that may raise. *)
Definition lift {A : Type} (r : result A) : M A := fun w => (r, w).

(** A call into the environment, recorded in the history. *)
Definition external {A : Type} (c : call) (f : E -> result A * E) : M A :=
  fun w =>
    let '(r, e') := f (env w) in
    (r, record (Called c (is_ok r))
          {| env := e'; files := files w; history := history w |}).

Definition logger_info (msg : string) : M unit :=
  fun w => (Ok tt, record (Logged INFO msg) w).

Definition logger_error (msg : string) : M unit :=
  fun w => (Ok tt, record (Logged ERROR msg) w).

End World.

Declare Scope py_scope.
Delimit Scope py_scope with py.
Notation "x <- m ;; k" := (bind m (fun x => k))
  (at level 100, m at next level, right associativity) : py_scope.
Notation "m ;; k" := (bind m (fun _ => k))
  (at level 100, right associativity) : py_scope.


Arguments call DC : clear implicits.
Arguments event DC : clear implicits.
Arguments World E DC : clear implicits.
Arguments M E DC A : clear implicits.

(** ** Coroutines and [asyncio.gather] *)

Section Asyncio.
Context {E RM DC : Type} `{Environment E RM DC}.
Local Open Scope py_scope.

(** A task of the event loop: finished (returned or raised), or suspended
    until the loop resumes it in the world [w] of that moment; resumed, it
    runs up to its next suspension point, which leaves the world
    [effect w] and the task [continue w]. *)
Inductive Coro (A : Type) : Type :=
| Done (r : result A)
| Suspended (continue : World E DC -> Coro A) (effect : World E DC -> World E DC).
Arguments Done {A} r.
Arguments Suspended {A} continue effect.

(** A suspended task, from the step it takes when resumed. *)
Definition suspended {A : Type} (step : World E DC -> Coro A * World E DC) : Coro A :=
  Suspended (fun w => fst (step w)) (fun w => snd (step w)).

(** The task of an [async def] body that never awaits anything
    suspending: scheduled by the loop, it runs to its end in one step. *)
Definition task_of {A : Type} (body : M E DC A) : Coro A :=
  suspended (fun w => let '(r, w') := body w in (Done r, w')).

Definition is_done {A : Type} (c : Coro A) : bool :=
  match c with
  | Done _ => true
  | Suspended _ _ => false
  end.

(** The results by position, when every task returned. *)
Fixpoint all_returned {A : Type} (tasks : list (Coro A)) : option (list A) :=
  match tasks with
  | [] => Some []
  | Done (Ok a) :: tasks' => option_map (cons a) (all_returned tasks')
  | _ :: _ => None
  end.

(** [await asyncio.gather] of the tasks. The caller waits while the loop runs
    the tasks; [schedule] lists the task the loop resumes at each of its
    turns (an index that names no suspended task is a turn spent
    elsewhere). The caller is woken with the list of results, by position,
    once every task returned, or with the exception of a task as soon as
    one raises, the other tasks being left as they are. [None]: the
    schedule ends with the caller still waiting. The tasks are returned
    too, as the loop holds them at that moment. *)
Fixpoint gather {A : Type} (schedule : list nat) (tasks : list (Coro A))
    (w : World E DC) : option (result (list A) * list (Coro A) * World E DC) :=
  match all_returned tasks with
  | Some results => Some (Ok results, tasks, w)
  | None =>
      match schedule with
      | [] => None
      | i :: schedule' =>
          match tasks !! i with
          | Some (Suspended continue effect) =>
              let c := continue w in
              match c with
              | Done (Raise e) => Some (Raise e, <[i := c]> tasks, effect w)
              | _ => gather schedule' (<[i := c]> tasks) (effect w)
              end
          | _ => gather schedule' tasks w
          end
      end
  end.

(** A task run alone to its end: resumed in the world it left. *)
Fixpoint run_alone {A : Type} (c : Coro A) (w : World E DC) : result A * World E DC :=
  match c with
  | Done r => (r, w)
  | Suspended continue effect => run_alone (continue w) (effect w)
  end.

End Asyncio.

Arguments Coro E DC A : clear implicits.
Arguments Done {E DC A} r.
Arguments Suspended {E DC A} continue effect.


(** ** DeviceHandler *)

Section DeviceHandler.
Context {E RM DC : Type} `{Environment E RM DC}.
Local Open Scope py_scope.

(** The attributes set by [__init__]; [device_client] starts as [None]. *)
Record DeviceHandler : Type := {
  hostname : string;
  shared_access_key_name : string;
  shared_access_key : string;
  device_client : option RM
}.

Definition init (hostname shared_access_key_name shared_access_key : string)
    : DeviceHandler :=
  {| hostname := hostname;
     shared_access_key_name := shared_access_key_name;
     shared_access_key := shared_access_key;
     device_client := None |}.

(** [self.device_client.get_device(device_id)]: on [None] the attribute
    lookup raises before any call is made. *)
Definition self_get_device (self : DeviceHandler) (device_id : string) : M E DC Device :=
  match device_client self with
  | None => raise (AttributeError "'NoneType' object has no attribute 'get_device'")
  | Some client => external (CallGetDevice device_id) (get_device client device_id)
  end.

Definition self_create_device_with_sas (self : DeviceHandler) (device_id : string)
    (primary secondary : pyval) (status : string) : M E DC Device :=
  match device_client self with
  | None =>
      raise (AttributeError "'NoneType' object has no attribute 'create_device_with_sas'")
  | Some client =>
      external (CallCreateDeviceWithSas device_id primary secondary status)
               (create_device_with_sas client device_id primary secondary status)
  end.

(** [device_info.authentication.symmetric_key.primary_key]. *)
Definition get_primary_key (device_info : Device) : result pyval :=
  match authentication device_info with
  | None => Raise (AttributeError "'NoneType' object has no attribute 'symmetric_key'")
  | Some auth =>
      match symmetric_key auth with
      | None => Raise (AttributeError "'NoneType' object has no attribute 'primary_key'")
      | Some key => Ok (primary_key key)
      end
  end.

(** [connect_hub]: returns the handler with [device_client] set on
    success, unchanged on failure. *)
Definition connect_hub (self : DeviceHandler) : M E DC DeviceHandler :=
  try_except
    (let device_connection_string :=
       "HostName=" +:+ hostname self +:+ ";"
       +:+ "SharedAccessKeyName=" +:+ shared_access_key_name self +:+ ";"
       +:+ "SharedAccessKey=" +:+ shared_access_key self in
     client <- external (CallRegistryFromConnectionString device_connection_string)
                        (registry_from_connection_string device_connection_string) ;;
     logger_info "Connection established for IoTHub Registry." ;;
     ret {| hostname := hostname self;
            shared_access_key_name := shared_access_key_name self;
            shared_access_key := shared_access_key self;
            device_client := Some client |})
    (fun e =>
       logger_error ("Failed to connect with IoTHub Registry: " +:+ exn_str e) ;;
       ret self).

(** The credentials dictionary [create_device] returns on success. *)
Definition credentials_of (self : DeviceHandler) (device_id : string)
    (primary_key : pyval) : dict pyval :=
  [("hostname", PStr (hostname self));
   ("device_id", PStr device_id);
   ("shared_access_key", primary_key)].

(** [create_device]. The first [try] statement either falls through to
    the retrieval of the credentials ([None]) or returns early
    ([Some] of the returned dictionary). *)
Definition create_device (self : DeviceHandler) (device_id : string)
    : M E DC (dict pyval) :=
  returned <-
    try_except
      (device <- self_get_device self device_id ;;
       logger_info ("Device '" +:+ device_id +:+ "' already exists.") ;;
       ret None)
      (fun _ =>
         logger_info ("Creating device '" +:+ device_id +:+ "'...") ;;
         try_except
           (device <- self_create_device_with_sas self device_id PNone PNone "enabled" ;;
            logger_info ("Device '" +:+ device_id +:+ "' created successfully.") ;;
            ret None)
           (fun e =>
              logger_error ("Error creating device '" +:+ device_id +:+ "': "
                            +:+ exn_str e) ;;
              ret (Some []))) ;;
  match returned with
  | Some credentials => ret credentials
  | None =>
      try_except
        (device_info <- self_get_device self device_id ;;
         primary_key <- lift (get_primary_key device_info) ;;
         ret (credentials_of self device_id primary_key))
        (fun e =>
           logger_error ("Error retrieving credentials for device '" +:+ device_id
                         +:+ "': " +:+ exn_str e) ;;
           ret [])
  end.

(** *** The credential file *)

Definition file_path : string := "iothub_device_credential.json".

Definition set_env_files (e : E) (fs : gmap string string) (w : World E DC) : World E DC :=
  {| env := e; files := fs; history := history w |}.

(** [open(path, "w")]: truncates the file, or raises and leaves it. *)
Definition open_w (path : string) : M E DC string :=
  fun w =>
    match file_outcome (FOpen path "w") (env w) with
    | (IoOk, e') =>
        (Ok path, record (Called (CallFile (FOpen path "w")) true)
                    (set_env_files e' (<[path := ""]> (files w)) w))
    | (IoFail e _, e') =>
        (Raise e, record (Called (CallFile (FOpen path "w")) false)
                    (set_env_files e' (files w) w))
    end.

(** Writing [text] to the open file: all of it, or the part that went
    through before the exception. *)
Definition file_write (path text : string) : M E DC unit :=
  fun w =>
    let content := default "" (files w !! path) in
    match file_outcome (FWrite path text) (env w) with
    | (IoOk, e') =>
        (Ok tt, record (Called (CallFile (FWrite path text)) true)
                  (set_env_files e' (<[path := content +:+ text]> (files w)) w))
    | (IoFail e written, e') =>
        (Raise e, record (Called (CallFile (FWrite path text)) false)
                    (set_env_files e'
                       (<[path := content +:+ substring 0 written text]> (files w)) w))
    end.

Definition file_close (path : string) : M E DC unit :=
  fun w =>
    match file_outcome (FClose path) (env w) with
    | (IoOk, e') =>
        (Ok tt, record (Called (CallFile (FClose path)) true) (set_env_files e' (files w) w))
    | (IoFail e _, e') =>
        (Raise e, record (Called (CallFile (FClose path)) false)
                    (set_env_files e' (files w) w))
    end.

(** [with open(path, "w") as f: body]: the file is closed on the way
    out, also when the body raises. *)
Definition with_open_w {A : Type} (path : string) (body : string -> M E DC A) : M E DC A :=
  f <- open_w path ;;
  fun w =>
    match body f w with
    | (Ok a, w') => (file_close f ;; ret a) w'
    | (Raise e, w') => (file_close f ;; raise e) w'
    end.

Definition json_dump (credentials : dict (dict pyval)) (f : string) : M E DC unit :=
  file_write f (Json.dumps credentials).

Definition create_device_credentials_file (credentials : dict (dict pyval)) : M E DC unit :=
  try_except
    (with_open_w file_path (fun f => json_dump credentials f) ;;
     logger_info ("Device credentials stored in " +:+ file_path))
    (fun e => logger_error ("Failed to create credentials file: " +:+ exn_str e)).

(** *** The batch of creations *)

(** [enumerate(l)]. *)
Definition enumerate {A : Type} (l : list A) : list (nat * A) :=
  combine (seq 0 (length l)) l.

(** The loop over [enumerate(credentials_list)]; [device_ids[i]] raises
    [IndexError] out of range. *)
Fixpoint update_credentials (device_ids : list string)
    (items : list (nat * dict pyval)) (all_credentials : dict (dict pyval))
    : result (dict (dict pyval)) :=
  match items with
  | [] => Ok all_credentials
  | (i, credentials) :: items' =>
      if dict_truthy credentials then
        match device_ids !! i with
        | Some device_id =>
            update_credentials device_ids items'
              (dict_setitem all_credentials device_id credentials)
        | None => Raise (IndexError "list index out of range")
        end
      else update_credentials device_ids items' all_credentials
  end.

Definition create_device_tasks (self : DeviceHandler) (device_ids : list string)
    : list (Coro E DC (dict pyval)) :=
  map (fun device_id => task_of (create_device self device_id)) device_ids.

(** [create_devices_from_list]: what it returns or raises, the tasks as
    the loop holds them at that moment, and the world; [None] while it is
    still waiting for the tasks when the schedule ends. *)
Definition create_devices_from_list (schedule : list nat) (self : DeviceHandler)
    (device_ids : list string) (w : World E DC)
    : option (result (dict (dict pyval)) * list (Coro E DC (dict pyval)) * World E DC) :=
  match gather schedule (create_device_tasks self device_ids) w with
  | None => None
  | Some (Raise e, tasks, w') => Some (Raise e, tasks, w')
  | Some (Ok credentials_list, tasks, w') =>
      let '(r, w'') :=
        (all_credentials <- lift (update_credentials device_ids
                                    (enumerate credentials_list) []) ;;
         create_device_credentials_file all_credentials ;;
         ret all_credentials) w' in
      Some (r, tasks, w'')
  end.

(** *** Connectivity checks *)

(** A task whose first step, and each step after an [await], is a
    statement that ends in the rest of the task. *)
Definition coro_of {A : Type} (step : M E DC (Coro E DC A)) : Coro E DC A :=
  suspended (fun w =>
    match step w with
    | (Ok c, w') => (c, w')
    | (Raise e, w') => (Done (Raise e), w')
    end).

Definition connection_string_of (device_credential : dict pyval) : result string :=
  match dict_getitem device_credential "hostname" with
  | Raise e => Raise e
  | Ok host =>
      match dict_getitem device_credential "device_id" with
      | Raise e => Raise e
      | Ok id =>
          match dict_getitem device_credential "shared_access_key" with
          | Raise e => Raise e
          | Ok key =>
              Ok ("HostName=" +:+ py_str host +:+ ";"
                  +:+ "DeviceId=" +:+ py_str id +:+ ";"
                  +:+ "SharedAccessKey=" +:+ py_str key)
          end
      end
  end.

(** The [except] clause of [connect_device]. *)
Definition connect_failed (device_credential : dict pyval) (e : exn)
    : M E DC (Coro E DC unit) :=
  id <- lift (dict_getitem device_credential "device_id") ;;
  logger_error ("Failed to connect device " +:+ py_str id +:+ ": " +:+ exn_str e) ;;
  ret (Done (Ok tt)).

(** [connect_device]: the connection string is built before the [try];
    the task suspends at the two [await]s. *)
Definition connect_device (device_credential : dict pyval) : Coro E DC unit :=
  coro_of
    (connection_string <- lift (connection_string_of device_credential) ;;
     try_except
       (device_client <- external (CallClientCreate connection_string)
                           (client_create_from_connection_string connection_string) ;;
        ret (coro_of
          (try_except
             (external (CallConnect device_client) (client_connect device_client) ;;
              id <- lift (dict_getitem device_credential "device_id") ;;
              logger_info ("Device " +:+ py_str id +:+ " connected successfully.") ;;
              ret (coro_of
                (try_except
                   (external (CallDisconnect device_client)
                             (client_disconnect device_client) ;;
                    ret (Done (Ok tt)))
                   (connect_failed device_credential))))
             (connect_failed device_credential))))
       (connect_failed device_credential)).

Definition connect_device_tasks (all_credentials : dict (dict pyval))
    : list (Coro E DC unit) :=
  map (fun '(device_id, credentials) => connect_device credentials) all_credentials.

(** [connect_all_devices]. *)
Definition connect_all_devices (schedule : list nat)
    (all_credentials : dict (dict pyval)) (w : World E DC)
    : option (result unit * list (Coro E DC unit) * World E DC) :=
  match gather schedule (connect_device_tasks all_credentials) w with
  | None => None
  | Some (Raise e, tasks, w') => Some (Raise e, tasks, w')
  | Some (Ok _, tasks, w') => Some (Ok tt, tasks, w')
  end.

End DeviceHandler.

Arguments DeviceHandler RM : clear implicits.


(** ** A simulated environment

    A registry that persists its devices, for running the definitions on
    concrete inputs. Creation fails for the identifiers in [rejected];
    with [rotating] keys the primary key of every device changes at each
    fetch; connections fail for the devices in [unreachable]; the file
    system answers the file operations with the outcomes planned in
    [io_plan], in order, and with success once the plan is used up. *)
Record Sim : Type := {
  hub_down : bool;
  registered : list string;
  rejected : list string;
  rotating : bool;
  epoch : nat;
  unreachable : list string;
  io_plan : list io_outcome
}.

Definition sim_key (device_id : string) (epoch : nat) : pyval :=
  PStr ("key-" +:+ device_id +:+ "-" +:+ string_of_list_ascii (repeat "i"%char epoch)).

Definition sim_device (device_id : string) (epoch : nat) : Device :=
  {| device_id := device_id;
     authentication :=
       Some {| symmetric_key :=
                 Some {| primary_key := sim_key device_id epoch;
                         secondary_key := PNone |} |} |}.

Definition mem (x : string) (l : list string) : bool := existsb (String.eqb x) l.

Definition sim_tick (s : Sim) : Sim :=
  {| hub_down := hub_down s; registered := registered s; rejected := rejected s;
     rotating := rotating s;
     epoch := if rotating s then S (epoch s) else epoch s;
     unreachable := unreachable s; io_plan := io_plan s |}.

Definition sim_register (device_id : string) (s : Sim) : Sim :=
  {| hub_down := hub_down s; registered := device_id :: registered s;
     rejected := rejected s; rotating := rotating s; epoch := epoch s;
     unreachable := unreachable s; io_plan := io_plan s |}.

Definition sim_next_io (s : Sim) : io_outcome * Sim :=
  match io_plan s with
  | [] => (IoOk, s)
  | o :: plan =>
      (o, {| hub_down := hub_down s; registered := registered s;
             rejected := rejected s; rotating := rotating s; epoch := epoch s;
             unreachable := unreachable s; io_plan := plan |})
  end.

#[export] Instance sim_environment : Environment Sim unit string := {
  registry_from_connection_string cs s :=
    if hub_down s then (Raise (RaisedError "hub unreachable"), s) else (Ok tt, s);
  get_device _ device_id s :=
    if mem device_id (registered s)
    then (Ok (sim_device device_id (epoch s)), sim_tick s)
    else (Raise (RaisedError "DeviceNotFound"), s);
  create_device_with_sas _ device_id _ _ _ s :=
    if mem device_id (rejected s) then (Raise (RaisedError "DeviceRejected"), s)
    else (Ok (sim_device device_id (epoch s)), sim_register device_id s);
  client_create_from_connection_string cs s := (Ok cs, s);
  client_connect cs s :=
    if mem cs (unreachable s) then (Raise (RaisedError "ConnectionFailed"), s)
    else (Ok tt, s);
  client_disconnect cs s := (Ok tt, s);
  file_outcome _ s := sim_next_io s
}.

Definition sim_start : Sim :=
  {| hub_down := false; registered := []; rejected := []; rotating := false;
     epoch := 0; unreachable := []; io_plan := [] |}.

(** The hub rejects the creation of the devices in [ids]. *)
Definition sim_rejecting (ids : list string) : Sim :=
  {| hub_down := false; registered := []; rejected := ids; rotating := false;
     epoch := 0; unreachable := []; io_plan := [] |}.

(** The file system answers with the outcomes of [plan]. *)
Definition sim_io (plan : list io_outcome) : Sim :=
  {| hub_down := false; registered := []; rejected := []; rotating := false;
     epoch := 0; unreachable := []; io_plan := plan |}.

(** The devices of [ids] exist, and keys rotate at every fetch. *)
Definition sim_rotating (ids : list string) : Sim :=
  {| hub_down := false; registered := ids; rejected := []; rotating := true;
     epoch := 0; unreachable := []; io_plan := [] |}.

(** The devices with the connection strings [css] cannot be reached. *)
Definition sim_unreachable (css : list string) : Sim :=
  {| hub_down := false; registered := []; rejected := []; rotating := false;
     epoch := 0; unreachable := css; io_plan := [] |}.

Definition sim_world (s : Sim) : World Sim string :=
  {| env := s; files := ∅; history := [] |}.

(** A handler connected to the simulated hub. *)
Definition sim_handler : DeviceHandler unit :=
  {| hostname := "hub.example.net"; shared_access_key_name := "owner";
     shared_access_key := "c2VjcmV0"; device_client := Some tt |}.

(** An enumerating source: its state counts the draws made; the draws of
    the [q]-th group of three are the digits of [q] in the mixed radix
    (128, 256, 256), so that successive identifiers walk through the whole
    space, again and again. *)
Definition enum_weight (r : Z) : Z :=
  if r =? 0 then 1 else if r =? 1 then 128 else 32768.

#[export] Program Instance enum_source : RandomSource nat := {
  randint a b i :=
    (a + (Z.of_nat i / 3 / enum_weight (Z.of_nat i mod 3)) mod (b - a + 1), S i)
}.
Next Obligation.
  intros a b g Hab. cbn.
  pose proof (Z.mod_pos_bound (Z.of_nat g / 3 / enum_weight (Z.of_nat g mod 3)) (b - a + 1)).
  lia.
Qed.

(** ** Vocabulary of the statements *)

Section Vocabulary.
Context {E RM DC : Type} `{Environment E RM DC}.

Definition mk_world (e : E) (fs : gmap string string) (h : list (event DC)) : World E DC :=
  {| env := e; files := fs; history := h |}.

(** The second half of [create_device]: the device is fetched again and
    its primary key extracted; [h] is the history so far. *)
Definition retrieve_run (self : DeviceHandler RM) (client : RM) (device_id : string)
    (fs : gmap string string) (h : list (event DC)) (e : E)
    : result (dict pyval) * World E DC :=
  let '(r, e') := get_device client device_id e in
  match r with
  | Ok device_info =>
      match get_primary_key device_info with
      | Ok key =>
          (Ok (credentials_of self device_id key),
           mk_world e' fs (h ++ [Called (CallGetDevice device_id) true]))
      | Raise x =>
          (Ok [],
           mk_world e' fs
             (h ++ [Called (CallGetDevice device_id) true;
                    Logged ERROR ("Error retrieving credentials for device '"
                                  +:+ device_id +:+ "': " +:+ exn_str x)]))
      end
  | Raise x =>
      (Ok [],
       mk_world e' fs
         (h ++ [Called (CallGetDevice device_id) false;
                Logged ERROR ("Error retrieving credentials for device '"
                              +:+ device_id +:+ "': " +:+ exn_str x)]))
  end.

(** [finishes Q n c]: resumed in any worlds, the task [c] returns after at
    most [n] resumptions, without raising, a value that satisfies [Q]. *)
Inductive finishes {A : Type} (Q : A -> Prop) : nat -> Coro E DC A -> Prop :=
| finishes_done n a : Q a -> finishes Q n (Done (Ok a))
| finishes_step n continue effect :
    (forall w, finishes Q n (continue w)) ->
    finishes Q (S n) (Suspended continue effect).

(** What [create_device] returns for an identifier: the empty
    dictionary, or the credentials of that identifier. *)
Definition credentials_for (self : DeviceHandler RM) (device_id : string)
    (credentials : dict pyval) : Prop :=
  credentials = [] \/ exists key, credentials = credentials_of self device_id key.

Definition stored_message : string :=
  "Device credentials stored in iothub_device_credential.json".

Definition failed_message (x : exn) : string :=
  "Failed to create credentials file: " +:+ exn_str x.

(** The results matched with the identifiers by position: the result at
    position [i] is stored under the identifier at position [i], unless
    it is empty. *)
Fixpoint store_of (device_ids : list string) (results : list (dict pyval))
    (all_credentials : dict (dict pyval)) : dict (dict pyval) :=
  match device_ids, results with
  | device_id :: device_ids', credentials :: results' =>
      store_of device_ids' results'
        (if dict_truthy credentials
         then dict_setitem all_credentials device_id credentials
         else all_credentials)
  | _, _ => all_credentials
  end.

Definition connected_message (id : pyval) : string :=
  "Device " +:+ py_str id +:+ " connected successfully.".

Definition connect_failed_message (id : pyval) (x : exn) : string :=
  "Failed to connect device " +:+ py_str id +:+ ": " +:+ exn_str x.

(** The first half of [create_device]: the lookup and, when it raises, the
    creation. [Ok e]: the device was found or created and the environment
    is [e]; [Raise x]: the creation raised [x]. *)
Definition lookup_or_create (client : RM) (device_id : string) (e : E) : result E :=
  match get_device client device_id e with
  | (Ok _, e1) => Ok e1
  | (Raise _, e1) =>
      match create_device_with_sas client device_id PNone PNone "enabled" e1 with
      | (Ok _, e2) => Ok e2
      | (Raise x, _) => Raise x
      end
  end.

Definition creating_failed_message (device_id : string) (x : exn) : string :=
  "Error creating device '" +:+ device_id +:+ "': " +:+ exn_str x.

Definition retrieving_failed_message (device_id : string) (x : exn) : string :=
  "Error retrieving credentials for device '" +:+ device_id +:+ "': " +:+ exn_str x.

(** The calls recorded in a history, in order, with their outcomes. *)
Definition calls_of (evs : list (event DC)) : list (call DC * bool) :=
  omap (fun ev => match ev with
                  | Called c returned => Some (c, returned)
                  | Logged _ _ => None
                  end) evs.

(** A registry that persists state, seen through a session [client]:
    a device that was fetched with a symmetric key is [registered], and a
    registered device can be fetched, has a symmetric key (which may have
    changed) and stays registered. *)
Definition persists (client : RM) (registered : string -> E -> Prop) : Prop :=
  (forall id e d e',
      get_device client id e = (Ok d, e') -> is_ok (get_primary_key d) = true ->
      registered id e')
  /\ (forall id e,
         registered id e ->
         exists d e', get_device client id e = (Ok d, e')
                      /\ is_ok (get_primary_key d) = true /\ registered id e').

(** A dictionary that holds the three keys of a credential. *)
Definition is_credential (device_credential : dict pyval) : bool :=
  is_ok (connection_string_of device_credential).

Definition hub_connection_string (self : DeviceHandler RM) : string :=
  "HostName=" +:+ hostname self +:+ ";"
  +:+ "SharedAccessKeyName=" +:+ shared_access_key_name self +:+ ";"
  +:+ "SharedAccessKey=" +:+ shared_access_key self.

Definition hub_failed_message (x : exn) : string :=
  "Failed to connect with IoTHub Registry: " +:+ exn_str x.

(** The events an operation added to the history. *)
Definition new_events (w w' : World E DC) : list (event DC) :=
  drop (length (history w)) (history w').

(** Some call into a collaborator raised. *)
Definition failed_call (evs : list (event DC)) : bool :=
  existsb (fun ev => match ev with
                     | Called _ false => true
                     | _ => false
                     end) evs.

End Vocabulary.

(** ** The driver

    The builtins [main] uses on strings. A character of a string stands
    for the code point of its number. *)

Module PyBuiltins.

(** [c.isspace()], for a code point below 256. *)
Definition is_space (c : ascii) : bool :=
  let n := N_of_ascii c in
  ((9 <=? n) && (n <=? 13) || (28 <=? n) && (n <=? 32) || (n =? 133) || (n =? 160))%N.

Fixpoint lstrip (s : string) : string :=
  match s with
  | EmptyString => EmptyString
  | String c s' => if is_space c then lstrip s' else s
  end.

Fixpoint rstrip (s : string) : string :=
  match s with
  | EmptyString => EmptyString
  | String c s' =>
      match rstrip s' with
      | EmptyString => if is_space c then EmptyString else String c EmptyString
      | rest => String c rest
      end
  end.

(** [s.strip()]. *)
Definition strip (s : string) : string := rstrip (lstrip s).

(** [c.lower()], for a code point below 256: the letters [A-Z] and the
    capital letters of Latin-1 ([0xC0..0xDE], the multiplication sign
    [0xD7] apart). *)
Definition lower_char (c : ascii) : ascii :=
  let n := N_of_ascii c in
  if ((65 <=? n) && (n <=? 90) || (192 <=? n) && (n <=? 222) && negb (n =? 215))%N
  then ascii_of_N (n + 32)
  else c.

(** [s.lower()]. *)
Fixpoint lower (s : string) : string :=
  match s with
  | EmptyString => EmptyString
  | String c s' => String (lower_char c) (lower s')
  end.

Fixpoint contains (c : ascii) (s : string) : bool :=
  match s with
  | EmptyString => false
  | String d s' => Ascii.eqb c d || contains c s'
  end.

(** The quote [repr] chooses: a double quote when the string holds a
    single quote and no double quote, a single quote otherwise. *)
Definition repr_quote (s : string) : ascii :=
  if contains "'"%char s && negb (contains "034"%char s) then "034"%char else "'"%char.

(** [c.isprintable()], for a code point from 128 up to 255. *)
Definition printable_latin1 (n : N) : bool :=
  ((161 <=? n) && negb (n =? 173))%N.

Definition repr_char (q c : ascii) : string :=
  let n := N_of_ascii c in
  if Ascii.eqb c q || (n =? 92)%N then String "092"%char (String c EmptyString)
  else if (n =? 9)%N then String "092"%char "t"
  else if (n =? 10)%N then String "092"%char "n"
  else if (n =? 13)%N then String "092"%char "r"
  else if (n <? 32)%N || (n =? 127)%N || (127 <? n)%N && negb (printable_latin1 n)
  then String "092"%char ("x" +:+ PyStr.two_digits (Z.of_N n))
  else String c EmptyString.

Fixpoint repr_chars (q : ascii) (s : string) : string :=
  match s with
  | EmptyString => EmptyString
  | String c s' => repr_char q c +:+ repr_chars q s'
  end.

(** [repr(s)] of a string. *)
Definition repr_str (s : string) : string :=
  let q := repr_quote s in
  String q (repr_chars q s) +:+ String q EmptyString.

(** [repr(l)] of a list of strings, as an f-string renders it. *)
Definition repr_list (l : list string) : string :=
  "[" +:+ PyStr.join ", " (map repr_str l) +:+ "]".

End PyBuiltins.

Section Driver.
Context {E RM DC : Type} `{Environment E RM DC}.
Context {G : Type} `{RandomSource G}.

(** The [except] clause of [main]. *)
Definition main_failed (e : exn) (w : World E DC) : World E DC :=
  snd (logger_error ("Twin connection failed with IoTHub: " +:+ exn_str e)
         (snd (logger_info ("Exception occurred: " +:+ exn_str e) w))).

(** [main]. [count_input] is the outcome of
    [int(input("Enter number to generate MacIDs: "))] and [answer] that
    of the second [input], were it reached; [list_of_set] and [fuel] are
    those of [generate_mac_addresses], and the two schedules those of the
    two batches. [None]: the run does not come to its end within the fuel
    and the schedules. The result comes with the state of the random
    source and the world. *)
Definition main (list_of_set : gset string -> list string) (fuel : nat)
    (schedule1 schedule2 : list nat) (count_input : result Z) (answer : result string)
    (g : G) (w : World E DC) : option (result unit * G * World E DC) :=
  match count_input with
  | Raise e => Some (Raise e, g, w)
  | Ok num_of_ids =>
      let device_handler :=
        init "<your-iothub-hostname>" "<your-iothub-shared-access-key-name>"
             "<your-iothub-shared-access-key>" in
      match connect_hub device_handler w with
      | (Raise e, w1) => Some (Ok tt, g, main_failed e w1)
      | (Ok device_handler, w1) =>
          match GenerateMacID.generate_mac_addresses list_of_set fuel num_of_ids g with
          | None => None
          | Some (mac_ids, g') =>
              let w2 := snd (logger_info ("mac_ids: " +:+ PyBuiltins.repr_list mac_ids) w1) in
              match create_devices_from_list schedule1 device_handler mac_ids w2 with
              | None => None
              | Some (Raise e, _, w3) => Some (Ok tt, g', main_failed e w3)
              | Some (Ok all_credentials, _, w3) =>
                  match answer with
                  | Raise e => Some (Ok tt, g', main_failed e w3)
                  | Ok user_response =>
                      if String.eqb (PyBuiltins.lower (PyBuiltins.strip user_response)) "yes"
                      then
                        let w4 := snd (logger_info "Connecting all devices..." w3) in
                        match connect_all_devices schedule2 all_credentials w4 with
                        | None => None
                        | Some (Raise e, _, w5) => Some (Ok tt, g', main_failed e w5)
                        | Some (Ok _, _, w5) => Some (Ok tt, g', w5)
                        end
                      else
                        Some (Ok tt, g',
                              snd (logger_info
                                     "Device creation completed. Devices are not connected."
                                     w3))
                  end
              end
          end
      end
  end.

End Driver.

(** The hub of [sim_down] cannot be reached. *)
Definition sim_down : Sim :=
  {| hub_down := true; registered := []; rejected := []; rotating := false;
     epoch := 0; unreachable := []; io_plan := [] |}.

(** ** Vocabulary of the further properties

    The [files] of a world are the files the program opens itself, of
    which the statements below concern the credential file only. The log
    file of the run, to which the handler of the logger appends every
    record, is not among them: what it receives are the [Logged] records
    of the history, in their order. *)

(** The three octets [generate_mac] draws, in the order of the draws. *)
Definition draw_octets {G : Type} `{RandomSource G} (g : G) : Z * Z * Z :=
  let '(r1, g1) := randint 0x00 0x7f g in
  let '(r2, g2) := randint 0x00 0xff g1 in
  let '(r3, _) := randint 0x00 0xff g2 in
  (r1, r2, r3).

(** The non-empty results returned for [device_id], in the order of the
    positions that hold [device_id]. *)
Definition results_for (device_id : string) (device_ids : list string)
    (results : list (dict pyval)) : list (dict pyval) :=
  omap (fun kv : string * dict pyval =>
          if String.eqb kv.1 device_id && dict_truthy kv.2 then Some kv.2 else None)
       (combine device_ids results).

(** The test [main] makes on the answer to its question. *)
Definition answered_yes (answer : result string) : bool :=
  match answer with
  | Ok user_response =>
      String.eqb (PyBuiltins.lower (PyBuiltins.strip user_response)) "yes"
  | Raise _ => false
  end.

(** A string of whitespace only. *)
Fixpoint blank (s : string) : bool :=
  match s with
  | EmptyString => true
  | String c s' => PyBuiltins.is_space c && blank s'
  end.

(** The connection string [main] opens its registry session with. *)
Definition main_connection_string : string :=
  "HostName=<your-iothub-hostname>;"
  +:+ "SharedAccessKeyName=<your-iothub-shared-access-key-name>;"
  +:+ "SharedAccessKey=<your-iothub-shared-access-key>".

Section Vocabulary2.
Context {E RM DC : Type} `{Environment E RM DC}.

(** Statements run one after the other, as a plain loop would run them:
    the results in order, up to the first that raises. *)
Fixpoint run_in_order {A : Type} (bodies : list (M E DC A)) : M E DC (list A) :=
  match bodies with
  | [] => ret []
  | body :: bodies' =>
      bind body (fun a => bind (run_in_order bodies') (fun results => ret (a :: results)))
  end.

(** [confined R c]: whenever the task [c] is resumed, in any world, the
    world it leaves is related by [R] to the one it was resumed in. *)
Inductive confined {A : Type} (R : World E DC -> World E DC -> Prop)
    : Coro E DC A -> Prop :=
| confined_done r : confined R (Done r)
| confined_step continue effect :
    (forall w, R w (effect w)) ->
    (forall w, confined R (continue w)) ->
    confined R (Suspended continue effect).

(** [w'] extends [w]: the credential file as it was, and a history that
    continues the one of [w] with events that satisfy [P]. *)
Definition extends (P : event DC -> Prop) (w w' : World E DC) : Prop :=
  files w' !! file_path = files w !! file_path
  /\ exists evs, history w' = history w ++ evs /\ Forall P evs.

(** The history of [w'] continues the one of [w] with events that
    satisfy [P]. *)
Definition adds (P : event DC -> Prop) (w w' : World E DC) : Prop :=
  exists evs, history w' = history w ++ evs /\ Forall P evs.

(** Events of the registry that concern one of [device_ids], and log
    records. *)
Definition registry_event (device_ids : list string) (ev : event DC) : Prop :=
  match ev with
  | Logged _ _ => True
  | Called (CallGetDevice device_id) _ => device_id ∈ device_ids
  | Called (CallCreateDeviceWithSas device_id primary secondary status) _ =>
      device_id ∈ device_ids /\ primary = PNone /\ secondary = PNone /\ status = "enabled"
  | Called _ _ => False
  end.

(** Events of the device clients, and log records. *)
Definition client_event (ev : event DC) : Prop :=
  match ev with
  | Logged _ _ => True
  | Called (CallClientCreate _) _ => True
  | Called (CallConnect _) _ => True
  | Called (CallDisconnect _) _ => True
  | Called _ _ => False
  end.

(** Operations on the credential file, and log records. *)
Definition file_event (ev : event DC) : Prop :=
  match ev with
  | Logged _ _ => True
  | Called (CallFile (FOpen path mode)) _ => path = file_path /\ mode = "w"
  | Called (CallFile (FWrite path _)) _ => path = file_path
  | Called (CallFile (FClose path)) _ => path = file_path
  | Called _ _ => False
  end.

(** Log records only. *)
Definition log_event (ev : event DC) : Prop :=
  match ev with
  | Logged _ _ => True
  | Called _ _ => False
  end.

(** A call on a device client. *)
Definition is_client_call (ev : event DC) : bool :=
  match ev with
  | Called (CallClientCreate _) _ => true
  | Called (CallConnect _) _ => true
  | Called (CallDisconnect _) _ => true
  | _ => false
  end.


(** What a run of [main] may do: log; open the registry session with its
    connection string; fetch devices whose identifier has the format of
    an identifier of the generator, and create them with no keys and
    status ["enabled"]; operate on the credential file; and, when
    [connects] holds, call device clients. *)
Definition main_event (connects : bool) (ev : event DC) : Prop :=
  match ev with
  | Logged _ _ => True
  | Called (CallRegistryFromConnectionString cs) _ => cs = main_connection_string
  | Called (CallGetDevice device_id) _ => GenerateMacID.mac_format device_id = true
  | Called (CallCreateDeviceWithSas device_id primary secondary status) _ =>
      GenerateMacID.mac_format device_id = true
      /\ primary = PNone /\ secondary = PNone /\ status = "enabled"
  | Called (CallFile _) _ => file_event ev
  | Called _ _ => connects = true
  end.



(** [merges traces evs]: [evs] is an interleaving of the lists [traces];
    it holds the events of every list, those of one list in their order. *)
Inductive merges {A : Type} : list (list A) -> list A -> Prop :=
| merges_nil traces : Forall (fun t => t = []) traces -> merges traces []
| merges_cons i a t traces evs :
    traces !! i = Some (a :: t) ->
    merges (<[i := t]> traces) evs ->
    merges traces (a :: evs).

(** [plays c Q]: the events the task [c] adds to the history from now
    until it returns, in any worlds, form a list that satisfies [Q]. *)
Fixpoint plays {A : Type} (c : Coro E DC A) (Q : list (event DC) -> Prop) : Prop :=
  match c with
  | Done (Ok _) => Q []
  | Done (Raise _) => True
  | Suspended continue effect =>
      forall w, exists evs,
        history (effect w) = history w ++ evs
        /\ plays (continue w) (fun t => Q (evs ++ t))
  end.

(** The events of one connectivity check for a credential: the device
    client is asked for with the connection string of the credential;
    when that returns a client, [connect] is called on it; when that
    returns, the success is logged and [disconnect] is called on the
    same client; and the exception of the call that raised is logged. *)
Definition connect_trace (device_credential : dict pyval) (t : list (event DC)) : Prop :=
  exists cs id,
    connection_string_of device_credential = Ok cs
    /\ dict_getitem device_credential "device_id" = Ok id
    /\ ((exists x, t = [Called (CallClientCreate cs) false;
                        Logged ERROR (connect_failed_message id x)])
        \/ exists client,
             (exists x, t = [Called (CallClientCreate cs) true;
                             Called (CallConnect client) false;
                             Logged ERROR (connect_failed_message id x)])
             \/ t = [Called (CallClientCreate cs) true;
                     Called (CallConnect client) true;
                     Logged INFO (connected_message id);
                     Called (CallDisconnect client) true]
             \/ exists x, t = [Called (CallClientCreate cs) true;
                               Called (CallConnect client) true;
                               Logged INFO (connected_message id);
                               Called (CallDisconnect client) false;
                               Logged ERROR (connect_failed_message id x)]).

End Vocabulary2.

(** * Properties of the identifier generator *)

Example generate_mac_lcg :
  fst (GenerateMacID.generate_mac (1 : Z)) = "00-16-3e-46-7e-81".
Proof. vm_compute. reflexivity. Qed.

Example generate_mac_enum :
  fst (GenerateMacID.generate_mac (3 * 300)%nat) = "00-16-3e-2c-02-00".
Proof. vm_compute. reflexivity. Qed.

Example mac_format_enum :
  GenerateMacID.mac_format "00-16-3e-2c-02-00" = true
  /\ GenerateMacID.mac_format "00-16-3e-8c-02-00" = false
  /\ GenerateMacID.mac_format "00-16-3E-2c-02-00" = false
  /\ GenerateMacID.mac_format "00:16:3e:2c:02:00" = false.
Proof. vm_compute. repeat split. Qed.

Example generate_three_lcg :
  option_map fst (GenerateMacID.generate_mac_addresses elements 3 3 (1 : Z))
  = Some ["00-16-3e-62-fb-54"; "00-16-3e-6b-4b-fb"; "00-16-3e-46-7e-81"].
Proof. vm_compute. reflexivity. Qed.

(** Linear arithmetic with division and remainder by constants. *)
Ltac zdiv := Z.to_euclidean_division_equations; lia.

(** ** Formatting of octets *)

Section Formatting.
Import PyStr.

Lemma format_02x_table :
  forallb (fun n : nat => String.eqb (format_02x (Z.of_nat n)) (two_digits (Z.of_nat n)))
          (seq 0 256) = true.
Proof. vm_compute. reflexivity. Qed.

Lemma format_02x_octet (x : Z) :
  0 <= x < 256 -> format_02x x = two_digits x.
Proof.
  intros Hx. pose proof format_02x_table as T.
  rewrite forallb_forall in T.
  specialize (T (Z.to_nat x)).
  rewrite Z2Nat.id in T by lia.
  apply String.eqb_eq, T, in_seq. lia.
Qed.

Lemma hex_digit_table :
  forallb (fun n : nat =>
             is_lower_hex (hex_digit (Z.of_nat n))
             && (hex_value (hex_digit (Z.of_nat n)) =? Z.of_nat n))
          (seq 0 16) = true.
Proof. vm_compute. reflexivity. Qed.

Lemma hex_digit_spec (d : Z) :
  0 <= d < 16 ->
  is_lower_hex (hex_digit d) = true /\ hex_value (hex_digit d) = d.
Proof.
  intros Hd. pose proof hex_digit_table as T.
  rewrite forallb_forall in T.
  specialize (T (Z.to_nat d)).
  rewrite Z2Nat.id in T by lia.
  assert (In (Z.to_nat d) (seq 0 16)) as Hin by (apply in_seq; lia).
  apply T in Hin. apply andb_true_iff in Hin as [H1 H2].
  split; [exact H1 | lia].
Qed.

Lemma hex_digit_inj (d e : Z) :
  0 <= d < 16 -> 0 <= e < 16 -> hex_digit d = hex_digit e -> d = e.
Proof.
  intros Hd He Heq.
  rewrite <- (proj2 (hex_digit_spec d Hd)), <- (proj2 (hex_digit_spec e He)).
  now rewrite Heq.
Qed.

Lemma two_digits_inj (x y : Z) :
  0 <= x < 256 -> 0 <= y < 256 -> two_digits x = two_digits y -> x = y.
Proof.
  intros Hx Hy Heq. unfold two_digits in Heq.
  injection Heq as H1 H2.
  apply hex_digit_inj in H1; [| zdiv ..].
  apply hex_digit_inj in H2; [| zdiv ..].
  zdiv.
Qed.

End Formatting.

(** ** The identifier space *)

Section Space.
Import PyStr GenerateMacID.

Lemma mac_of_octets_eq (r1 r2 r3 : Z) :
  0 <= r1 < 256 -> 0 <= r2 < 256 -> 0 <= r3 < 256 ->
  mac_of_octets r1 r2 r3
  = ("00-16-3e-" ++ two_digits r1 ++ "-" ++ two_digits r2 ++ "-" ++ two_digits r3)%string.
Proof.
  intros H1 H2 H3. unfold mac_of_octets, map, join.
  rewrite (format_02x_octet r1), (format_02x_octet r2), (format_02x_octet r3) by assumption.
  reflexivity.
Qed.

Lemma mac_of_octets_inj (r1 r2 r3 q1 q2 q3 : Z) :
  0 <= r1 < 256 -> 0 <= r2 < 256 -> 0 <= r3 < 256 ->
  0 <= q1 < 256 -> 0 <= q2 < 256 -> 0 <= q3 < 256 ->
  mac_of_octets r1 r2 r3 = mac_of_octets q1 q2 q3 ->
  r1 = q1 /\ r2 = q2 /\ r3 = q3.
Proof.
  intros Hr1 Hr2 Hr3 Hq1 Hq2 Hq3 Heq.
  rewrite !mac_of_octets_eq in Heq by assumption.
  unfold two_digits in Heq. cbn [String.append] in Heq.
  injection Heq as A1 A2 B1 B2 C1 C2.
  repeat split; apply two_digits_inj; try assumption; unfold two_digits; congruence.
Qed.

Lemma mac_of_octets_format (r1 r2 r3 : Z) :
  0 <= r1 < 128 -> 0 <= r2 < 256 -> 0 <= r3 < 256 ->
  mac_format (mac_of_octets r1 r2 r3) = true.
Proof.
  intros H1 H2 H3. rewrite mac_of_octets_eq by lia.
  destruct (hex_digit_spec (r1 / 16)) as [L1 V1]; [zdiv |].
  destruct (hex_digit_spec (r1 mod 16)) as [L2 _]; [zdiv |].
  destruct (hex_digit_spec (r2 / 16)) as [L3 _]; [zdiv |].
  destruct (hex_digit_spec (r2 mod 16)) as [L4 _]; [zdiv |].
  destruct (hex_digit_spec (r3 / 16)) as [L5 _]; [zdiv |].
  destruct (hex_digit_spec (r3 mod 16)) as [L6 _]; [zdiv |].
  unfold mac_format, two_digits.
  cbv [String.append list_ascii_of_string forallb string_of_list_ascii].
  rewrite L1, L2, L3, L4, L5, L6, V1.
  assert ((r1 / 16 <? 8) = true) as -> by (apply Z.ltb_lt; zdiv).
  reflexivity.
Qed.

Lemma generate_mac_octets {G : Type} `{RandomSource G} (g : G) :
  exists r1 r2 r3 : Z,
    0 <= r1 < 128 /\ 0 <= r2 < 256 /\ 0 <= r3 < 256
    /\ fst (generate_mac g) = mac_of_octets r1 r2 r3.
Proof.
  unfold generate_mac.
  pose proof (randint_range 0x00 0x7f g) as R1.
  destruct (randint 0x00 0x7f g) as [r1 g1].
  pose proof (randint_range 0x00 0xff g1) as R2.
  destruct (randint 0x00 0xff g1) as [r2 g2].
  pose proof (randint_range 0x00 0xff g2) as R3.
  destruct (randint 0x00 0xff g2) as [r3 g3].
  exists r1, r2, r3. cbn [fst] in *.
  repeat split; try lia.
Qed.

Lemma mac_of_code_inj (c d : Z) :
  0 <= c < mac_space_size -> 0 <= d < mac_space_size ->
  mac_of_code c = mac_of_code d -> c = d.
Proof.
  unfold mac_space_size, mac_of_code. intros Hc Hd Heq.
  apply mac_of_octets_inj in Heq as (E1 & E2 & E3); zdiv.
Qed.

Lemma elem_of_mac_space (mac : string) :
  mac ∈ mac_space <->
  exists r1 r2 r3 : Z,
    0 <= r1 < 128 /\ 0 <= r2 < 256 /\ 0 <= r3 < 256 /\ mac = mac_of_octets r1 r2 r3.
Proof.
  unfold mac_space. rewrite elem_of_map. split.
  - intros (n & -> & Hn). apply elem_of_set_seq in Hn.
    unfold mac_space_size in Hn. unfold mac_of_code.
    exists (Z.of_nat n / 65536), ((Z.of_nat n / 256) mod 256), (Z.of_nat n mod 256).
    repeat split; zdiv.
  - intros (r1 & r2 & r3 & H1 & H2 & H3 & ->).
    exists (Z.to_nat (r1 * 65536 + r2 * 256 + r3)). split.
    + unfold mac_of_code. rewrite Z2Nat.id by lia. f_equal; zdiv.
    + apply elem_of_set_seq. unfold mac_space_size. lia.
Qed.

Lemma size_set_map_inj (f : nat -> string) (X : gset nat) :
  (forall x y, x ∈ X -> y ∈ X -> f x = f y -> x = y) ->
  size (set_map f X : gset string) = size X.
Proof.
  intros Hinj. unfold set_map.
  rewrite size_list_to_set.
  - now rewrite length_fmap.
  - apply NoDup_fmap_2_strong; [| apply NoDup_elements].
    intros x y Hx%elem_of_elements Hy%elem_of_elements. now apply Hinj.
Qed.

Lemma size_mac_space : Z.of_nat (size mac_space) = mac_space_size.
Proof.
  unfold mac_space.
  rewrite size_set_map_inj.
  - rewrite size_set_seq. unfold mac_space_size. lia.
  - intros x y Hx%elem_of_set_seq Hy%elem_of_set_seq Heq.
    apply mac_of_code_inj in Heq; lia.
Qed.

(** The space is only ever used through the two lemmas above: it has
    [2 ^ 23] elements and is not meant to be computed. *)
#[global] Opaque mac_space.

Lemma generate_mac_in_space {G : Type} `{RandomSource G} (g : G) :
  fst (generate_mac g) ∈ mac_space.
Proof.
  destruct (generate_mac_octets g) as (r1 & r2 & r3 & H1 & H2 & H3 & ->).
  apply elem_of_mac_space. exists r1, r2, r3. auto.
Qed.

Lemma mac_space_format (mac : string) :
  mac ∈ mac_space -> mac_format mac = true.
Proof.
  intros (r1 & r2 & r3 & H1 & H2 & H3 & ->)%elem_of_mac_space.
  now apply mac_of_octets_format.
Qed.

End Space.

(** ** The uniqueness loop *)

Lemma union_swap (a b c : gset string) : a ∪ b ∪ c = b ∪ (a ∪ c).
Proof.
  apply set_eq. intros x. rewrite !elem_of_union. tauto.
Qed.

Section Loop.
Import GenerateMacID.
Context {G : Type} `{RandomSource G}.

Lemma generate_loop_unfold (fuel : nat) (count : Z) (s : gset string) (g : G) :
  generate_loop fuel count s g =
  if Z.of_nat (size s) <? count then
    match fuel with
    | O => None
    | S fuel' =>
        generate_loop fuel' count ({[ fst (generate_mac g) ]} ∪ s) (snd (generate_mac g))
    end
  else Some (s, g).
Proof. destruct fuel; cbn; [reflexivity |]. now destruct (generate_mac g). Qed.

Lemma drawn_S (n : nat) (g : G) :
  drawn (S n) g = {[ fst (generate_mac g) ]} ∪ drawn n (snd (generate_mac g)).
Proof. cbn. now destruct (generate_mac g). Qed.

Lemma elem_of_drawn (n : nat) (g : G) (mac : string) :
  mac ∈ drawn n g <-> exists i : nat, (i < n)%nat /\ fst (generate_mac (after i g)) = mac.
Proof.
  revert g. induction n as [| n IH]; intros g.
  - cbn. split; [intros []%elem_of_empty | intros (i & Hi & _); lia].
  - rewrite drawn_S, elem_of_union, elem_of_singleton, IH. split.
    + intros [-> | (i & Hi & <-)]; [exists 0%nat | exists (S i)]; split; auto; lia.
    + intros ([| i] & Hi & <-); [left; reflexivity | right].
      exists i. split; [lia | reflexivity].
Qed.

Lemma drawn_in_space (n : nat) (g : G) : drawn n g ⊆ mac_space.
Proof.
  intros mac (i & _ & <-)%elem_of_drawn. apply generate_mac_in_space.
Qed.

(** The loop returns after some number [n] of executions of its body,
    with the identifiers drawn by them added to the set. *)
Lemma generate_loop_drawn (fuel : nat) (count : Z) (s s' : gset string) (g g' : G) :
  generate_loop fuel count s g = Some (s', g') ->
  exists n : nat, (n <= fuel)%nat /\ s' = drawn n g ∪ s /\ g' = after n g
                  /\ (Z.of_nat (size s') <? count) = false
                  /\ (forall i, (i < n)%nat -> Z.of_nat (size (drawn i g ∪ s)) < count).
Proof.
  revert s g. induction fuel as [| fuel IH]; intros s g; rewrite generate_loop_unfold;
    destruct (Z.of_nat (size s) <? count) eqn:Hlt; try discriminate.
  - intros ?; simplify_eq. exists 0%nat. cbn. rewrite (left_id_L ∅ (∪)).
    repeat split; auto; intros; lia.
  - intros Hloop. apply IH in Hloop as (n & Hn & Hs' & Hg' & Hstop & Hrun).
    exists (S n). rewrite drawn_S.
    assert (forall i, {[(generate_mac g).1]} ∪ drawn i (generate_mac g).2 ∪ s
                      = drawn i (generate_mac g).2 ∪ ({[(generate_mac g).1]} ∪ s))
      as Hassoc by (intros i; apply union_swap).
    rewrite Hassoc. repeat split; auto; [lia |].
    intros [| i] Hi.
    + cbn. rewrite (left_id_L ∅ (∪)). lia.
    + rewrite drawn_S, Hassoc. apply Hrun. lia.
  - intros ?; simplify_eq. exists 0%nat. cbn. rewrite (left_id_L ∅ (∪)).
    repeat split; auto; intros; lia.
Qed.

Lemma size_insert_le (mac : string) (s : gset string) :
  (size ({[ mac ]} ∪ s) <= S (size s))%nat.
Proof.
  rewrite size_union_alt, size_singleton.
  assert (s ∖ {[mac]} ⊆ s) as Hsub%subseteq_size by apply subseteq_difference_l, reflexivity.
  lia.
Qed.

(** Result of the loop: every identifier of the start set is kept, the
    set reaches the requested size and, starting below it, stops exactly
    there. *)
Lemma generate_loop_size (fuel : nat) (count : Z) (s s' : gset string) (g g' : G) :
  generate_loop fuel count s g = Some (s', g') ->
  Z.of_nat (size s) <= count -> Z.of_nat (size s') = count.
Proof.
  revert s g. induction fuel as [| fuel IH]; intros s g; rewrite generate_loop_unfold;
    destruct (Z.of_nat (size s) <? count) eqn:Hlt; try discriminate.
  - intros ? ?; simplify_eq. lia.
  - intros Hrun _. apply IH in Hrun; [exact Hrun |].
    pose proof (size_insert_le (generate_mac g).1 s). lia.
  - intros ? ?; simplify_eq. lia.
Qed.

Lemma generate_loop_enough (n : nat) (count : Z) (s : gset string) (g : G) :
  count <= Z.of_nat (size (drawn n g ∪ s)) ->
  exists r, generate_loop n count s g = Some r.
Proof.
  revert s g. induction n as [| n IH]; intros s g Hsize; rewrite generate_loop_unfold;
    destruct (Z.of_nat (size s) <? count) eqn:Hlt; eauto.
  - cbn in Hsize. rewrite (left_id_L ∅ (∪)) in Hsize. lia.
  - apply IH. rewrite drawn_S in Hsize.
    replace (drawn n (generate_mac g).2 ∪ ({[(generate_mac g).1]} ∪ s))
      with ({[(generate_mac g).1]} ∪ drawn n (generate_mac g).2 ∪ s); [exact Hsize |].
    apply union_swap.
Qed.

Lemma generate_loop_fuel_mono (fuel fuel' : nat) (count : Z) (s : gset string) (g : G) r :
  generate_loop fuel count s g = Some r -> (fuel <= fuel')%nat ->
  generate_loop fuel' count s g = Some r.
Proof.
  revert fuel' s g. induction fuel as [| fuel IH]; intros fuel' s g;
    rewrite !(generate_loop_unfold _ count s g);
    destruct (Z.of_nat (size s) <? count) eqn:Hlt; try discriminate; auto.
  intros Hrun Hle. destruct fuel' as [| fuel']; [lia |].
  apply IH; [exact Hrun | lia].
Qed.

(** Above the size of the identifier space the loop condition never
    becomes false. *)
Lemma generate_loop_starves (fuel : nat) (count : Z) (s : gset string) (g : G) :
  s ⊆ mac_space -> mac_space_size < count -> generate_loop fuel count s g = None.
Proof.
  revert s g. induction fuel as [| fuel IH]; intros s g Hsub Hbig;
    rewrite generate_loop_unfold;
    pose proof (subseteq_size _ _ Hsub) as Hsize;
    pose proof size_mac_space as Hspace;
    (destruct (Z.of_nat (size s) <? count) eqn:Hlt; [| lia]); [reflexivity |].
  apply IH; [| exact Hbig].
  apply union_subseteq. split; [| exact Hsub].
  apply singleton_subseteq_l, generate_mac_in_space.
Qed.

(** A fair source eventually draws any requested number of distinct
    identifiers, up to the size of the space. *)
Lemma fair_covers (g : G) (k : nat) :
  fair g -> Z.of_nat k <= mac_space_size ->
  exists n : nat, (k <= size (drawn n g))%nat.
Proof.
  intros Hfair. induction k as [| k IH]; intros Hk.
  - exists 0%nat. lia.
  - destruct IH as [n Hn]; [lia |].
    destruct (decide (S k <= size (drawn n g))%nat) as [Hdone | Hmore]; [eauto |].
    assert (size (drawn n g) = k) as Hsize by lia.
    pose proof (drawn_in_space n g) as Hsub.
    pose proof size_mac_space as Hspace.
    assert (exists mac, mac ∈ mac_space ∖ drawn n g) as [mac Hmac].
    { apply size_pos_elem_of. rewrite size_difference by exact Hsub. lia. }
    apply elem_of_difference in Hmac as [Hin Hnew].
    destruct (Hfair n mac Hin) as (j & Hj & Hdraw).
    exists (S j).
    assert ({[ mac ]} ∪ drawn n g ⊆ drawn (S j) g) as Hincl.
    { intros x [->%elem_of_singleton | (i & Hi & <-)%elem_of_drawn]%elem_of_union;
        apply elem_of_drawn; [exists j | exists i]; split; auto; lia. }
    apply subseteq_size in Hincl.
    rewrite size_union, size_singleton in Hincl by now apply disjoint_singleton_l.
    lia.
Qed.

End Loop.

(** ** The enumerating source is fair *)

Section Enumeration.
Import GenerateMacID.

Lemma enum_randint (a b : Z) (k : nat) (r : Z) :
  0 <= r < 3 ->
  randint a b (Z.to_nat (3 * Z.of_nat k + r))
  = (a + (Z.of_nat k / enum_weight r) mod (b - a + 1), S (Z.to_nat (3 * Z.of_nat k + r))).
Proof.
  intros Hr. cbn [randint enum_source]. rewrite Z2Nat.id by lia.
  replace ((3 * Z.of_nat k + r) / 3) with (Z.of_nat k) by zdiv.
  replace ((3 * Z.of_nat k + r) mod 3) with r by zdiv.
  reflexivity.
Qed.

Lemma enum_generate_mac (k : nat) :
  generate_mac (3 * k)%nat
  = (mac_of_octets (Z.of_nat k mod 128) ((Z.of_nat k / 128) mod 256)
                   ((Z.of_nat k / 32768) mod 256),
     (3 * S k)%nat).
Proof.
  unfold generate_mac.
  replace (3 * k)%nat with (Z.to_nat (3 * Z.of_nat k + 0)) by lia.
  rewrite enum_randint by lia.
  replace (S (Z.to_nat (3 * Z.of_nat k + 0))) with (Z.to_nat (3 * Z.of_nat k + 1)) by lia.
  rewrite enum_randint by lia.
  replace (S (Z.to_nat (3 * Z.of_nat k + 1))) with (Z.to_nat (3 * Z.of_nat k + 2)) by lia.
  rewrite enum_randint by lia.
  unfold mac_of_octets. f_equal.
  - change (enum_weight 0) with 1. change (enum_weight 1) with 128.
    change (enum_weight 2) with 32768. rewrite Z.div_1_r. reflexivity.
  - lia.
Qed.

Lemma enum_after (n k : nat) : after n (3 * k)%nat = (3 * (k + n))%nat.
Proof.
  revert k. induction n as [| n IH]; intros k; cbn [after].
  - f_equal. lia.
  - rewrite enum_generate_mac. cbn [snd]. rewrite IH. f_equal. lia.
Qed.

Lemma enum_fair : fair (G := nat) 0%nat.
Proof.
  intros n mac (r1 & r2 & r3 & H1 & H2 & H3 & ->)%elem_of_mac_space.
  exists (Z.to_nat (r1 + 128 * r2 + 32768 * r3 + 8388608 * Z.of_nat n)).
  split; [lia |].
  change 0%nat with (3 * 0)%nat. rewrite enum_after, enum_generate_mac. cbn [fst].
  rewrite Nat.add_0_l, Z2Nat.id by lia.
  f_equal; zdiv.
Qed.

End Enumeration.

(** ** Results on [generate_mac_addresses] *)

Section GeneratorResults.
Import GenerateMacID.

(** What a returned list looks like, for any source and any fuel: the
    requested number of identifiers (none for a count below zero), pairwise
    distinct, all of the identifier space. *)
Lemma generate_mac_addresses_sound {G : Type} `{RandomSource G}
    (list_of_set : gset string -> list string)
    (Hperm : forall s, list_of_set s ≡ₚ elements s)
    (fuel : nat) (count : Z) (g g' : G) (ids : list string) :
  generate_mac_addresses list_of_set fuel count g = Some (ids, g') ->
  Z.of_nat (length ids) = Z.max count 0
  /\ NoDup ids
  /\ Forall (fun mac => mac ∈ mac_space) ids.
Proof.
  unfold generate_mac_addresses.
  destruct (generate_loop fuel count ∅ g) as [[s g1] |] eqn:Hloop; [| discriminate].
  intros ?; simplify_eq.
  pose proof (generate_loop_drawn _ _ _ _ _ _ Hloop) as (n & _ & Hs & _ & Hstop & _).
  rewrite (right_id_L ∅ (∪)) in Hs.
  repeat split.
  - rewrite (Hperm s). change (length (elements s)) with (size s).
    destruct (Z.of_nat (size (∅ : gset string)) <=? count) eqn:Hle.
    + apply Z.leb_le in Hle.
      rewrite (generate_loop_size _ _ _ _ _ _ Hloop Hle). rewrite size_empty in Hle. lia.
    + rewrite size_empty in Hle. apply Z.leb_gt in Hle.
      rewrite generate_loop_unfold, size_empty in Hloop.
      destruct (Z.of_nat 0 <? count) eqn:Hpos; [apply Z.ltb_lt in Hpos; lia |].
      clear Hs. simplify_eq. rewrite size_empty. lia.
  - rewrite (Hperm s). apply NoDup_elements.
  - apply Forall_forall. intros mac Hin.
    rewrite (Hperm s) in Hin. apply elem_of_elements in Hin.
    subst s. now apply (drawn_in_space n g).
Qed.

Lemma same_draws_generate_mac {G1 G2 : Type} `{RandomSource G1} `{RandomSource G2}
    (R : G1 -> G2 -> Prop) (g1 : G1) (g2 : G2) :
  same_draws R -> R g1 g2 ->
  fst (generate_mac g1) = fst (generate_mac g2)
  /\ R (snd (generate_mac g1)) (snd (generate_mac g2)).
Proof.
  intros Hsim HR. unfold generate_mac.
  destruct (Hsim 0x00 0x7f g1 g2 HR) as [E1 R1].
  destruct (randint 0x00 0x7f g1) as [a1 h1], (randint 0x00 0x7f g2) as [a2 h2].
  cbn [fst snd] in E1, R1.
  destruct (Hsim 0x00 0xff h1 h2 R1) as [E2 R2].
  destruct (randint 0x00 0xff h1) as [b1 k1], (randint 0x00 0xff h2) as [b2 k2].
  cbn [fst snd] in E2, R2.
  destruct (Hsim 0x00 0xff k1 k2 R2) as [E3 R3].
  destruct (randint 0x00 0xff k1) as [c1 l1], (randint 0x00 0xff k2) as [c2 l2].
  cbn [fst snd] in *. subst. auto.
Qed.

Lemma same_draws_generate_loop {G1 G2 : Type} `{RandomSource G1} `{RandomSource G2}
    (R : G1 -> G2 -> Prop) (fuel : nat) (count : Z) (s : gset string)
    (g1 : G1) (g2 : G2) :
  same_draws R -> R g1 g2 ->
  match generate_loop fuel count s g1, generate_loop fuel count s g2 with
  | Some (s1, g1'), Some (s2, g2') => s1 = s2 /\ R g1' g2'
  | None, None => True
  | _, _ => False
  end.
Proof.
  intros Hsim. revert s g1 g2.
  induction fuel as [| fuel IH]; intros s g1 g2 HR.
  - rewrite !generate_loop_unfold. destruct (Z.of_nat (size s) <? count); auto.
  - rewrite !(generate_loop_unfold (S fuel)).
    destruct (Z.of_nat (size s) <? count); auto.
    destruct (same_draws_generate_mac R g1 g2 Hsim HR) as [-> HR'].
    now apply IH.
Qed.

End GeneratorResults.

(** ** The generator's contract *)

Section GeneratorClaims.
Import GenerateMacID.

(** C4, as amended. [generate_mac_addresses] raises nothing, and whenever
    it returns, the list holds exactly the requested number of identifiers
    (none when the count is not positive), pairwise distinct, each in the
    fixed format. With a fair random source it does return for every count
    from zero up to the size of the identifier space; a count of zero (or
    less) returns the empty list without executing the loop body and
    without touching the random source. *)
Theorem generate_mac_addresses_count {G : Type} `{RandomSource G}
    (list_of_set : gset string -> list string)
    (Hperm : forall s, list_of_set s ≡ₚ elements s) (g : G) (count : Z) :
  (forall fuel ids g',
      generate_mac_addresses list_of_set fuel count g = Some (ids, g') ->
      Z.of_nat (length ids) = Z.max count 0 /\ NoDup ids
      /\ Forall (fun mac => mac_format mac = true) ids)
  /\ (fair g -> 0 <= count <= mac_space_size ->
      exists fuel ids g',
        generate_mac_addresses list_of_set fuel count g = Some (ids, g')
        /\ Z.of_nat (length ids) = count /\ NoDup ids
        /\ Forall (fun mac => mac_format mac = true) ids)
  /\ (count <= 0 -> generate_mac_addresses list_of_set 0 count g = Some ([], g)).
Proof.
  assert (forall fuel ids g',
      generate_mac_addresses list_of_set fuel count g = Some (ids, g') ->
      Z.of_nat (length ids) = Z.max count 0 /\ NoDup ids
      /\ Forall (fun mac => mac_format mac = true) ids) as Hsound.
  { intros fuel ids g' Hrun.
    destruct (generate_mac_addresses_sound list_of_set Hperm _ _ _ _ _ Hrun)
      as (Hlen & Hnodup & Hall).
    repeat split; auto.
    rewrite Forall_forall in Hall. apply Forall_forall. intros mac Hin.
    exact (mac_space_format mac (Hall mac Hin)). }
  split; [exact Hsound |]. split.
  - intros Hfair [Hlo Hhi].
    destruct (fair_covers g (Z.to_nat count) Hfair) as [n Hn]; [lia |].
    destruct (generate_loop_enough n count ∅ g) as [[s g'] Hloop].
    { rewrite (right_id_L ∅ (∪)). lia. }
    exists n, (list_of_set s), g'.
    assert (generate_mac_addresses list_of_set n count g = Some (list_of_set s, g')) as Hrun
      by (unfold generate_mac_addresses; now rewrite Hloop).
    destruct (Hsound _ _ _ Hrun) as (Hlen & Hnodup & Hall).
    repeat split; auto. lia.
  - intros Hle. unfold generate_mac_addresses. rewrite generate_loop_unfold, size_empty.
    destruct (Z.of_nat 0 <? count) eqn:Hpos; [apply Z.ltb_lt in Hpos; lia |].
    f_equal. f_equal. apply Permutation_nil_r. symmetry.
    rewrite (Hperm ∅), elements_empty. reflexivity.
Qed.

(** The amended C4 at the enumerating source: three identifiers. *)
Lemma generate_mac_addresses_count_witness :
  (forall s : gset string, elements s ≡ₚ elements s)
  /\ fair (G := nat) 0%nat /\ 0 <= 3 <= mac_space_size
  /\ exists fuel ids g',
       generate_mac_addresses elements fuel 3 0%nat = Some (ids, g')
       /\ Z.of_nat (length ids) = 3 /\ NoDup ids
       /\ Forall (fun mac => mac_format mac = true) ids.
Proof.
  assert (forall s : gset string, elements s ≡ₚ elements s) as Hperm by reflexivity.
  assert (0 <= 3 <= mac_space_size) as Hcount by (unfold mac_space_size; lia).
  split; [exact Hperm |]. split; [exact enum_fair |]. split; [exact Hcount |].
  exact (proj1 (proj2 (generate_mac_addresses_count elements Hperm 0%nat 3))
           enum_fair Hcount).
Defined.

(** C4 as stated fails: a count one above the size of the identifier space
    is a count [>= 0] for which no source and no amount of fuel make
    [generate_mac_addresses] return. *)
Lemma generate_mac_addresses_count_fails :
  0 <= 8388609
  /\ (forall (G : Type) (RS : RandomSource G) (list_of_set : gset string -> list string)
             (g : G) (fuel : nat),
         generate_mac_addresses list_of_set fuel 8388609 g = None).
Proof.
  split; [lia |]. intros G RS list_of_set g fuel. unfold generate_mac_addresses.
  rewrite generate_loop_starves; [reflexivity | apply empty_subseteq |].
  unfold mac_space_size. lia.
Qed.

(** C10. The identifiers that [generate_mac] can return are exactly the
    [2 ^ 23] strings built from a fourth octet in [0x00..0x7f] and two
    octets in [0x00..0xff]: every call returns one of them, each of them is
    returned by some state of a source, and distinct octets give distinct
    strings. Hence the uniqueness loop of [generate_mac_addresses] returns,
    with a fair source, for every count up to [2 ^ 23], and for a count
    above [2 ^ 23] it does not return, whatever the source and the fuel. *)
Theorem mac_space_termination {G : Type} `{RandomSource G}
    (list_of_set : gset string -> list string) (g : G) :
  Z.of_nat (size mac_space) = 2 ^ 23
  /\ (forall mac, mac ∈ mac_space <->
        exists r1 r2 r3, 0x00 <= r1 <= 0x7f /\ 0x00 <= r2 <= 0xff /\ 0x00 <= r3 <= 0xff
                         /\ mac = mac_of_octets r1 r2 r3)
  /\ (forall g0 : G, fst (generate_mac g0) ∈ mac_space)
  /\ (forall mac, mac ∈ mac_space -> exists i : nat, fst (generate_mac i) = mac)
  /\ (fair g -> forall count, count <= 2 ^ 23 ->
        exists fuel ids g',
          generate_mac_addresses list_of_set fuel count g = Some (ids, g'))
  /\ (forall count fuel, 2 ^ 23 < count ->
        generate_mac_addresses list_of_set fuel count g = None).
Proof.
  split; [exact size_mac_space |]. split.
  { intros mac. rewrite elem_of_mac_space. split;
      intros (r1 & r2 & r3 & H1 & H2 & H3 & ->); exists r1, r2, r3;
      repeat split; lia. }
  split; [intros g0; apply generate_mac_in_space |]. split.
  { intros mac Hmac. destruct (enum_fair 0%nat mac Hmac) as (k & _ & Hk). eauto. }
  split.
  - intros Hfair count Hcount.
    destruct (fair_covers g (Z.to_nat count) Hfair) as [n Hn];
      [unfold mac_space_size; lia |].
    destruct (generate_loop_enough n count ∅ g) as [[s g'] Hloop].
    { rewrite (right_id_L ∅ (∪)). lia. }
    exists n, (list_of_set s), g'. unfold generate_mac_addresses. now rewrite Hloop.
  - intros count fuel Hcount. unfold generate_mac_addresses.
    rewrite generate_loop_starves; [reflexivity | apply empty_subseteq |].
    unfold mac_space_size. lia.
Qed.

(** C10 at the enumerating source, which is fair: a run for the whole
    identifier space returns. *)
Lemma mac_space_termination_witness :
  fair (G := nat) 0%nat /\ 8388608 <= 2 ^ 23
  /\ exists fuel ids g',
       generate_mac_addresses elements fuel 8388608 0%nat = Some (ids, g').
Proof.
  assert (8388608 <= 2 ^ 23) as Hcount by lia.
  split; [exact enum_fair |]. split; [exact Hcount |].
  exact (proj1 (proj2 (proj2 (proj2 (proj2 (mac_space_termination elements 0%nat)))))
           enum_fair 8388608 Hcount).
Defined.

(** C8. [generate_mac_addresses] is a function of the draws alone. Two
    runs whose sources are seeded identically (they produce the same draws,
    whatever their implementations) agree, for every count and fuel, on
    whether they return, and whenever both return (the fuel of the two runs
    may differ) they return the same identifiers: the same set, hence lists
    that are permutations of each other, equal when both runs iterate sets
    in the same order, and they leave the sources seeded identically. *)
Theorem generate_mac_addresses_deterministic {G1 G2 : Type}
    `{RandomSource G1} `{RandomSource G2} (R : G1 -> G2 -> Prop)
    (Hsim : same_draws R)
    (list_of_set1 list_of_set2 : gset string -> list string)
    (Hperm1 : forall s, list_of_set1 s ≡ₚ elements s)
    (Hperm2 : forall s, list_of_set2 s ≡ₚ elements s)
    (g1 : G1) (g2 : G2) (HR : R g1 g2) (count : Z) :
  (forall fuel,
      is_Some (generate_mac_addresses list_of_set1 fuel count g1)
      <-> is_Some (generate_mac_addresses list_of_set2 fuel count g2))
  /\ (forall fuel1 fuel2 ids1 ids2 g1' g2',
        generate_mac_addresses list_of_set1 fuel1 count g1 = Some (ids1, g1') ->
        generate_mac_addresses list_of_set2 fuel2 count g2 = Some (ids2, g2') ->
        ids1 ≡ₚ ids2
        /\ (list_to_set ids1 : gset string) = list_to_set ids2
        /\ R g1' g2'
        /\ ((forall s, list_of_set1 s = list_of_set2 s) -> ids1 = ids2)).
Proof.
  split.
  - intros fuel. unfold generate_mac_addresses.
    pose proof (same_draws_generate_loop R fuel count ∅ g1 g2 Hsim HR) as Hloop.
    destruct (generate_loop fuel count ∅ g1) as [[s1 h1] |],
             (generate_loop fuel count ∅ g2) as [[s2 h2] |];
      try contradiction; split; intros Hsome; eauto; destruct Hsome; discriminate.
  - intros fuel1 fuel2 ids1 ids2 g1' g2'. unfold generate_mac_addresses.
    destruct (generate_loop fuel1 count ∅ g1) as [[s1 h1] |] eqn:Hloop1; [| discriminate].
    destruct (generate_loop fuel2 count ∅ g2) as [[s2 h2] |] eqn:Hloop2; [| discriminate].
    intros ? ?; simplify_eq.
    apply (generate_loop_fuel_mono _ (Nat.max fuel1 fuel2)) in Hloop1; [| lia].
    apply (generate_loop_fuel_mono _ (Nat.max fuel1 fuel2)) in Hloop2; [| lia].
    pose proof (same_draws_generate_loop R (Nat.max fuel1 fuel2) count ∅ g1 g2 Hsim HR)
      as Hloop.
    rewrite Hloop1, Hloop2 in Hloop. destruct Hloop as [-> HR'].
    repeat split.
    + now rewrite Hperm1, Hperm2.
    + apply set_eq. intros mac. rewrite !elem_of_list_to_set, Hperm1, Hperm2. tauto.
    + exact HR'.
    + intros Hsame. apply Hsame.
Qed.

(** C8 at the linear congruential source seeded with [1] in both runs,
    the second run with more fuel and iterating sets in reverse order. *)
Lemma generate_mac_addresses_deterministic_witness :
  same_draws (G1 := Z) (G2 := Z) eq
  /\ (forall s : gset string, elements s ≡ₚ elements s)
  /\ (forall s : gset string, rev (elements s) ≡ₚ elements s)
  /\ (1 : Z) = 1
  /\ forall ids1 ids2 g1' g2',
       generate_mac_addresses elements 3 3 (1 : Z) = Some (ids1, g1') ->
       generate_mac_addresses (fun s => rev (elements s)) 7 3 (1 : Z) = Some (ids2, g2') ->
       ids1 ≡ₚ ids2
       /\ (list_to_set ids1 : gset string) = list_to_set ids2
       /\ g1' = g2'
       /\ ((forall s : gset string, elements s = rev (elements s)) -> ids1 = ids2).
Proof.
  assert (same_draws (G1 := Z) (G2 := Z) eq) as Hsim
    by (intros a b g1 g2 ->; split; reflexivity).
  assert (forall s : gset string, elements s ≡ₚ elements s) as Hperm1 by reflexivity.
  assert (forall s : gset string, rev (elements s) ≡ₚ elements s) as Hperm2
    by (intros s; symmetry; apply Permutation_rev).
  split; [exact Hsim |]. split; [exact Hperm1 |]. split; [exact Hperm2 |].
  split; [reflexivity |].
  exact (proj2 (generate_mac_addresses_deterministic eq Hsim elements
                  (fun s => rev (elements s)) Hperm1 Hperm2 1 1 eq_refl 3) 3%nat 7%nat).
Defined.

End GeneratorClaims.

(** * Properties of the provisioning orchestrator *)

Section Statements.
Context {E RM DC : Type} `{Environment E RM DC}.
Local Open Scope py_scope.

Lemma record_mk (ev : event DC) (e : E) (fs : gmap string string) (h : list (event DC)) :
  record ev (mk_world e fs h) = mk_world e fs (h ++ [ev]).
Proof. reflexivity. Qed.

Lemma world_eta (w : World E DC) : w = mk_world (env w) (files w) (history w).
Proof. now destruct w. Qed.

Lemma app_snoc {A : Type} (h : list A) (l : list A) (a : A) :
  (h ++ l) ++ [a] = h ++ (l ++ [a]).
Proof. now rewrite <- app_assoc. Qed.

(** [create_device], call by call, for a handler that holds a registry
    session. *)
Lemma create_device_run (self : DeviceHandler RM) (client : RM) (device_id : string)
    (w : World E DC) :
  device_client self = Some client ->
  create_device self device_id w =
  let '(r1, e1) := get_device client device_id (env w) in
  match r1 with
  | Ok _ =>
      retrieve_run self client device_id (files w)
        (history w ++ [Called (CallGetDevice device_id) true;
                       Logged INFO ("Device '" +:+ device_id +:+ "' already exists.")]) e1
  | Raise _ =>
      let '(r2, e2) :=
        create_device_with_sas client device_id PNone PNone "enabled" e1 in
      match r2 with
      | Ok _ =>
          retrieve_run self client device_id (files w)
            (history w ++ [Called (CallGetDevice device_id) false;
                           Logged INFO ("Creating device '" +:+ device_id +:+ "'...");
                           Called (CallCreateDeviceWithSas device_id PNone PNone "enabled") true;
                           Logged INFO ("Device '" +:+ device_id
                                        +:+ "' created successfully.")]) e2
      | Raise x =>
          (Ok [],
           mk_world e2 (files w)
             (history w ++ [Called (CallGetDevice device_id) false;
                            Logged INFO ("Creating device '" +:+ device_id +:+ "'...");
                            Called (CallCreateDeviceWithSas device_id PNone PNone "enabled") false;
                            Logged ERROR ("Error creating device '" +:+ device_id
                                          +:+ "': " +:+ exn_str x)]))
      end
  end.
Proof.
  intros Hclient. destruct w as [e fs h].
  unfold create_device, bind, try_except, self_get_device, self_create_device_with_sas,
    external, logger_info, logger_error, ret, lift, retrieve_run.
  rewrite Hclient. cbn [env files history].
  destruct (get_device client device_id e) as [[d1 | x1] e1]; cbn.
  - destruct (get_device client device_id e1) as [[d2 | x2] e2]; cbn.
    + destruct (get_primary_key d2); cbn; unfold record, mk_world; cbn;
        rewrite <- ?app_assoc; reflexivity.
    + unfold record, mk_world; cbn; rewrite <- ?app_assoc; reflexivity.
  - destruct (create_device_with_sas client device_id PNone PNone "enabled" e1)
      as [[d2 | x2] e2]; cbn.
    + destruct (get_device client device_id e2) as [[d3 | x3] e3]; cbn.
      * destruct (get_primary_key d3); cbn; unfold record, mk_world; cbn;
          rewrite <- ?app_assoc; reflexivity.
      * unfold record, mk_world; cbn; rewrite <- ?app_assoc; reflexivity.
    + unfold record, mk_world; cbn; rewrite <- ?app_assoc; reflexivity.
Qed.

(** [create_device] without a registry session: the two attribute
    lookups raise, no call is made. *)
Lemma create_device_run_disconnected (self : DeviceHandler RM) (device_id : string)
    (w : World E DC) :
  device_client self = None ->
  create_device self device_id w =
  (Ok [],
   mk_world (env w) (files w)
     (history w ++ [Logged INFO ("Creating device '" +:+ device_id +:+ "'...");
                    Logged ERROR ("Error creating device '" +:+ device_id +:+ "': "
                      +:+ "'NoneType' object has no attribute 'create_device_with_sas'")])).
Proof.
  intros Hclient. destruct w as [e fs h].
  unfold create_device, bind, try_except, self_get_device, self_create_device_with_sas,
    raise, logger_info, logger_error, ret.
  rewrite Hclient. cbn. unfold mk_world, record. cbn.
  now rewrite <- app_assoc.
Qed.

(** *** Tasks that finish *)

Lemma finishes_S {A : Type} (Q : A -> Prop) (n : nat) (c : Coro E DC A) :
  finishes Q n c -> finishes Q (S n) c.
Proof.
  induction 1 as [n a Ha | n k eff _ IH]; constructor; auto.
Qed.

Lemma finishes_pred {A : Type} (Q : A -> Prop) (n : nat) (a : result A) :
  finishes Q (S n) (Done a : Coro E DC A) -> finishes Q n (Done a : Coro E DC A).
Proof. inversion 1; subst. now constructor. Qed.

Lemma finishes_zero {A : Type} (Q : A -> Prop) (c : Coro E DC A) :
  finishes Q 0 c -> exists a, c = Done (Ok a) /\ Q a.
Proof. inversion 1; subst. eauto. Qed.

Lemma finishes_task_of {A : Type} (Q : A -> Prop) (body : M E DC A) :
  (forall w, exists a w', body w = (Ok a, w') /\ Q a) ->
  finishes Q 1 (task_of body).
Proof.
  intros Hbody. unfold task_of, suspended. constructor. intros w.
  destruct (Hbody w) as (a & w' & -> & Ha). cbn. now constructor.
Qed.

Lemma all_returned_spec {A : Type} (tasks : list (Coro E DC A)) (results : list A) :
  all_returned tasks = Some results <-> tasks = map (fun a => Done (Ok a)) results.
Proof.
  revert results. induction tasks as [| c tasks IH]; intros results; cbn.
  - split; [intros [= <-]; reflexivity |]. destruct results; [reflexivity | discriminate].
  - destruct c as [[a | e] | k eff]; try (split; [discriminate | destruct results; discriminate]).
    destruct (all_returned tasks) as [rs |] eqn:Hrs; cbn.
    + split.
      * intros [= <-]. cbn. f_equal. now apply IH.
      * destruct results as [| a' results]; [discriminate |]. cbn. intros [= -> Htasks].
        apply IH in Htasks. congruence.
    + split; [discriminate |]. destruct results as [| a' results]; [discriminate |].
      cbn. intros [= -> Htasks]. apply IH in Htasks. discriminate.
Qed.

Lemma gather_unfold {A : Type} (schedule : list nat) (tasks : list (Coro E DC A))
    (w : World E DC) :
  gather schedule tasks w =
  match all_returned tasks with
  | Some results => Some (Ok results, tasks, w)
  | None =>
      match schedule with
      | [] => None
      | i :: schedule' =>
          match tasks !! i with
          | Some (Suspended continue effect) =>
              match continue w with
              | Done (Raise e) => Some (Raise e, <[i := continue w]> tasks, effect w)
              | _ => gather schedule' (<[i := continue w]> tasks) (effect w)
              end
          | _ => gather schedule' tasks w
          end
      end
  end.
Proof. destruct schedule; reflexivity. Qed.

(** The join: whatever the schedule, when [gather] wakes its caller over
    tasks that finish, it does so with the results by position, and every
    task has returned. *)
Lemma gather_sound {A B : Type} (Q : B -> A -> Prop) (schedule : list nat)
    (bs : list B) (tasks tasks' : list (Coro E DC A)) (w w' : World E DC)
    (r : result (list A)) :
  Forall2 (fun b c => exists n, finishes (Q b) n c) bs tasks ->
  gather schedule tasks w = Some (r, tasks', w') ->
  exists results,
    r = Ok results /\ tasks' = map (fun a => Done (Ok a)) results
    /\ Forall2 Q bs results.
Proof.
  revert tasks w. induction schedule as [| i schedule IH]; intros tasks w Hfin;
    rewrite gather_unfold; destruct (all_returned tasks) as [results |] eqn:Hret.
  1, 3: intros [= <- <- <-]; exists results; apply all_returned_spec in Hret;
    (split; [reflexivity |]); (split; [exact Hret |]); subst tasks;
    apply Forall2_fmap_r in Hfin; eapply Forall2_impl; [exact Hfin |];
    cbn; intros b a [n Hn]; now inversion Hn.
  - discriminate.
  - destruct (tasks !! i) as [[r0 | k eff] |] eqn:Hi; [now apply IH | | now apply IH].
    destruct (Forall2_lookup_r _ _ _ _ _ Hfin Hi) as (b & Hb & [n Hn]).
    inversion Hn as [| m k' eff' Hk]; subst.
    assert (Forall2 (fun b c => exists n, finishes (Q b) n c) bs (<[i := k w]> tasks))
      as Hfin'.
    { rewrite <- (list_insert_id bs i b Hb). apply Forall2_insert; eauto. }
    specialize (Hk w).
    destruct (k w) as [[a | e] | k2 eff2] eqn:Hkw; [now apply IH | | now apply IH].
    inversion Hk.
Qed.

Lemma all_returned_done {A : Type} (tasks : list (Coro E DC A)) :
  (forall i c, tasks !! i = Some c -> exists a, c = Done (Ok a)) ->
  exists results, all_returned tasks = Some results.
Proof.
  induction tasks as [| c tasks IH]; intros Hdone; cbn; [eauto |].
  destruct (Hdone 0%nat c eq_refl) as [a ->].
  destruct IH as [results ->]; [intros i; apply (Hdone (S i)) |]. cbn. eauto.
Qed.

(** The loop's turns suffice: when the schedule resumes every task as
    often as the task needs to finish, [gather] wakes its caller with
    the results. *)
Lemma gather_complete {A : Type} (Q : A -> Prop) (schedule : list nat)
    (tasks : list (Coro E DC A)) (w : World E DC) :
  (forall i c, tasks !! i = Some c -> finishes Q (count_occ Nat.eq_dec schedule i) c) ->
  exists results tasks' w', gather schedule tasks w = Some (Ok results, tasks', w').
Proof.
  revert tasks w. induction schedule as [| i schedule IH]; intros tasks w Hfin;
    rewrite gather_unfold.
  - destruct (all_returned_done tasks) as [results ->]; [| eauto].
    intros i c Hc. destruct (finishes_zero _ _ (Hfin i c Hc)) as (a & -> & _). eauto.
  - destruct (all_returned tasks) as [results |]; [eauto |].
    destruct (tasks !! i) as [[r0 | k eff] |] eqn:Hi.
    + apply IH. intros j c Hc. specialize (Hfin j c Hc). cbn in Hfin.
      destruct (Nat.eq_dec i j) as [-> | Hne]; [| exact Hfin].
      rewrite Hi in Hc. injection Hc as <-. now apply finishes_pred.
    + pose proof (Hfin i _ Hi) as Hk. cbn in Hk.
      destruct (Nat.eq_dec i i) as [_ | []]; [| reflexivity].
      inversion Hk as [| m k' eff' Hk']; subst.
      assert (forall j c, <[i := k w]> tasks !! j = Some c ->
                finishes Q (count_occ Nat.eq_dec schedule j) c) as Hfin'.
      { intros j c Hc. destruct (decide (i = j)) as [-> | Hne].
        - rewrite list_lookup_insert_eq in Hc by (eapply lookup_lt_Some; eauto).
          injection Hc as <-. apply Hk'.
        - rewrite list_lookup_insert_ne in Hc by exact Hne.
          specialize (Hfin j c Hc). cbn in Hfin.
          destruct (Nat.eq_dec i j); [contradiction | exact Hfin]. }
      specialize (Hk' w).
      destruct (k w) as [[a | e] | k2 eff2] eqn:Hkw; [now apply IH | | now apply IH].
      inversion Hk'.
    + apply IH. intros j c Hc. specialize (Hfin j c Hc). cbn in Hfin.
      destruct (Nat.eq_dec i j) as [-> | Hne]; [congruence | exact Hfin].
Qed.

(** *** [create_device] returns *)

Lemma retrieve_run_returns (self : DeviceHandler RM) (client : RM) (device_id : string)
    (fs : gmap string string) (h : list (event DC)) (e : E) :
  exists credentials w',
    retrieve_run self client device_id fs h e = (Ok credentials, w')
    /\ credentials_for self device_id credentials /\ files w' = fs.
Proof.
  unfold retrieve_run, credentials_for.
  destruct (get_device client device_id e) as [[d | x] e'];
    [destruct (get_primary_key d) |]; eauto 8.
Qed.

Lemma create_device_returns (self : DeviceHandler RM) (device_id : string)
    (w : World E DC) :
  exists credentials w',
    create_device self device_id w = (Ok credentials, w')
    /\ credentials_for self device_id credentials /\ files w' = files w.
Proof.
  destruct (device_client self) as [client |] eqn:Hclient.
  - rewrite (create_device_run self client) by exact Hclient.
    destruct (get_device client device_id (env w)) as [[d1 | x1] e1];
      [apply retrieve_run_returns |].
    destruct (create_device_with_sas client device_id PNone PNone "enabled" e1)
      as [[d2 | x2] e2]; [apply retrieve_run_returns |].
    unfold credentials_for. eauto 8.
  - rewrite create_device_run_disconnected by exact Hclient.
    unfold credentials_for. eauto 8.
Qed.

Lemma create_device_tasks_finish (self : DeviceHandler RM) (device_ids : list string) :
  Forall2 (fun device_id c => finishes (credentials_for self device_id) 1 c)
          device_ids (create_device_tasks self device_ids).
Proof.
  unfold create_device_tasks. apply Forall2_fmap_r, Forall_Forall2_diag, Forall_forall.
  intros device_id _. apply finishes_task_of. intros w.
  destruct (create_device_returns self device_id w) as (c & w' & Hrun & Hc & _). eauto.
Qed.

(** *** The credential file *)

(** [create_device_credentials_file], file operation by file operation. *)
Lemma create_device_credentials_file_run (credentials : dict (dict pyval))
    (w : World E DC) :
  create_device_credentials_file credentials w =
  let text := Json.dumps credentials in
  let opened := Called (CallFile (FOpen file_path "w")) in
  let wrote := Called (CallFile (FWrite file_path text)) in
  let closed := Called (CallFile (FClose file_path)) in
  let '(o1, e1) := file_outcome (FOpen file_path "w") (env w) in
  match o1 with
  | IoFail x _ =>
      (Ok tt, mk_world e1 (files w)
                (history w ++ [opened false; Logged ERROR (failed_message x)]))
  | IoOk =>
      let '(o2, e2) := file_outcome (FWrite file_path text) e1 in
      let '(o3, e3) := file_outcome (FClose file_path) e2 in
      match o2, o3 with
      | IoOk, IoOk =>
          (Ok tt, mk_world e3 (<[file_path := text]> (files w))
                    (history w ++ [opened true; wrote true; closed true;
                                   Logged INFO stored_message]))
      | IoOk, IoFail x _ =>
          (Ok tt, mk_world e3 (<[file_path := text]> (files w))
                    (history w ++ [opened true; wrote true; closed false;
                                   Logged ERROR (failed_message x)]))
      | IoFail x written, IoOk =>
          (Ok tt, mk_world e3 (<[file_path := substring 0 written text]> (files w))
                    (history w ++ [opened true; wrote false; closed true;
                                   Logged ERROR (failed_message x)]))
      | IoFail _ written, IoFail x _ =>
          (Ok tt, mk_world e3 (<[file_path := substring 0 written text]> (files w))
                    (history w ++ [opened true; wrote false; closed false;
                                   Logged ERROR (failed_message x)]))
      end
  end.
Proof.
  destruct w as [e fs h].
  unfold create_device_credentials_file, with_open_w, json_dump, bind, try_except,
    open_w, file_write, file_close, logger_info, logger_error, ret, raise,
    failed_message, stored_message.
  cbn [env files history].
  destruct (file_outcome (FOpen file_path "w") e) as [[| x1 n1] e1]; cbn.
  2: { unfold record, mk_world; cbn. now rewrite <- !app_assoc. }
  rewrite lookup_insert_eq. cbn.
  destruct (file_outcome (FWrite file_path (Json.dumps credentials)) e1)
    as [[| x2 n2] e2]; cbn;
    destruct (file_outcome (FClose file_path) e2) as [[| x3 n3] e3]; cbn;
    unfold record, mk_world; cbn; rewrite insert_insert_eq, <- !app_assoc; reflexivity.
Qed.

(** *** Assembling the store *)

Lemma update_credentials_from (device_ids : list string) (results : list (dict pyval))
    (n : nat) (acc : dict (dict pyval)) :
  (n + length results = length device_ids)%nat ->
  update_credentials device_ids (combine (seq n (length results)) results) acc
  = Ok (store_of (drop n device_ids) results acc).
Proof.
  revert n acc. induction results as [| c results IH]; intros n acc Hlen; cbn.
  - now destruct (drop n device_ids).
  - cbn in Hlen.
    destruct (device_ids !! n) as [device_id |] eqn:Hn.
    2: { apply lookup_ge_None in Hn. lia. }
    rewrite (drop_S _ _ _ Hn). cbn.
    destruct (dict_truthy c); apply IH; lia.
Qed.

Lemma update_credentials_enumerate (device_ids : list string)
    (results : list (dict pyval)) :
  length results = length device_ids ->
  update_credentials device_ids (enumerate results) [] = Ok (store_of device_ids results []).
Proof.
  intros Hlen. unfold enumerate.
  rewrite update_credentials_from by (cbn; lia). reflexivity.
Qed.

Lemma dict_setitem_fresh {V : Type} (d : dict V) (key : string) (v : V) :
  key ∉ dict_keys d -> dict_setitem d key v = d ++ [(key, v)].
Proof.
  induction d as [| [k v'] d IH]; intros Hfresh; cbn; [reflexivity |].
  cbn in Hfresh. apply not_elem_of_cons in Hfresh as [Hne Hfresh].
  destruct (String.eqb_spec k key) as [-> | _]; [contradiction |].
  now rewrite IH.
Qed.

Lemma dict_setitem_entries {V : Type} (P : string -> V -> Prop) (d : dict V)
    (key : string) (v : V) :
  Forall (fun kv => P kv.1 kv.2) d -> P key v ->
  Forall (fun kv => P kv.1 kv.2) (dict_setitem d key v).
Proof.
  intros Hd Hv. induction d as [| [k v'] d IH]; cbn.
  - now constructor.
  - inversion Hd as [| ? ? Hk Hd']; subst.
    destruct (String.eqb_spec k key) as [-> | _]; constructor; auto.
Qed.

Lemma dict_setitem_keys {V : Type} (d : dict V) (key : string) (v : V) (k : string) :
  k ∈ dict_keys (dict_setitem d key v) <-> k = key \/ k ∈ dict_keys d.
Proof.
  induction d as [| [k' v'] d IH]; cbn.
  - rewrite elem_of_cons, elem_of_nil. tauto.
  - destruct (String.eqb_spec k' key) as [-> | _]; cbn; rewrite !elem_of_cons.
    + tauto.
    + fold (dict_keys (dict_setitem d key v)). fold (dict_keys d). rewrite IH. tauto.
Qed.

(** Matching by position: every entry of the store holds, under an
    identifier, a non-empty result that was returned for that identifier. *)
Lemma store_of_entries (P : string -> dict pyval -> Prop) (device_ids : list string)
    (results : list (dict pyval)) (acc : dict (dict pyval)) :
  Forall2 P device_ids results ->
  Forall (fun kv => P kv.1 kv.2 /\ dict_truthy kv.2 = true) acc ->
  Forall (fun kv => P kv.1 kv.2 /\ dict_truthy kv.2 = true)
         (store_of device_ids results acc).
Proof.
  intros Hall. revert acc.
  induction Hall as [| device_id c device_ids results Hc Hall IH]; intros acc Hacc; cbn;
    [exact Hacc |].
  apply IH. destruct (dict_truthy c) eqn:Hne; [| exact Hacc].
  now apply (dict_setitem_entries (fun k v => P k v /\ dict_truthy v = true)).
Qed.

(** The keys of the store: the identifiers with a non-empty result. *)
Lemma store_of_keys (device_ids : list string) (results : list (dict pyval))
    (acc : dict (dict pyval)) (k : string) :
  length results = length device_ids ->
  k ∈ dict_keys (store_of device_ids results acc) <->
  k ∈ dict_keys acc
  \/ exists i c, device_ids !! i = Some k /\ results !! i = Some c /\ dict_truthy c = true.
Proof.
  revert results acc. induction device_ids as [| device_id device_ids IH];
    intros [| c results] acc Hlen; try discriminate; cbn [store_of].
  - split; [auto | intros [? | (i & c & Hi & _)]; [assumption | discriminate]].
  - rewrite IH by (cbn in Hlen; lia). split.
    + intros [Hk | (i & c' & Hi & Hr & Hc)].
      * destruct (dict_truthy c) eqn:Hne; [| auto].
        apply dict_setitem_keys in Hk as [-> | Hk]; [right | auto].
        exists 0%nat, c. auto.
      * right. exists (S i), c'. auto.
    + intros [Hk | ([| i] & c' & Hi & Hr & Hc)].
      * left. destruct (dict_truthy c); [apply dict_setitem_keys |]; auto.
      * cbn in Hi, Hr. simplify_eq. left. rewrite Hc. apply dict_setitem_keys. auto.
      * right. exists i, c'. auto.
Qed.

(** For pairwise distinct identifiers the store is the list of the pairs
    (identifier, result) with a non-empty result, in the order of the
    identifiers. *)
Lemma store_of_distinct (device_ids : list string) (results : list (dict pyval))
    (acc : dict (dict pyval)) :
  NoDup device_ids -> (forall k, k ∈ device_ids -> k ∉ dict_keys acc) ->
  store_of device_ids results acc
  = acc ++ filter (fun kv => dict_truthy kv.2 = true) (combine device_ids results).
Proof.
  intros Hnodup. revert results acc.
  induction Hnodup as [| device_id device_ids Hfresh Hnodup IH];
    intros [| c results] acc Hacc; cbn [store_of combine];
    rewrite ?filter_nil, ?app_nil_r; try reflexivity.
  rewrite filter_cons. cbn [snd]. destruct (dict_truthy c) eqn:Hc.
  - rewrite decide_True by reflexivity.
    rewrite IH.
    + rewrite dict_setitem_fresh by (apply Hacc; left).
      now rewrite <- app_assoc.
    + intros k Hk [-> | Hin]%dict_setitem_keys; [contradiction |].
      apply (Hacc k); [now right | exact Hin].
  - rewrite decide_False by discriminate.
    apply IH. intros k Hk. apply Hacc. now right.
Qed.

Lemma store_of_length (device_ids : list string) (results : list (dict pyval)) :
  NoDup device_ids -> length results = length device_ids ->
  (length (store_of device_ids results [])
   + length (filter (fun c => dict_truthy c = false) results))%nat
  = length device_ids.
Proof.
  intros Hnodup Hlen. rewrite store_of_distinct by (auto; intros k _ []%elem_of_nil).
  cbn [app]. clear Hnodup. revert results Hlen.
  induction device_ids as [| device_id device_ids IH]; intros [| c results] Hlen;
    try discriminate; [reflexivity |].
  cbn [combine]. rewrite !filter_cons. cbn [snd length].
  specialize (IH results ltac:(cbn in Hlen; lia)).
  destruct (dict_truthy c) eqn:Hc.
  - rewrite decide_True by reflexivity. rewrite decide_False by discriminate.
    cbn [length]. lia.
  - rewrite decide_False by discriminate. rewrite decide_True by reflexivity.
    cbn [length]. lia.
Qed.

Lemma create_device_credentials_file_returns (credentials : dict (dict pyval))
    (w : World E DC) :
  exists w', create_device_credentials_file credentials w = (Ok tt, w').
Proof.
  rewrite create_device_credentials_file_run. cbv zeta.
  destruct (file_outcome (FOpen file_path "w") (env w)) as [[| x1 n1] e1]; [| eauto].
  destruct (file_outcome (FWrite file_path (Json.dumps credentials)) e1) as [[| x2 n2] e2];
    destruct (file_outcome (FClose file_path) e2) as [[| x3 n3] e3]; eauto.
Qed.

(** What the file holds after [create_device_credentials_file]: the
    call ends by logging its outcome; when it logs success the file's
    content is the serialized store, whatever the file held. *)
Lemma create_device_credentials_file_effect (credentials : dict (dict pyval))
    (w w' : World E DC) (r : result unit) :
  create_device_credentials_file credentials w = (r, w') ->
  (last (history w') = Some (Logged INFO stored_message)
   \/ exists x, last (history w') = Some (Logged ERROR (failed_message x)))
  /\ (last (history w') = Some (Logged INFO stored_message) ->
      files w' = <[file_path := Json.dumps credentials]> (files w)).
Proof.
  rewrite create_device_credentials_file_run. cbv zeta.
  destruct (file_outcome (FOpen file_path "w") (env w)) as [[| x1 n1] e1].
  - destruct (file_outcome (FWrite file_path (Json.dumps credentials)) e1)
      as [[| x2 n2] e2];
      destruct (file_outcome (FClose file_path) e2) as [[| x3 n3] e3];
      intros [= <- <-]; cbn [history files mk_world]; rewrite last_app; cbn;
      (split; [eauto |]); intros [=]; reflexivity.
  - intros [= <- <-]. cbn [history files mk_world]. rewrite last_app. cbn.
    split; [eauto |]. discriminate.
Qed.

(** [create_devices_from_list], step by step: the join over the
    creation tasks, the store assembled from the results, the file. *)
Lemma create_devices_from_list_run (schedule : list nat) (self : DeviceHandler RM)
    (device_ids : list string) (w w' : World E DC)
    (r : result (dict (dict pyval))) (tasks : list (Coro E DC (dict pyval))) :
  create_devices_from_list schedule self device_ids w = Some (r, tasks, w') ->
  exists results w1,
    gather schedule (create_device_tasks self device_ids) w = Some (Ok results, tasks, w1)
    /\ tasks = map (fun c => Done (Ok c)) results
    /\ Forall2 (credentials_for self) device_ids results
    /\ r = Ok (store_of device_ids results [])
    /\ create_device_credentials_file (store_of device_ids results []) w1 = (Ok tt, w').
Proof.
  unfold create_devices_from_list.
  destruct (gather schedule (create_device_tasks self device_ids) w)
    as [[[r0 tasks0] w1] |] eqn:Hgather; [| discriminate].
  destruct (gather_sound (credentials_for self) _ device_ids _ _ _ _ _
              (Forall2_impl _ _ _ _ (create_device_tasks_finish self device_ids)
                 (fun id c Hc => ex_intro _ 1%nat Hc)) Hgather)
    as (results & -> & -> & Hres).
  unfold bind, lift, ret.
  rewrite update_credentials_enumerate by (symmetry; eapply Forall2_length; eauto).
  destruct (create_device_credentials_file_returns (store_of device_ids results []) w1)
    as [w2 Hfile].
  rewrite Hfile. intros [= <- <- <-]. exists results, w1. auto.
Qed.

(** *** [connect_device] *)

Lemma connection_string_of_Ok (device_credential : dict pyval) (cs : string) :
  connection_string_of device_credential = Ok cs ->
  exists host id key,
    dict_getitem device_credential "hostname" = Ok host
    /\ dict_getitem device_credential "device_id" = Ok id
    /\ dict_getitem device_credential "shared_access_key" = Ok key
    /\ cs = "HostName=" +:+ py_str host +:+ ";" +:+ "DeviceId=" +:+ py_str id +:+ ";"
            +:+ "SharedAccessKey=" +:+ py_str key.
Proof.
  unfold connection_string_of.
  destruct (dict_getitem device_credential "hostname") as [host |]; [| discriminate].
  destruct (dict_getitem device_credential "device_id") as [id |]; [| discriminate].
  destruct (dict_getitem device_credential "shared_access_key") as [key |]; [| discriminate].
  intros [= <-]. eauto 8.
Qed.

(** [connect_device] run alone, call by call, for a credential that
    holds the three keys. *)
Lemma connect_device_run (device_credential : dict pyval) (cs : string) (id : pyval)
    (w : World E DC) :
  connection_string_of device_credential = Ok cs ->
  dict_getitem device_credential "device_id" = Ok id ->
  run_alone (connect_device device_credential) w =
  let '(r1, e1) := client_create_from_connection_string cs (env w) in
  match r1 with
  | Raise x =>
      (Ok tt, mk_world e1 (files w)
                (history w ++ [Called (CallClientCreate cs) false;
                               Logged ERROR (connect_failed_message id x)]))
  | Ok device_client =>
      let '(r2, e2) := client_connect device_client e1 in
      match r2 with
      | Raise x =>
          (Ok tt, mk_world e2 (files w)
                    (history w ++ [Called (CallClientCreate cs) true;
                                   Called (CallConnect device_client) false;
                                   Logged ERROR (connect_failed_message id x)]))
      | Ok _ =>
          let '(r3, e3) := client_disconnect device_client e2 in
          match r3 with
          | Ok _ =>
              (Ok tt, mk_world e3 (files w)
                        (history w ++ [Called (CallClientCreate cs) true;
                                       Called (CallConnect device_client) true;
                                       Logged INFO (connected_message id);
                                       Called (CallDisconnect device_client) true]))
          | Raise x =>
              (Ok tt, mk_world e3 (files w)
                        (history w ++ [Called (CallClientCreate cs) true;
                                       Called (CallConnect device_client) true;
                                       Logged INFO (connected_message id);
                                       Called (CallDisconnect device_client) false;
                                       Logged ERROR (connect_failed_message id x)]))
          end
      end
  end.
Proof.
  intros Hcs Hid. destruct w as [e fs h].
  unfold connect_device, coro_of, suspended, connect_failed, bind, try_except, lift,
    external, logger_info, logger_error, ret, connected_message, connect_failed_message.
  cbn [run_alone]. rewrite Hcs. cbn [env files history].
  destruct (client_create_from_connection_string cs e) as [[dc | x1] e1]; cbn.
  2: { rewrite Hid. cbn. unfold record, mk_world; cbn. now rewrite <- !app_assoc. }
  destruct (client_connect dc e1) as [[[] | x2] e2]; cbn; rewrite Hid; cbn.
  2: { unfold record, mk_world; cbn. now rewrite <- !app_assoc. }
  destruct (client_disconnect dc e2) as [[[] | x3] e3]; cbn; rewrite ?Hid; cbn;
    unfold record, mk_world; cbn; now rewrite <- !app_assoc.
Qed.

(** Resumed in any worlds, [connect_device] returns after its three
    steps, without raising, for a credential that holds the three keys. *)
Lemma connect_device_finishes (device_credential : dict pyval) (cs : string) :
  connection_string_of device_credential = Ok cs ->
  finishes (fun _ : unit => True) 3 (connect_device device_credential).
Proof.
  intros Hcs.
  destruct (connection_string_of_Ok _ _ Hcs) as (host & id & key & _ & Hid & _ & _).
  unfold connect_device, coro_of, suspended, connect_failed, bind, try_except, lift,
    external, logger_info, logger_error, ret.
  constructor. intros w. rewrite Hcs. cbn.
  destruct (client_create_from_connection_string cs (env w)) as [[dc | x1] e1]; cbn.
  2: { rewrite Hid. cbn. now constructor. }
  constructor. intros w2. cbn.
  destruct (client_connect dc (env w2)) as [[[] | x2] e2]; cbn; rewrite Hid; cbn.
  2: { now constructor. }
  constructor. intros w3. cbn.
  destruct (client_disconnect dc (env w3)) as [[[] | x3] e3]; cbn; rewrite ?Hid; cbn;
    now constructor.
Qed.

Lemma finishes_le {A : Type} (Q : A -> Prop) (n m : nat) (c : Coro E DC A) :
  finishes Q n c -> (n <= m)%nat -> finishes Q m c.
Proof.
  intros Hfin Hle. induction Hle; [exact Hfin | now apply finishes_S].
Qed.

Lemma finishes_impl {A : Type} (P Q : A -> Prop) (n : nat) (c : Coro E DC A) :
  (forall a, P a -> Q a) -> finishes P n c -> finishes Q n c.
Proof.
  intros HPQ. induction 1; constructor; auto.
Qed.

Lemma count_occ_elem_of (schedule : list nat) (i : nat) :
  i ∈ schedule -> (1 <= count_occ Nat.eq_dec schedule i)%nat.
Proof.
  intros Hin%list_elem_of_In. now apply (count_occ_In Nat.eq_dec) in Hin.
Qed.

(** A task that is suspended when the join starts has been resumed when
    the join returns. *)
Lemma gather_resumes {A : Type} (schedule : list nat) (tasks tasks' : list (Coro E DC A))
    (w w' : World E DC) (r : result (list A)) (i : nat) continue effect :
  gather schedule tasks w = Some (r, tasks', w') ->
  is_ok r = true ->
  tasks !! i = Some (Suspended continue effect) ->
  i ∈ schedule.
Proof.
  revert tasks w. induction schedule as [| j schedule IH]; intros tasks w;
    rewrite gather_unfold; destruct (all_returned tasks) as [results |] eqn:Hret.
  1, 3: intros _ _ Hi; apply all_returned_spec in Hret; subst tasks;
    rewrite list_lookup_fmap in Hi; destruct (results !! i); discriminate.
  - discriminate.
  - intros Hrun Hok Hi. destruct (decide (j = i)) as [-> | Hne]; [left |].
    right. destruct (tasks !! j) as [[r0 | k eff] |] eqn:Hj; [now apply (IH tasks w) | |
      now apply (IH tasks w)].
    destruct (k w) as [[a | e] | k2 eff2] eqn:Hkw.
    + apply (IH _ _ Hrun Hok). now rewrite list_lookup_insert_ne.
    + injection Hrun as <- _ _. discriminate.
    + apply (IH _ _ Hrun Hok). now rewrite list_lookup_insert_ne.
Qed.

(** With a schedule that resumes every creation task,
    [create_devices_from_list] returns. *)
Lemma create_devices_from_list_returns (schedule : list nat) (self : DeviceHandler RM)
    (device_ids : list string) (w : World E DC) :
  (forall i, (i < length device_ids)%nat -> i ∈ schedule) ->
  exists store tasks w',
    create_devices_from_list schedule self device_ids w = Some (Ok store, tasks, w').
Proof.
  intros Hsched.
  destruct (gather_complete (fun _ => True) schedule
              (create_device_tasks self device_ids) w) as (results & tasks & w1 & Hgather).
  { intros i c Hc.
    pose proof (create_device_tasks_finish self device_ids) as Hfin.
    destruct (Forall2_lookup_r _ _ _ _ _ Hfin Hc) as (id & Hid & Hc').
    apply (finishes_le _ 1).
    - eapply finishes_impl; [| exact Hc']. auto.
    - apply count_occ_elem_of, Hsched. eapply lookup_lt_Some; eauto. }
  pose proof (gather_sound (credentials_for self) _ device_ids _ _ _ _ _
                (Forall2_impl _ _ _ _ (create_device_tasks_finish self device_ids)
                   (fun id c Hc => ex_intro _ 1%nat Hc)) Hgather)
    as (results' & [= <-] & _ & Hres).
  unfold create_devices_from_list. rewrite Hgather. unfold bind, lift, ret.
  rewrite update_credentials_enumerate by (symmetry; eapply Forall2_length; eauto).
  destruct (create_device_credentials_file_returns (store_of device_ids results []) w1)
    as [w2 ->]. eauto.
Qed.

(** When the join over the creation tasks has returned, the loop has
    resumed each of them. *)
Lemma create_device_tasks_resumed (schedule : list nat) (self : DeviceHandler RM)
    (device_ids : list string) (w w1 : World E DC) (results : list (dict pyval))
    (tasks : list (Coro E DC (dict pyval))) :
  gather schedule (create_device_tasks self device_ids) w = Some (Ok results, tasks, w1) ->
  forall i, (i < length device_ids)%nat -> i ∈ schedule.
Proof.
  intros Hgather i Hi. destruct (lookup_lt_is_Some_2 device_ids i Hi) as [id Hid].
  eapply (gather_resumes _ _ _ _ _ _ i); [exact Hgather | reflexivity |].
  unfold create_device_tasks, task_of, suspended.
  rewrite list_lookup_fmap, Hid. reflexivity.
Qed.

(** C1, as amended. For every sequence of identifiers and every schedule
    of the event loop, [create_devices_from_list] makes one [create_device]
    task per identifier and waits for all of them: it returns once the loop
    has run every task, it does not raise, and when it returns every task
    has returned. The result at position [i] is the result for the [i]-th
    identifier; the store keeps exactly the non-empty results, each under
    its identifier, and each is the credential of that identifier. For
    pairwise distinct identifiers the store has as many entries as there
    are identifiers with a non-empty result: [N - 1] entries when creation
    fails for exactly one of [N]. The store is passed to
    [create_device_credentials_file] before returning, whatever it holds; that
    call logs its outcome, and when it logs success the credential file
    holds exactly the serialized store. *)
Theorem create_devices_from_list_store (schedule : list nat) (self : DeviceHandler RM)
    (device_ids : list string) (w : World E DC) :
  ((forall i, (i < length device_ids)%nat -> i ∈ schedule) ->
   exists store tasks w',
     create_devices_from_list schedule self device_ids w = Some (Ok store, tasks, w'))
  /\ forall r tasks w',
      create_devices_from_list schedule self device_ids w = Some (r, tasks, w') ->
      exists results w1 store,
        r = Ok store
        /\ (forall i, (i < length device_ids)%nat -> i ∈ schedule)
        /\ gather schedule (map (fun device_id => task_of (create_device self device_id))
                               device_ids) w
           = Some (Ok results, tasks, w1)
        /\ tasks = map (fun c => Done (Ok c)) results
        /\ Forall2 (credentials_for self) device_ids results
        /\ store = store_of device_ids results []
        /\ Forall (fun kv => exists key, kv.2 = credentials_of self kv.1 key) store
        /\ (forall k, k ∈ dict_keys store <->
                      exists i c, device_ids !! i = Some k /\ results !! i = Some c
                                  /\ dict_truthy c = true)
        /\ (NoDup device_ids ->
            store = filter (fun kv => dict_truthy kv.2 = true) (combine device_ids results)
            /\ (length store + length (filter (fun c => dict_truthy c = false) results)
                = length device_ids)%nat
            /\ (length (filter (fun c => dict_truthy c = false) results) = 1%nat ->
                S (length store) = length device_ids))
        /\ create_device_credentials_file store w1 = (Ok tt, w')
        /\ (last (history w') = Some (Logged INFO stored_message)
            \/ exists x, last (history w') = Some (Logged ERROR (failed_message x)))
        /\ (last (history w') = Some (Logged INFO stored_message) ->
            files w' !! file_path = Some (Json.dumps store)).
Proof.
  split; [apply create_devices_from_list_returns |].
  intros r tasks w' Hrun.
  destruct (create_devices_from_list_run _ _ _ _ _ _ _ Hrun)
    as (results & w1 & Hgather & Htasks & Hres & -> & Hfile).
  { pose proof (Forall2_length _ _ _ Hres) as Hlen.
    destruct (create_device_credentials_file_effect _ _ _ _ Hfile) as [Hlog Hstored].
    exists results, w1, (store_of device_ids results []).
    split; [reflexivity |]. split.
    { eapply create_device_tasks_resumed; eauto. }
    split; [exact Hgather |]. split; [exact Htasks |]. split; [exact Hres |].
    split; [reflexivity |]. split.
    { eapply Forall_impl; [apply (store_of_entries (credentials_for self)); auto |].
      intros [k c] [[-> | Hc] Hne]; [discriminate | exact Hc]. }
    split.
    { intros k. rewrite store_of_keys by (symmetry; exact Hlen).
      cbn. rewrite elem_of_nil. tauto. }
    split.
    { intros Hnodup.
      pose proof (store_of_length device_ids results Hnodup (eq_sym Hlen)) as Hcount.
      split; [| split; [exact Hcount | lia]].
      rewrite store_of_distinct by (auto; intros k _ []%elem_of_nil). reflexivity. }
    split; [exact Hfile |]. split; [exact Hlog |].
    intros Hok. rewrite (Hstored Hok). apply lookup_insert_eq. }
Qed.

Lemma retrieve_run_cases (self : DeviceHandler RM) (client : RM) (device_id : string)
    (fs : gmap string string) (h : list (event DC)) (e : E) :
  match get_device client device_id e with
  | (Ok device_info, e') =>
      match get_primary_key device_info with
      | Ok key =>
          exists w', retrieve_run self client device_id fs h e
                     = (Ok (credentials_of self device_id key), w')
                     /\ env w' = e'
      | Raise x =>
          exists w', retrieve_run self client device_id fs h e = (Ok [], w')
                     /\ last (history w')
                        = Some (Logged ERROR (retrieving_failed_message device_id x))
      end
  | (Raise x, e') =>
      exists w', retrieve_run self client device_id fs h e = (Ok [], w')
                 /\ last (history w')
                    = Some (Logged ERROR (retrieving_failed_message device_id x))
  end.
Proof.
  unfold retrieve_run, retrieving_failed_message.
  destruct (get_device client device_id e) as [[d | x] e'];
    [destruct (get_primary_key d) |];
    eexists; (split; [reflexivity |]); cbn [history env mk_world];
    rewrite ?last_app; reflexivity.
Qed.

(** C3, as amended. [create_device] never raises: it returns the empty
    dictionary or the credentials of its identifier. An exception raised
    by the creation, or by the retrieval of the key (the second fetch, or
    the attributes of the fetched device), is caught, logged as an error,
    and makes the result empty; an exception raised by the existence
    lookup is caught too and leads to the creation, not to an empty
    result. No exception reaches the batch: [create_devices_from_list]
    does not raise and every task of the batch returns. *)
Theorem create_device_isolated (self : DeviceHandler RM) (device_id : string)
    (w : World E DC) :
  (exists credentials w',
      create_device self device_id w = (Ok credentials, w')
      /\ credentials_for self device_id credentials)
  /\ (forall client, device_client self = Some client ->
      match lookup_or_create client device_id (env w) with
      | Raise x =>
          exists w', create_device self device_id w = (Ok [], w')
                     /\ last (history w')
                        = Some (Logged ERROR (creating_failed_message device_id x))
      | Ok e1 =>
          match get_device client device_id e1 with
          | (Ok device_info, e2) =>
              match get_primary_key device_info with
              | Ok key =>
                  exists w', create_device self device_id w
                             = (Ok (credentials_of self device_id key), w')
                             /\ env w' = e2
              | Raise x =>
                  exists w', create_device self device_id w = (Ok [], w')
                             /\ last (history w')
                                = Some (Logged ERROR
                                          (retrieving_failed_message device_id x))
              end
          | (Raise x, e2) =>
              exists w', create_device self device_id w = (Ok [], w')
                         /\ last (history w')
                            = Some (Logged ERROR (retrieving_failed_message device_id x))
          end
      end)
  /\ (device_client self = None ->
      exists w' x, create_device self device_id w = (Ok [], w')
                   /\ last (history w')
                      = Some (Logged ERROR (creating_failed_message device_id x)))
  /\ (forall schedule device_ids r tasks w',
        create_devices_from_list schedule self device_ids w = Some (r, tasks, w') ->
        is_ok r = true /\ forallb is_done tasks = true).
Proof.
  split.
  { destruct (create_device_returns self device_id w) as (c & w' & Hrun & Hc & _). eauto. }
  split.
  { intros client Hclient. rewrite (create_device_run self client) by exact Hclient.
    unfold lookup_or_create.
    destruct (get_device client device_id (env w)) as [[d1 | x1] e1];
      [apply retrieve_run_cases |].
    destruct (create_device_with_sas client device_id PNone PNone "enabled" e1)
      as [[d2 | x2] e2]; [apply retrieve_run_cases |].
    eexists. split; [reflexivity |]. cbn [history mk_world].
    rewrite last_app. reflexivity. }
  split.
  { intros Hclient. rewrite create_device_run_disconnected by exact Hclient.
    eexists.
    exists (AttributeError "'NoneType' object has no attribute 'create_device_with_sas'").
    split; [reflexivity |]. cbn [history mk_world]. rewrite last_app. reflexivity. }
  intros schedule device_ids r tasks w' Hrun.
  destruct (create_devices_from_list_run _ _ _ _ _ _ _ Hrun)
    as (results & w1 & _ & -> & _ & -> & _).
  split; [reflexivity |]. clear. induction results; [reflexivity | assumption].
Qed.

(** *** Idempotent creation *)

Lemma calls_of_app (evs1 evs2 : list (event DC)) :
  calls_of (evs1 ++ evs2) = calls_of evs1 ++ calls_of evs2.
Proof. apply omap_app. Qed.

Lemma retrieve_run_trace (self : DeviceHandler RM) (client : RM) (device_id : string)
    (fs : gmap string string) (h : list (event DC)) (e : E) :
  exists credentials w' evs,
    retrieve_run self client device_id fs h e = (Ok credentials, w')
    /\ history w' = h ++ evs
    /\ calls_of evs = [(CallGetDevice device_id, is_ok (fst (get_device client device_id e)))]
    /\ (credentials = []
        \/ exists device_info key,
             get_device client device_id e = (Ok device_info, env w')
             /\ get_primary_key device_info = Ok key
             /\ credentials = credentials_of self device_id key).
Proof.
  unfold retrieve_run.
  destruct (get_device client device_id e) as [[d | x] e'];
    [destruct (get_primary_key d) as [key | x] eqn:Hkey |];
    do 3 eexists; (split; [reflexivity |]); cbn [history env mk_world fst is_ok];
    (split; [reflexivity |]); (split; [reflexivity |]); eauto 6.
Qed.

(** [device_info.authentication.symmetric_key.primary_key] has a value
    exactly when both attributes on the way are set, and it is the
    [primary_key] of that symmetric key. *)
Lemma get_primary_key_Ok (device_info : Device) (key : pyval) :
  get_primary_key device_info = Ok key <->
  exists auth sk,
    authentication device_info = Some auth /\ symmetric_key auth = Some sk
    /\ key = primary_key sk.
Proof.
  unfold get_primary_key. split.
  - destruct (authentication device_info) as [auth |]; [| discriminate].
    destruct (symmetric_key auth) as [sk |] eqn:Hsk; [| discriminate].
    intros [= <-]. exists auth, sk. auto.
  - intros (auth & sk & -> & -> & ->). reflexivity.
Qed.

(** C2. [create_device] first fetches the device by its identifier; when
    the fetch returns, nothing is created; only when it raises,
    [create_device_with_sas] is called, once, with status ["enabled"]; and
    on either path the device is fetched again, and the credential
    returned holds the hostname of the handler, the identifier, and as
    ["shared_access_key"] the [primary_key] of the symmetric key of the
    device that this last fetch returned. Against a registry that persists
    state, a second [create_device] for the same identifier, after a first
    one that returned a credential, creates nothing and returns a
    credential with the same [device_id], whose key is the primary key of
    the device the registry returns at the second call's last fetch. *)
Theorem create_device_idempotent (self : DeviceHandler RM) (client : RM)
    (Hclient : device_client self = Some client) (device_id : string) (w : World E DC) :
  (exists credentials w' evs,
      create_device self device_id w = (Ok credentials, w')
      /\ history w' = history w ++ evs
      /\ calls_of evs =
         match get_device client device_id (env w) with
         | (Ok _, e1) =>
             [(CallGetDevice device_id, true);
              (CallGetDevice device_id, is_ok (fst (get_device client device_id e1)))]
         | (Raise _, e1) =>
             match create_device_with_sas client device_id PNone PNone "enabled" e1 with
             | (Ok _, e2) =>
                 [(CallGetDevice device_id, false);
                  (CallCreateDeviceWithSas device_id PNone PNone "enabled", true);
                  (CallGetDevice device_id, is_ok (fst (get_device client device_id e2)))]
             | (Raise _, _) =>
                 [(CallGetDevice device_id, false);
                  (CallCreateDeviceWithSas device_id PNone PNone "enabled", false)]
             end
         end
      /\ (credentials = []
          \/ exists e1 device_info auth sk,
               lookup_or_create client device_id (env w) = Ok e1
               /\ get_device client device_id e1 = (Ok device_info, env w')
               /\ authentication device_info = Some auth
               /\ symmetric_key auth = Some sk
               /\ get_primary_key device_info = Ok (primary_key sk)
               /\ credentials = credentials_of self device_id (primary_key sk)
               /\ credentials = [("hostname", PStr (hostname self));
                                 ("device_id", PStr device_id);
                                 ("shared_access_key", primary_key sk)]))
  /\ (forall registered, persists client registered ->
      forall c1 w1,
        create_device self device_id w = (Ok c1, w1) -> dict_truthy c1 = true ->
        exists e2 d2 d3 auth sk w2,
          get_device client device_id (env w1) = (Ok d2, e2)
          /\ get_device client device_id e2 = (Ok d3, env w2)
          /\ authentication d3 = Some auth
          /\ symmetric_key auth = Some sk
          /\ get_primary_key d3 = Ok (primary_key sk)
          /\ create_device self device_id w1
             = (Ok (credentials_of self device_id (primary_key sk)), w2)
          /\ create_device self device_id w1
             = (Ok [("hostname", PStr (hostname self)); ("device_id", PStr device_id);
                    ("shared_access_key", primary_key sk)], w2)
          /\ calls_of (drop (length (history w1)) (history w2))
             = [(CallGetDevice device_id, true); (CallGetDevice device_id, true)]
          /\ dict_getitem c1 "device_id" = Ok (PStr device_id)
          /\ dict_getitem (credentials_of self device_id (primary_key sk)) "device_id"
             = dict_getitem c1 "device_id").
Proof.
  assert (exists credentials w' evs,
      create_device self device_id w = (Ok credentials, w')
      /\ history w' = history w ++ evs
      /\ calls_of evs =
         match get_device client device_id (env w) with
         | (Ok _, e1) =>
             [(CallGetDevice device_id, true);
              (CallGetDevice device_id, is_ok (fst (get_device client device_id e1)))]
         | (Raise _, e1) =>
             match create_device_with_sas client device_id PNone PNone "enabled" e1 with
             | (Ok _, e2) =>
                 [(CallGetDevice device_id, false);
                  (CallCreateDeviceWithSas device_id PNone PNone "enabled", true);
                  (CallGetDevice device_id, is_ok (fst (get_device client device_id e2)))]
             | (Raise _, _) =>
                 [(CallGetDevice device_id, false);
                  (CallCreateDeviceWithSas device_id PNone PNone "enabled", false)]
             end
         end
      /\ (credentials = []
          \/ exists e1 device_info key,
               lookup_or_create client device_id (env w) = Ok e1
               /\ get_device client device_id e1 = (Ok device_info, env w')
               /\ get_primary_key device_info = Ok key
               /\ credentials = credentials_of self device_id key)) as Hfirst.
  { rewrite (create_device_run self client) by exact Hclient. unfold lookup_or_create.
    destruct (get_device client device_id (env w)) as [[d1 | x1] e1].
    - destruct (retrieve_run_trace self client device_id (files w)
                  (history w ++ [Called (CallGetDevice device_id) true;
                                 Logged INFO ("Device '" +:+ device_id
                                              +:+ "' already exists.")]) e1)
        as (c & w' & evs & Hrun & Hh & Hcalls & Hc).
      exists c, w', ([Called (CallGetDevice device_id) true;
                      Logged INFO ("Device '" +:+ device_id +:+ "' already exists.")]
                     ++ evs).
      split; [exact Hrun |]. split; [now rewrite Hh, <- app_assoc |].
      split; [rewrite calls_of_app, Hcalls; reflexivity |].
      destruct Hc as [-> | (d & key & Hget & Hkey & ->)]; [now left | right].
      exists e1, d, key. auto.
    - destruct (create_device_with_sas client device_id PNone PNone "enabled" e1)
        as [[d2 | x2] e2].
      + destruct (retrieve_run_trace self client device_id (files w)
                    (history w ++ [Called (CallGetDevice device_id) false;
                       Logged INFO ("Creating device '" +:+ device_id +:+ "'...");
                       Called (CallCreateDeviceWithSas device_id PNone PNone "enabled") true;
                       Logged INFO ("Device '" +:+ device_id
                                    +:+ "' created successfully.")]) e2)
          as (c & w' & evs & Hrun & Hh & Hcalls & Hc).
        exists c, w', ([Called (CallGetDevice device_id) false;
                       Logged INFO ("Creating device '" +:+ device_id +:+ "'...");
                       Called (CallCreateDeviceWithSas device_id PNone PNone "enabled") true;
                       Logged INFO ("Device '" +:+ device_id
                                    +:+ "' created successfully.")] ++ evs).
        split; [exact Hrun |]. split; [now rewrite Hh, <- app_assoc |].
        split; [rewrite calls_of_app, Hcalls; reflexivity |].
        destruct Hc as [-> | (d & key & Hget & Hkey & ->)]; [now left | right].
        exists e2, d, key. auto.
      + do 3 eexists. split; [reflexivity |]. cbn [history mk_world].
        split; [reflexivity |]. split; [reflexivity |]. now left. }
  split.
  { destruct Hfirst as (c & w' & evs & Hrun & Hh & Hcalls & Hc).
    exists c, w', evs. split; [exact Hrun |]. split; [exact Hh |].
    split; [exact Hcalls |].
    destruct Hc as [-> | (e1 & d & key & Hlookup & Hget & Hkey & ->)]; [now left | right].
    pose proof Hkey as (auth & sk & Hauth & Hsk & ->)%get_primary_key_Ok.
    exists e1, d, auth, sk. auto 8. }
  intros registered [Hkeep Hfetch] c1 w1 Hrun1 Hc1.
  destruct Hfirst as (c & w' & evs & Hrun & _ & _ & Hc).
  rewrite Hrun1 in Hrun. injection Hrun as <- <-.
  destruct Hc as [-> | (e1 & d1 & key1 & _ & Hget1 & Hkey1 & ->)]; [discriminate |].
  assert (registered device_id (env w1)) as Hreg.
  { eapply Hkeep; [exact Hget1 |]. now rewrite Hkey1. }
  destruct (Hfetch _ _ Hreg) as (d2 & e2 & Hget2 & _ & Hreg2).
  destruct (Hfetch _ _ Hreg2) as (d3 & e3 & Hget3 & Hkey3 & _).
  destruct (get_primary_key d3) as [key |] eqn:Hkey; [| discriminate].
  pose proof Hkey as (auth & sk & Hauth & Hsk & ->)%get_primary_key_Ok.
  exists e2, d2, d3, auth, sk,
    (mk_world e3 (files w1)
       ((history w1 ++ [Called (CallGetDevice device_id) true;
                        Logged INFO ("Device '" +:+ device_id +:+ "' already exists.")])
        ++ [Called (CallGetDevice device_id) true])).
  rewrite (create_device_run self client) by exact Hclient.
  rewrite Hget2. unfold retrieve_run. rewrite Hget3, Hkey.
  cbn [env history mk_world].
  split; [reflexivity |]. split; [reflexivity |]. split; [exact Hauth |].
  split; [exact Hsk |]. split; [reflexivity |]. split; [reflexivity |].
  split; [reflexivity |].
  split; [| split; reflexivity].
  rewrite app_snoc, drop_app_length. reflexivity.
Qed.

(** *** The credential file across runs *)

(** C5, as amended. Of two calls of [create_devices_from_list] in a row,
    the second ends by logging the outcome of its file write, and when it
    logs success the credential file holds exactly the serialization of
    the second call's store: nothing of the first call's store, or of what
    the file held before, is kept. *)
Theorem credential_file_overwritten (schedule1 schedule2 : list nat)
    (self1 self2 : DeviceHandler RM) (device_ids1 device_ids2 : list string)
    (w0 w1 w2 : World E DC) (store1 store2 : dict (dict pyval))
    (tasks1 tasks2 : list (Coro E DC (dict pyval))) :
  create_devices_from_list schedule1 self1 device_ids1 w0 = Some (Ok store1, tasks1, w1) ->
  create_devices_from_list schedule2 self2 device_ids2 w1 = Some (Ok store2, tasks2, w2) ->
  (last (history w2) = Some (Logged INFO stored_message)
   \/ exists x, last (history w2) = Some (Logged ERROR (failed_message x)))
  /\ (last (history w2) = Some (Logged INFO stored_message) ->
      files w2 !! file_path = Some (Json.dumps store2)).
Proof.
  intros _ Hrun2.
  destruct (create_devices_from_list_run _ _ _ _ _ _ _ Hrun2)
    as (results & w' & _ & _ & _ & [= ->] & Hfile).
  destruct (create_device_credentials_file_effect _ _ _ _ Hfile) as [Hlog Hstored].
  split; [exact Hlog |].
  intros Hok. rewrite (Hstored Hok). apply lookup_insert_eq.
Qed.

(** *** The connectivity check *)

(** C6. For every credential (a dictionary with the three keys),
    [connect_device] builds the device client from the connection string
    of the credential, connects it, logs the success and disconnects it:
    once the connection is open, the log record and the call of
    [disconnect] follow under no condition. An exception raised by any of
    the three calls is caught and logged as an error (when building or
    connecting raises, no connection is open and [disconnect] is not
    called), and the task returns [None]: in every run, alone or
    interleaved with other tasks, it finishes after at most three steps
    without raising. *)
Theorem connect_device_closes (device_credential : dict pyval) (cs : string)
    (Hcs : connection_string_of device_credential = Ok cs) (w : World E DC) :
  finishes (fun _ : unit => True) 3 (connect_device device_credential)
  /\ fst (run_alone (connect_device device_credential) w) = Ok tt
  /\ exists id,
       dict_getitem device_credential "device_id" = Ok id
       /\ run_alone (connect_device device_credential) w =
          let '(r1, e1) := client_create_from_connection_string cs (env w) in
          match r1 with
          | Raise x =>
              (Ok tt, mk_world e1 (files w)
                        (history w ++ [Called (CallClientCreate cs) false;
                                       Logged ERROR (connect_failed_message id x)]))
          | Ok device_client =>
              let '(r2, e2) := client_connect device_client e1 in
              match r2 with
              | Raise x =>
                  (Ok tt, mk_world e2 (files w)
                            (history w ++ [Called (CallClientCreate cs) true;
                                           Called (CallConnect device_client) false;
                                           Logged ERROR (connect_failed_message id x)]))
              | Ok _ =>
                  let '(r3, e3) := client_disconnect device_client e2 in
                  match r3 with
                  | Ok _ =>
                      (Ok tt, mk_world e3 (files w)
                                (history w ++ [Called (CallClientCreate cs) true;
                                               Called (CallConnect device_client) true;
                                               Logged INFO (connected_message id);
                                               Called (CallDisconnect device_client) true]))
                  | Raise x =>
                      (Ok tt, mk_world e3 (files w)
                                (history w ++ [Called (CallClientCreate cs) true;
                                               Called (CallConnect device_client) true;
                                               Logged INFO (connected_message id);
                                               Called (CallDisconnect device_client) false;
                                               Logged ERROR (connect_failed_message id x)]))
                  end
              end
          end.
Proof.
  destruct (connection_string_of_Ok _ _ Hcs) as (host & id & key & _ & Hid & _ & _).
  split; [now apply (connect_device_finishes _ cs) |].
  rewrite (connect_device_run device_credential cs id w Hcs Hid).
  split; [| exists id; split; [exact Hid | reflexivity]].
  destruct (client_create_from_connection_string cs (env w)) as [[dc | x1] e1];
    [| reflexivity].
  destruct (client_connect dc e1) as [[[] | x2] e2]; [| reflexivity].
  destruct (client_disconnect dc e2) as [[[] | x3] e3]; reflexivity.
Qed.

(** *** The batch of connectivity checks *)

Lemma credentials_of_is_credential (self : DeviceHandler RM) (device_id : string)
    (key : pyval) :
  is_credential (credentials_of self device_id key) = true.
Proof. reflexivity. Qed.

Lemma connect_device_tasks_finish (all_credentials : dict (dict pyval)) :
  Forall (fun kv => is_credential kv.2 = true) all_credentials ->
  Forall2 (fun kv c => finishes (fun _ : unit => True) 3 c)
          all_credentials (connect_device_tasks all_credentials).
Proof.
  intros Hwf. unfold connect_device_tasks.
  apply Forall2_fmap_r, Forall_Forall2_diag.
  eapply Forall_impl; [exact Hwf |]. intros [k c] Hc. cbn in Hc. unfold is_credential in Hc.
  destruct (connection_string_of c) as [cs |] eqn:Hcs; [| discriminate].
  now apply (connect_device_finishes c cs).
Qed.

Lemma connect_all_devices_run (schedule : list nat) (all_credentials : dict (dict pyval))
    (w w' : World E DC) (r : result unit) (tasks : list (Coro E DC unit)) :
  Forall (fun kv => is_credential kv.2 = true) all_credentials ->
  connect_all_devices schedule all_credentials w = Some (r, tasks, w') ->
  r = Ok tt
  /\ exists results,
       gather schedule (connect_device_tasks all_credentials) w = Some (Ok results, tasks, w')
       /\ tasks = map (fun a => Done (Ok a)) results
       /\ length results = length all_credentials.
Proof.
  intros Hwf. unfold connect_all_devices.
  destruct (gather schedule (connect_device_tasks all_credentials) w)
    as [[[r0 tasks0] w1] |] eqn:Hgather; [| discriminate].
  destruct (gather_sound (fun _ _ => True) _ all_credentials _ _ _ _ _
              (Forall2_impl _ _ _ _ (connect_device_tasks_finish all_credentials Hwf)
                 (fun kv c Hc => ex_intro _ 3%nat Hc)) Hgather)
    as (results & -> & -> & Hres).
  intros [= <- <- <-]. split; [reflexivity |]. exists results.
  split; [reflexivity |]. split; [reflexivity |].
  symmetry. eapply Forall2_length; eauto.
Qed.

Lemma forallb_is_done_returned {A : Type} (results : list A) :
  forallb (is_done (E := E) (DC := DC)) (map (fun a => Done (Ok a)) results) = true.
Proof. induction results; [reflexivity | assumption]. Qed.

(** C9. The two batch operations join their tasks. Whatever the
    schedule of the event loop, when [create_devices_from_list] or
    [connect_all_devices] (over a store of credentials) returns, it
    returns normally, the loop has resumed every task of the batch, and
    every task is finished; as long as a task has not been resumed, the
    operation has not returned. There is no path on which it returns or
    raises while a task is still pending. Once the loop has given every
    task its turns (one for a creation, three for a connectivity check),
    the operation does return. *)
Theorem batches_join (schedule : list nat) (self : DeviceHandler RM)
    (device_ids : list string) (all_credentials : dict (dict pyval))
    (Hwf : Forall (fun kv => is_credential kv.2 = true) all_credentials)
    (w : World E DC) :
  (forall r tasks w',
      create_devices_from_list schedule self device_ids w = Some (r, tasks, w') ->
      is_ok r = true /\ length tasks = length device_ids
      /\ forallb is_done tasks = true
      /\ (forall i, (i < length device_ids)%nat -> i ∈ schedule))
  /\ (forall r tasks w',
        connect_all_devices schedule all_credentials w = Some (r, tasks, w') ->
        r = Ok tt /\ length tasks = length all_credentials
        /\ forallb is_done tasks = true
        /\ (forall i, (i < length all_credentials)%nat -> i ∈ schedule))
  /\ ((exists i, (i < length device_ids)%nat /\ i ∉ schedule) ->
      create_devices_from_list schedule self device_ids w = None)
  /\ ((exists i, (i < length all_credentials)%nat /\ i ∉ schedule) ->
      connect_all_devices schedule all_credentials w = None)
  /\ ((forall i, (i < length device_ids)%nat -> i ∈ schedule) ->
      is_Some (create_devices_from_list schedule self device_ids w))
  /\ ((forall i, (i < length all_credentials)%nat ->
                 (3 <= count_occ Nat.eq_dec schedule i)%nat) ->
      is_Some (connect_all_devices schedule all_credentials w)).
Proof.
  assert (forall r tasks w',
      create_devices_from_list schedule self device_ids w = Some (r, tasks, w') ->
      is_ok r = true /\ length tasks = length device_ids
      /\ forallb is_done tasks = true
      /\ (forall i, (i < length device_ids)%nat -> i ∈ schedule)) as Hcreate.
  { intros r tasks w' Hrun.
    destruct (create_devices_from_list_run _ _ _ _ _ _ _ Hrun)
      as (results & w1 & Hgather & -> & Hres & -> & _).
    split; [reflexivity |]. split.
    { rewrite length_map. symmetry. eapply Forall2_length; eauto. }
    split; [apply forallb_is_done_returned |].
    eapply create_device_tasks_resumed; eauto. }
  assert (forall r tasks w',
      connect_all_devices schedule all_credentials w = Some (r, tasks, w') ->
      r = Ok tt /\ length tasks = length all_credentials
      /\ forallb is_done tasks = true
      /\ (forall i, (i < length all_credentials)%nat -> i ∈ schedule)) as Hconnect.
  { intros r tasks w' Hrun.
    destruct (connect_all_devices_run _ _ _ _ _ _ Hwf Hrun)
      as (-> & results & Hgather & -> & Hlen).
    split; [reflexivity |]. split; [now rewrite length_map |].
    split; [apply forallb_is_done_returned |].
    intros i Hi. destruct (lookup_lt_is_Some_2 all_credentials i Hi) as [[k c] Hkc].
    eapply (gather_resumes _ _ _ _ _ _ i); [exact Hgather | reflexivity |].
    unfold connect_device_tasks. rewrite list_lookup_fmap, Hkc. reflexivity. }
  split; [exact Hcreate |]. split; [exact Hconnect |]. split.
  { intros (i & Hi & Hnot).
    destruct (create_devices_from_list schedule self device_ids w)
      as [[[r tasks] w'] |] eqn:Hrun; [| reflexivity].
    destruct (Hcreate _ _ _ eq_refl) as (_ & _ & _ & Hsched).
    destruct (Hnot (Hsched i Hi)). }
  split.
  { intros (i & Hi & Hnot).
    destruct (connect_all_devices schedule all_credentials w)
      as [[[r tasks] w'] |] eqn:Hrun; [| reflexivity].
    destruct (Hconnect _ _ _ eq_refl) as (_ & _ & _ & Hsched).
    destruct (Hnot (Hsched i Hi)). }
  split.
  { intros Hsched.
    destruct (create_devices_from_list_returns schedule self device_ids w Hsched)
      as (store & tasks & w' & ->). eauto. }
  intros Hsched.
  destruct (gather_complete (fun _ => True) schedule
              (connect_device_tasks all_credentials) w) as (results & tasks & w1 & Hgather).
  { intros i c Hc.
    pose proof (connect_device_tasks_finish all_credentials Hwf) as Hfin.
    destruct (Forall2_lookup_r _ _ _ _ _ Hfin Hc) as (kv & Hkv & Hc').
    apply (finishes_le _ 3); [exact Hc' |].
    apply Hsched. eapply lookup_lt_Some; eauto. }
  unfold connect_all_devices. rewrite Hgather. eauto.
Qed.

(** *** Errors end in the log *)

Lemma new_events_app (e : E) (fs : gmap string string) (w : World E DC)
    (evs : list (event DC)) :
  new_events w (mk_world e fs (history w ++ evs)) = evs.
Proof. unfold new_events. cbn [history mk_world]. apply drop_app_length. Qed.

(** [connect_hub], call by call. *)
Lemma connect_hub_run (self : DeviceHandler RM) (w : World E DC) :
  connect_hub self w =
  let cs := hub_connection_string self in
  let '(r, e1) := registry_from_connection_string cs (env w) in
  match r with
  | Ok client =>
      (Ok {| hostname := hostname self;
             shared_access_key_name := shared_access_key_name self;
             shared_access_key := shared_access_key self;
             device_client := Some client |},
       mk_world e1 (files w)
         (history w ++ [Called (CallRegistryFromConnectionString cs) true;
                        Logged INFO "Connection established for IoTHub Registry."]))
  | Raise x =>
      (Ok self,
       mk_world e1 (files w)
         (history w ++ [Called (CallRegistryFromConnectionString cs) false;
                        Logged ERROR (hub_failed_message x)]))
  end.
Proof.
  destruct w as [e fs h].
  unfold connect_hub, hub_connection_string, hub_failed_message, bind, try_except,
    external, logger_info, logger_error, ret.
  cbn [env files history].
  destruct (registry_from_connection_string _ e) as [[client | x] e1]; cbn;
    unfold record, mk_world; cbn; now rewrite <- !app_assoc.
Qed.

(** An empty result of [create_device] comes with an error in the log. *)
Lemma create_device_empty_logged (self : DeviceHandler RM) (device_id : string)
    (w w' : World E DC) :
  create_device self device_id w = (Ok [], w') ->
  exists x, last (history w') = Some (Logged ERROR (creating_failed_message device_id x))
            \/ last (history w')
               = Some (Logged ERROR (retrieving_failed_message device_id x)).
Proof.
  assert (forall client fs h e,
             retrieve_run self client device_id fs h e = (Ok [], w') ->
             exists x, last (history w')
                       = Some (Logged ERROR (creating_failed_message device_id x))
                       \/ last (history w')
                          = Some (Logged ERROR (retrieving_failed_message device_id x)))
    as Hretrieve.
  { intros client fs h e. unfold retrieve_run.
    destruct (get_device client device_id e) as [[d | x] e'];
      [destruct (get_primary_key d) as [key | x] |]; intros [= <-];
      exists x; right; cbn [history mk_world]; rewrite last_app; reflexivity. }
  destruct (device_client self) as [client |] eqn:Hclient.
  - rewrite (create_device_run self client) by exact Hclient.
    destruct (get_device client device_id (env w)) as [[d1 | x1] e1];
      [apply Hretrieve |].
    destruct (create_device_with_sas client device_id PNone PNone "enabled" e1)
      as [[d2 | x2] e2]; [apply Hretrieve |].
    intros [= <-]. exists x2. left. cbn [history mk_world]. rewrite last_app. reflexivity.
  - rewrite create_device_run_disconnected by exact Hclient. intros [= <-].
    exists (AttributeError "'NoneType' object has no attribute 'create_device_with_sas'").
    left. cbn [history mk_world]. rewrite last_app. reflexivity.
Qed.

(** C7. None of the four operations raises, and each converts the
    exception of a collaborator into a record of the log: [connect_hub]
    (the handler stays without a session), [create_device] (an empty
    result comes with an error record), [connect_device] for a credential,
    and [create_device_credentials_file]. Hence the driver's sequence
    ([connect_hub], then [create_devices_from_list], then
    [connect_all_devices] over the returned store, whose entries are
    credentials) never raises, whatever the collaborators do and however
    the event loop schedules the tasks. *)
Theorem errors_are_logged (self : DeviceHandler RM) (device_id : string)
    (credentials : dict (dict pyval)) (device_credential : dict pyval) (cs : string)
    (Hcs : connection_string_of device_credential = Ok cs) (w : World E DC) :
  (exists self' w',
      connect_hub self w = (Ok self', w')
      /\ match registry_from_connection_string (hub_connection_string self) (env w) with
         | (Raise x, _) =>
             self' = self /\ last (history w') = Some (Logged ERROR (hub_failed_message x))
         | (Ok client, _) =>
             device_client self' = Some client
             /\ last (history w')
                = Some (Logged INFO "Connection established for IoTHub Registry.")
         end)
  /\ (exists c w',
        create_device self device_id w = (Ok c, w')
        /\ (c = [] ->
            exists x,
              last (history w') = Some (Logged ERROR (creating_failed_message device_id x))
              \/ last (history w')
                 = Some (Logged ERROR (retrieving_failed_message device_id x))))
  /\ (exists w',
        run_alone (connect_device device_credential) w = (Ok tt, w')
        /\ (failed_call (new_events w w') = true ->
            exists id x,
              last (history w') = Some (Logged ERROR (connect_failed_message id x))))
  /\ (exists w',
        create_device_credentials_file credentials w = (Ok tt, w')
        /\ (failed_call (new_events w w') = true ->
            exists x, last (history w') = Some (Logged ERROR (failed_message x))))
  /\ (forall schedule1 schedule2 device_ids,
        exists self' w1,
          connect_hub self w = (Ok self', w1)
          /\ forall r1 tasks1 w2,
              create_devices_from_list schedule1 self' device_ids w1
              = Some (r1, tasks1, w2) ->
              exists store,
                r1 = Ok store
                /\ Forall (fun kv => is_credential kv.2 = true) store
                /\ forall r2 tasks2 w3,
                    connect_all_devices schedule2 store w2 = Some (r2, tasks2, w3) ->
                    r2 = Ok tt).
Proof.
  assert (exists self' w',
      connect_hub self w = (Ok self', w')
      /\ match registry_from_connection_string (hub_connection_string self) (env w) with
         | (Raise x, _) =>
             self' = self /\ last (history w') = Some (Logged ERROR (hub_failed_message x))
         | (Ok client, _) =>
             device_client self' = Some client
             /\ last (history w')
                = Some (Logged INFO "Connection established for IoTHub Registry.")
         end) as Hhub.
  { rewrite connect_hub_run. cbv zeta.
    destruct (registry_from_connection_string (hub_connection_string self) (env w))
      as [[client | x] e1]; do 2 eexists; (split; [reflexivity |]);
      cbn [history mk_world device_client]; rewrite last_app; split; reflexivity. }
  split; [exact Hhub |]. split.
  { destruct (create_device_returns self device_id w) as (c & w' & Hrun & _ & _).
    exists c, w'. split; [exact Hrun |]. intros ->.
    eapply create_device_empty_logged; eauto. }
  split.
  { destruct (connection_string_of_Ok _ _ Hcs) as (host & id & key & _ & Hid & _ & _).
    rewrite (connect_device_run device_credential cs id w Hcs Hid).
    destruct (client_create_from_connection_string cs (env w)) as [[dc | x1] e1].
    2: { eexists. split; [reflexivity |]. intros _. exists id, x1.
         cbn [history mk_world]. rewrite last_app. reflexivity. }
    destruct (client_connect dc e1) as [[[] | x2] e2].
    2: { eexists. split; [reflexivity |]. intros _. exists id, x2.
         cbn [history mk_world]. rewrite last_app. reflexivity. }
    destruct (client_disconnect dc e2) as [[[] | x3] e3].
    - eexists. split; [reflexivity |]. rewrite new_events_app. discriminate.
    - eexists. split; [reflexivity |]. intros _. exists id, x3.
      cbn [history mk_world]. rewrite last_app. reflexivity. }
  split.
  { rewrite create_device_credentials_file_run. cbv zeta.
    destruct (file_outcome (FOpen file_path "w") (env w)) as [[| x1 n1] e1].
    2: { eexists. split; [reflexivity |]. intros _. exists x1.
         cbn [history mk_world]. rewrite last_app. reflexivity. }
    destruct (file_outcome (FWrite file_path (Json.dumps credentials)) e1)
      as [[| x2 n2] e2];
      destruct (file_outcome (FClose file_path) e2) as [[| x3 n3] e3];
      eexists; (split; [reflexivity |]); rewrite new_events_app;
      try discriminate; intros _; eexists; cbn [history mk_world];
      rewrite last_app; reflexivity. }
  intros schedule1 schedule2 device_ids.
  destruct Hhub as (self' & w1 & Hrun & _). exists self', w1.
  split; [exact Hrun |]. intros r1 tasks1 w2 Hrun1.
  destruct (create_devices_from_list_run _ _ _ _ _ _ _ Hrun1)
    as (results & w1' & _ & _ & Hres & -> & _).
  exists (store_of device_ids results []). split; [reflexivity |].
  assert (Forall (fun kv => is_credential kv.2 = true) (store_of device_ids results []))
    as Hwf.
  { eapply Forall_impl;
      [apply (store_of_entries (credentials_for self') _ _ [] Hres); constructor |].
    intros [k c] [[-> | [key ->]] Hne]; [discriminate | reflexivity]. }
  split; [exact Hwf |]. intros r2 tasks2 w3 Hrun2.
  now destruct (connect_all_devices_run _ _ _ _ _ _ Hwf Hrun2).
Qed.

End Statements.

Example create_two_devices :
  match create_devices_from_list [0; 1]%nat sim_handler ["a"; "b"] (sim_world sim_start) with
  | Some (Ok store, tasks, w) =>
      dict_keys store = ["a"; "b"] /\ forallb is_done tasks = true
      /\ files w !! file_path = Some (Json.dumps store)
      /\ last (history w) = Some (Logged INFO stored_message)
  | _ => False
  end.
Proof. vm_compute. repeat split. Qed.

(** C1 at the simulated hub: two identifiers, the second rejected; the
    loop runs the two tasks in order. *)
Lemma create_devices_from_list_store_witness :
  (forall i, (i < length ["a"; "b"])%nat -> i ∈ [0; 1]%nat)
  /\ exists store tasks w',
       create_devices_from_list [0; 1]%nat sim_handler ["a"; "b"]
         (sim_world (sim_rejecting ["b"])) = Some (Ok store, tasks, w').
Proof.
  assert (forall i, (i < length ["a"; "b"])%nat -> i ∈ [0; 1]%nat) as Hsched.
  { intros [| [| i]] Hi; [left | right; left | cbn in Hi; lia]. }
  split; [exact Hsched |].
  exact (proj1 (create_devices_from_list_store [0; 1]%nat sim_handler ["a"; "b"]
                  (sim_world (sim_rejecting ["b"]))) Hsched).
Defined.

(** C1 as stated fails twice. With the identifiers ["a"; "a"; "b"] and
    creation failing for ["b"] alone, one result of three is empty and the
    store has one entry, not two. And when the file cannot be opened, the
    call returns its store and the credential file does not hold it. *)
Lemma create_devices_from_list_store_fails :
  match create_devices_from_list [0; 1; 2]%nat sim_handler ["a"; "a"; "b"]
          (sim_world (sim_rejecting ["b"])) with
  | Some (Ok store, tasks, w') =>
      map (fun c => match c with Done (Ok []) => true | _ => false end) tasks
      = [false; false; true]
      /\ length ["a"; "a"; "b"] = 3%nat /\ length store = 1%nat
  | _ => False
  end
  /\ match create_devices_from_list [0]%nat sim_handler ["a"]
             (sim_world (sim_io [IoFail (RaisedError "disk full") 0])) with
     | Some (Ok store, tasks, w') =>
         dict_keys store = ["a"] /\ files w' !! file_path = None
     | _ => False
     end.
Proof. vm_compute. repeat split. Qed.


(** C3 at the simulated hub, for a device whose creation is rejected. *)
Lemma create_device_isolated_witness :
  device_client sim_handler = Some tt
  /\ exists w',
       create_device sim_handler "a" (sim_world (sim_rejecting ["a"])) = (Ok [], w')
       /\ last (history w')
          = Some (Logged ERROR (creating_failed_message "a" (RaisedError "DeviceRejected"))).
Proof.
  split; [reflexivity |].
  exact (proj1 (proj2 (create_device_isolated sim_handler "a"
                         (sim_world (sim_rejecting ["a"])))) tt eq_refl).
Defined.

(** C3 as stated fails: for a device the hub does not know yet, the
    existence lookup raises, and [create_device] returns the credentials of
    the device it then creates, not an empty result. *)
Lemma create_device_isolated_fails :
  fst (get_device tt "a" sim_start) = Raise (RaisedError "DeviceNotFound")
  /\ fst (create_device sim_handler "a" (sim_world sim_start))
     = Ok [("hostname", PStr "hub.example.net"); ("device_id", PStr "a");
           ("shared_access_key", PStr "key-a-")].
Proof. vm_compute. split; reflexivity. Qed.

(** The simulated registry persists state. *)
Lemma sim_persists :
  persists (E := Sim) tt (fun id s => mem id (registered s) = true).
Proof.
  split.
  - intros id s d s'. cbn. destruct (mem id (registered s)) eqn:Hmem; [| discriminate].
    intros [= <- <-] _. exact Hmem.
  - intros id s Hmem. cbn. rewrite Hmem. do 2 eexists.
    split; [reflexivity |]. split; [reflexivity | exact Hmem].
Qed.

(** Two calls in a row for a device whose key rotates at every fetch: the
    same [device_id], and each time the key of the call's own last fetch. *)
Example create_device_twice_rotating :
  let '(c1, w1) := create_device sim_handler "a" (sim_world (sim_rotating ["a"])) in
  let '(c2, w2) := create_device sim_handler "a" w1 in
  c1 = Ok [("hostname", PStr "hub.example.net"); ("device_id", PStr "a");
           ("shared_access_key", PStr "key-a-i")]
  /\ c2 = Ok [("hostname", PStr "hub.example.net"); ("device_id", PStr "a");
              ("shared_access_key", PStr "key-a-iii")]
  /\ calls_of (drop (length (history w1)) (history w2))
     = [(CallGetDevice "a", true); (CallGetDevice "a", true)].
Proof. vm_compute. repeat split. Qed.

(** C2 at the simulated registry, with a device that exists and whose key
    rotates. *)
Lemma create_device_idempotent_witness :
  device_client sim_handler = Some tt
  /\ persists (E := Sim) tt (fun id s => mem id (registered s) = true)
  /\ exists c1 w1,
       create_device sim_handler "a" (sim_world (sim_rotating ["a"])) = (Ok c1, w1)
       /\ dict_truthy c1 = true
       /\ exists e2 d2 d3 auth sk w2,
            get_device tt "a" (env w1) = (Ok d2, e2)
            /\ get_device tt "a" e2 = (Ok d3, env w2)
            /\ authentication d3 = Some auth
            /\ symmetric_key auth = Some sk
            /\ get_primary_key d3 = Ok (primary_key sk)
            /\ create_device sim_handler "a" w1
               = (Ok (credentials_of sim_handler "a" (primary_key sk)), w2)
            /\ create_device sim_handler "a" w1
               = (Ok [("hostname", PStr (hostname sim_handler)); ("device_id", PStr "a");
                      ("shared_access_key", primary_key sk)], w2)
            /\ calls_of (drop (length (history w1)) (history w2))
               = [(CallGetDevice "a", true); (CallGetDevice "a", true)]
            /\ dict_getitem c1 "device_id" = Ok (PStr "a")
            /\ dict_getitem (credentials_of sim_handler "a" (primary_key sk)) "device_id"
               = dict_getitem c1 "device_id".
Proof.
  split; [reflexivity |]. split; [exact sim_persists |].
  exists (credentials_of sim_handler "a" (sim_key "a" 1)),
         (snd (create_device sim_handler "a" (sim_world (sim_rotating ["a"])))).
  split; [reflexivity |]. split; [reflexivity |].
  exact (proj2 (create_device_idempotent sim_handler tt eq_refl "a"
                  (sim_world (sim_rotating ["a"])))
           _ sim_persists _ _ eq_refl eq_refl).
Defined.

(** C5 at the simulated hub: a run for ["a"; "b"], then a run for ["c"]. *)
Lemma credential_file_overwritten_witness :
  exists store1 tasks1 w1 store2 tasks2 w2,
    create_devices_from_list [0; 1]%nat sim_handler ["a"; "b"] (sim_world sim_start)
    = Some (Ok store1, tasks1, w1)
    /\ create_devices_from_list [0]%nat sim_handler ["c"] w1 = Some (Ok store2, tasks2, w2)
    /\ last (history w2) = Some (Logged INFO stored_message)
    /\ dict_keys store1 = ["a"; "b"] /\ dict_keys store2 = ["c"]
    /\ files w2 !! file_path = Some (Json.dumps store2).
Proof.
  destruct (create_devices_from_list [0; 1]%nat sim_handler ["a"; "b"] (sim_world sim_start))
    as [[[[store1 | x1] tasks1] w1] |] eqn:Hrun1; try discriminate.
  destruct (create_devices_from_list [0]%nat sim_handler ["c"] w1)
    as [[[[store2 | x2] tasks2] w2] |] eqn:Hrun2;
    try (vm_compute in Hrun1; injection Hrun1 as <- <- <-; discriminate).
  assert (last (history w2) = Some (Logged INFO stored_message)) as Hlog.
  { vm_compute in Hrun1. injection Hrun1 as <- <- <-.
    vm_compute in Hrun2. injection Hrun2 as <- <- <-. reflexivity. }
  exists store1, tasks1, w1, store2, tasks2, w2.
  split; [reflexivity |]. split; [exact Hrun2 |]. split; [exact Hlog |].
  split; [vm_compute in Hrun1; injection Hrun1 as <- <- <-; reflexivity |].
  split; [vm_compute in Hrun1; injection Hrun1 as <- <- <-;
          vm_compute in Hrun2; injection Hrun2 as <- <- <-; reflexivity |].
  exact (proj2 (credential_file_overwritten _ _ _ _ _ _ _ _ _ _ _ _ _ Hrun1 Hrun2) Hlog).
Defined.

(** C5 as stated fails: when the second run cannot open the file, the
    file still holds the serialization of the first run's store, which is
    not that of the second run's store. *)
Lemma credential_file_overwritten_fails :
  match create_devices_from_list [0]%nat sim_handler ["a"]
          (sim_world (sim_io [IoOk; IoOk; IoOk; IoFail (RaisedError "read-only") 0])) with
  | Some (Ok store1, _, w1) =>
      match create_devices_from_list [0]%nat sim_handler ["b"] w1 with
      | Some (Ok store2, _, w2) =>
          dict_keys store1 = ["a"] /\ dict_keys store2 = ["b"]
          /\ files w2 !! file_path = Some (Json.dumps store1)
          /\ String.eqb (Json.dumps store1) (Json.dumps store2) = false
      | _ => False
      end
  | _ => False
  end.
Proof. vm_compute. repeat split. Qed.

(** C6 at the simulated hub, for a credential [create_device] returned. *)
Lemma connect_device_closes_witness :
  connection_string_of (credentials_of sim_handler "a" (PStr "key-a-"))
  = Ok "HostName=hub.example.net;DeviceId=a;SharedAccessKey=key-a-"
  /\ finishes (E := Sim) (fun _ : unit => True) 3
       (connect_device (credentials_of sim_handler "a" (PStr "key-a-")))
  /\ fst (run_alone (connect_device (credentials_of sim_handler "a" (PStr "key-a-")))
            (sim_world sim_start)) = Ok tt.
Proof.
  split; [reflexivity |].
  pose proof (connect_device_closes (E := Sim)
                (credentials_of sim_handler "a" (PStr "key-a-")) _ eq_refl
                (sim_world sim_start)) as (Hfin & Hok & _).
  split; [exact Hfin | exact Hok].
Defined.

Example connect_device_history :
  map Some (history (snd (run_alone
                            (connect_device (credentials_of sim_handler "a" (PStr "k")))
                            (sim_world sim_start))))
  = [Some (Called (CallClientCreate "HostName=hub.example.net;DeviceId=a;SharedAccessKey=k") true);
     Some (Called (CallConnect "HostName=hub.example.net;DeviceId=a;SharedAccessKey=k") true);
     Some (Logged INFO "Device a connected successfully.");
     Some (Called (CallDisconnect "HostName=hub.example.net;DeviceId=a;SharedAccessKey=k") true)].
Proof. vm_compute. reflexivity. Qed.

(** C7 at the simulated hub, for a device that cannot be reached. *)
Lemma errors_are_logged_witness :
  connection_string_of (credentials_of sim_handler "a" (PStr "k"))
  = Ok "HostName=hub.example.net;DeviceId=a;SharedAccessKey=k"
  /\ exists w',
       run_alone (connect_device (credentials_of sim_handler "a" (PStr "k")))
         (sim_world (sim_unreachable
                       ["HostName=hub.example.net;DeviceId=a;SharedAccessKey=k"]))
       = (Ok tt, w')
       /\ (failed_call
             (new_events
                (sim_world (sim_unreachable
                              ["HostName=hub.example.net;DeviceId=a;SharedAccessKey=k"]))
                w') = true ->
           exists id x,
             last (history w') = Some (Logged ERROR (connect_failed_message id x))).
Proof.
  split; [reflexivity |].
  exact (proj1 (proj2 (proj2
           (errors_are_logged sim_handler "a" []
              (credentials_of sim_handler "a" (PStr "k")) _ eq_refl
              (sim_world (sim_unreachable
                            ["HostName=hub.example.net;DeviceId=a;SharedAccessKey=k"])))))).
Defined.

Example connect_unreachable_history :
  map Some (history (snd (run_alone
     (connect_device (credentials_of sim_handler "a" (PStr "k")))
     (sim_world (sim_unreachable
                   ["HostName=hub.example.net;DeviceId=a;SharedAccessKey=k"])))))
  = [Some (Called (CallClientCreate "HostName=hub.example.net;DeviceId=a;SharedAccessKey=k") true);
     Some (Called (CallConnect "HostName=hub.example.net;DeviceId=a;SharedAccessKey=k") false);
     Some (Logged ERROR "Failed to connect device a: ConnectionFailed")].
Proof. vm_compute. reflexivity. Qed.

(** C9 at the simulated hub: a store of two credentials, and a schedule
    that gives each connectivity check its three turns, interleaved. *)
Lemma batches_join_witness :
  Forall (fun kv => is_credential kv.2 = true)
         [("a", credentials_of sim_handler "a" (PStr "k"));
          ("b", credentials_of sim_handler "b" (PStr "l"))]
  /\ (forall i, (i < 2)%nat -> (3 <= count_occ Nat.eq_dec [0; 1; 1; 0; 0; 1]%nat i)%nat)
  /\ is_Some (connect_all_devices [0; 1; 1; 0; 0; 1]%nat
                [("a", credentials_of sim_handler "a" (PStr "k"));
                 ("b", credentials_of sim_handler "b" (PStr "l"))]
                (sim_world sim_start)).
Proof.
  assert (Forall (fun kv : string * dict pyval => is_credential kv.2 = true)
            [("a", credentials_of sim_handler "a" (PStr "k"));
             ("b", credentials_of sim_handler "b" (PStr "l"))]) as Hwf
    by (repeat constructor).
  assert (forall i, (i < 2)%nat -> (3 <= count_occ Nat.eq_dec [0; 1; 1; 0; 0; 1]%nat i)%nat)
    as Hsched by (intros [| [| i]] Hi; cbn; lia).
  split; [exact Hwf |]. split; [exact Hsched |].
  exact (proj2 (proj2 (proj2 (proj2 (proj2
           (batches_join [0; 1; 1; 0; 0; 1]%nat sim_handler [] _ Hwf
              (sim_world sim_start)))))) Hsched).
Defined.

Example connect_all_interleaved :
  match connect_all_devices [0; 1; 1; 0; 0; 1]%nat
          [("a", credentials_of sim_handler "a" (PStr "k"));
           ("b", credentials_of sim_handler "b" (PStr "l"))] (sim_world sim_start) with
  | Some (r, tasks, w') =>
      r = Ok tt /\ forallb is_done tasks = true
      /\ calls_of (history w')
         = [(CallClientCreate "HostName=hub.example.net;DeviceId=a;SharedAccessKey=k", true);
            (CallClientCreate "HostName=hub.example.net;DeviceId=b;SharedAccessKey=l", true);
            (CallConnect "HostName=hub.example.net;DeviceId=b;SharedAccessKey=l", true);
            (CallConnect "HostName=hub.example.net;DeviceId=a;SharedAccessKey=k", true);
            (CallDisconnect "HostName=hub.example.net;DeviceId=a;SharedAccessKey=k", true);
            (CallDisconnect "HostName=hub.example.net;DeviceId=b;SharedAccessKey=l", true)]
  | None => False
  end.
Proof. vm_compute. repeat split. Qed.

Example connect_all_still_waiting :
  connect_all_devices [0; 1; 1; 0; 0]%nat
    [("a", credentials_of sim_handler "a" (PStr "k"));
     ("b", credentials_of sim_handler "b" (PStr "l"))] (sim_world sim_start)
  = None.
Proof. vm_compute. reflexivity. Qed.

(** * Further properties *)

(** ** Identifiers and draws *)

Section MoreOnTheGenerator.
Import GenerateMacID.

Lemma generate_mac_draws {G : Type} `{RandomSource G} (g : G) :
  let '(r1, r2, r3) := draw_octets g in
  0 <= r1 < 128 /\ 0 <= r2 < 256 /\ 0 <= r3 < 256
  /\ fst (generate_mac g) = mac_of_octets r1 r2 r3.
Proof.
  unfold generate_mac, draw_octets.
  pose proof (randint_range 0x00 0x7f g) as R1.
  destruct (randint 0x00 0x7f g) as [r1 g1].
  pose proof (randint_range 0x00 0xff g1) as R2.
  destruct (randint 0x00 0xff g1) as [r2 g2].
  pose proof (randint_range 0x00 0xff g2) as R3.
  destruct (randint 0x00 0xff g2) as [r3 g3].
  cbn [fst] in *. repeat split; lia.
Qed.

(** X1. The identifier [generate_mac] returns determines the three octets
    it drew: two calls, from any states of any sources, return the same
    identifier exactly when they drew the same octets. Every identifier
    has seventeen characters. *)
Theorem generate_mac_distinct {G1 G2 : Type} `{RandomSource G1} `{RandomSource G2}
    (g1 : G1) (g2 : G2) :
  (fst (generate_mac g1) = fst (generate_mac g2) <-> draw_octets g1 = draw_octets g2)
  /\ String.length (fst (generate_mac g1)) = 17%nat.
Proof.
  pose proof (generate_mac_draws g1) as D1. pose proof (generate_mac_draws g2) as D2.
  destruct (draw_octets g1) as [[a1 b1] c1], (draw_octets g2) as [[a2 b2] c2].
  destruct D1 as (Ha1 & Hb1 & Hc1 & ->), D2 as (Ha2 & Hb2 & Hc2 & ->).
  split.
  - split.
    + intros Heq. apply mac_of_octets_inj in Heq as (-> & -> & ->); (reflexivity || lia).
    + intros [= -> -> ->]. reflexivity.
  - rewrite mac_of_octets_eq by lia. reflexivity.
Qed.

Lemma drawn_mono {G : Type} `{RandomSource G} (n m : nat) (g : G) :
  (n <= m)%nat -> drawn n g ⊆ drawn m g.
Proof.
  intros Hle mac (i & Hi & Hmac)%elem_of_drawn. apply elem_of_drawn.
  exists i. split; [lia | exact Hmac].
Qed.

Lemma size_drawn_le {G : Type} `{RandomSource G} (n : nat) (g : G) :
  (size (drawn n g) <= n)%nat.
Proof.
  revert g. induction n as [| n IH]; intros g.
  - cbn. rewrite size_empty. lia.
  - rewrite drawn_S.
    pose proof (size_insert_le (generate_mac g).1 (drawn n (generate_mac g).2)).
    specialize (IH (generate_mac g).2). lia.
Qed.

Lemma after_add {G : Type} `{RandomSource G} (n m : nat) (g : G) :
  after (n + m) g = after m (after n g).
Proof.
  revert g. induction n as [| n IH]; intros g; [reflexivity |]. cbn. apply IH.
Qed.

(** The run of [generate_mac_addresses], by its iterations: it returns
    after [k] executions of the loop body, [k] being the first number of
    draws that gives [count] distinct identifiers. *)
Lemma generate_mac_addresses_run {G : Type} `{RandomSource G}
    (list_of_set : gset string -> list string)
    (Hperm : forall s, list_of_set s ≡ₚ elements s)
    (fuel : nat) (count : Z) (g g' : G) (ids : list string) :
  generate_mac_addresses list_of_set fuel count g = Some (ids, g') ->
  exists k : nat,
    (k <= fuel)%nat /\ g' = after k g
    /\ (forall mac, mac ∈ ids <-> mac ∈ drawn k g)
    /\ count <= Z.of_nat (size (drawn k g))
    /\ (forall i, (i < k)%nat -> Z.of_nat (size (drawn i g)) < count).
Proof.
  unfold generate_mac_addresses.
  destruct (generate_loop fuel count ∅ g) as [[s g1] |] eqn:Hloop; [| discriminate].
  intros ?; simplify_eq.
  destruct (generate_loop_drawn _ _ _ _ _ _ Hloop) as (k & Hk & Hs & Hg & Hstop & Hrun).
  rewrite (right_id_L ∅ (∪)) in Hs. subst s.
  exists k. split; [exact Hk |]. split; [exact Hg |]. split.
  { intros mac. rewrite (Hperm (drawn k g)). apply elem_of_elements. }
  split; [apply Z.ltb_ge in Hstop; exact Hstop |].
  intros i Hi. specialize (Hrun i Hi). now rewrite (right_id_L ∅ (∪)) in Hrun.
Qed.

(** X2. Asking for more identifiers from the same state of the random
    source extends the result: every identifier returned for a count [n]
    is among those returned for a count [m >= n], and the larger run
    leaves the source where the smaller run, continued, would leave it. *)
Theorem generate_mac_addresses_extends {G : Type} `{RandomSource G}
    (list_of_set1 list_of_set2 : gset string -> list string)
    (Hperm1 : forall s, list_of_set1 s ≡ₚ elements s)
    (Hperm2 : forall s, list_of_set2 s ≡ₚ elements s)
    (fuel1 fuel2 : nat) (n m : Z) (g g1 g2 : G) (ids_n ids_m : list string) :
  n <= m ->
  generate_mac_addresses list_of_set1 fuel1 n g = Some (ids_n, g1) ->
  generate_mac_addresses list_of_set2 fuel2 m g = Some (ids_m, g2) ->
  (forall mac, mac ∈ ids_n -> mac ∈ ids_m)
  /\ exists k : nat, g2 = after k g1.
Proof.
  intros Hnm Hrun1 Hrun2.
  destruct (generate_mac_addresses_run _ Hperm1 _ _ _ _ _ Hrun1)
    as (k1 & _ & -> & Hids1 & Hstop1 & Hmin1).
  destruct (generate_mac_addresses_run _ Hperm2 _ _ _ _ _ Hrun2)
    as (k2 & _ & -> & Hids2 & Hstop2 & Hmin2).
  assert (k1 <= k2)%nat as Hle.
  { destruct (decide (k1 <= k2)%nat) as [| Hgt]; [assumption |].
    specialize (Hmin1 k2 ltac:(lia)). lia. }
  split.
  - intros mac Hin. apply Hids2. apply (drawn_mono k1 k2 g Hle). now apply Hids1.
  - exists (k2 - k1)%nat. rewrite <- after_add. f_equal. lia.
Qed.

(** X2 at the linear congruential source: two identifiers, then three. *)
Lemma generate_mac_addresses_extends_witness :
  (forall s : gset string, elements s ≡ₚ elements s)
  /\ 2 <= 3
  /\ generate_mac_addresses elements 2 2 (1 : Z)
     = Some (["00-16-3e-6b-4b-fb"; "00-16-3e-46-7e-81"], 368800899)
  /\ generate_mac_addresses elements 5 3 (1 : Z)
     = Some (["00-16-3e-62-fb-54"; "00-16-3e-6b-4b-fb"; "00-16-3e-46-7e-81"], 1062517886)
  /\ (forall mac, mac ∈ ["00-16-3e-6b-4b-fb"; "00-16-3e-46-7e-81"] ->
                  mac ∈ ["00-16-3e-62-fb-54"; "00-16-3e-6b-4b-fb"; "00-16-3e-46-7e-81"]).
Proof.
  assert (forall s : gset string, elements s ≡ₚ elements s) as Hperm by reflexivity.
  assert (generate_mac_addresses elements 2 2 (1 : Z)
          = Some (["00-16-3e-6b-4b-fb"; "00-16-3e-46-7e-81"], 368800899)) as Hrun1
    by (vm_compute; reflexivity).
  assert (generate_mac_addresses elements 5 3 (1 : Z)
          = Some (["00-16-3e-62-fb-54"; "00-16-3e-6b-4b-fb"; "00-16-3e-46-7e-81"],
                  1062517886)) as Hrun2
    by (vm_compute; reflexivity).
  split; [exact Hperm |]. split; [lia |]. split; [exact Hrun1 |]. split; [exact Hrun2 |].
  exact (proj1 (generate_mac_addresses_extends elements elements Hperm Hperm
                  2 5 2 3 1 _ _ _ _ ltac:(lia) Hrun1 Hrun2)).
Defined.

(** X3. [generate_mac_addresses] needs at least [count] executions of
    its loop body: with less fuel than the count it is still running, and
    when it returns it has made [k >= count] rounds of draws, [k] within
    the fuel, returning exactly the identifiers of these rounds and
    leaving the source in the state after them; one round less would not
    have given [count] identifiers. *)
Theorem generate_mac_addresses_iterations {G : Type} `{RandomSource G}
    (list_of_set : gset string -> list string)
    (Hperm : forall s, list_of_set s ≡ₚ elements s)
    (fuel : nat) (count : Z) (g : G) :
  (Z.of_nat fuel < count -> generate_mac_addresses list_of_set fuel count g = None)
  /\ (forall ids g',
        generate_mac_addresses list_of_set fuel count g = Some (ids, g') ->
        exists k : nat,
          count <= Z.of_nat k /\ (k <= fuel)%nat /\ g' = after k g
          /\ (forall mac, mac ∈ ids <->
                exists i : nat, (i < k)%nat /\ fst (generate_mac (after i g)) = mac)
          /\ (forall i, (i < k)%nat -> Z.of_nat (size (drawn i g)) < count)).
Proof.
  assert (forall ids g',
        generate_mac_addresses list_of_set fuel count g = Some (ids, g') ->
        exists k : nat,
          count <= Z.of_nat k /\ (k <= fuel)%nat /\ g' = after k g
          /\ (forall mac, mac ∈ ids <->
                exists i : nat, (i < k)%nat /\ fst (generate_mac (after i g)) = mac)
          /\ (forall i, (i < k)%nat -> Z.of_nat (size (drawn i g)) < count)) as Hrun.
  { intros ids g' Hrun.
    destruct (generate_mac_addresses_run _ Hperm _ _ _ _ _ Hrun)
      as (k & Hk & Hg & Hids & Hstop & Hmin).
    exists k. pose proof (size_drawn_le k g).
    split; [lia |]. split; [exact Hk |]. split; [exact Hg |]. split; [| exact Hmin].
    intros mac. rewrite Hids. apply elem_of_drawn. }
  split; [| exact Hrun].
  intros Hfuel.
  destruct (generate_mac_addresses list_of_set fuel count g) as [[ids g'] |] eqn:Hgen;
    [| reflexivity].
  destruct (Hrun _ _ eq_refl) as (k & Hcount & Hk & _). lia.
Qed.

(** X3 at the linear congruential source. *)
Lemma generate_mac_addresses_iterations_witness :
  (forall s : gset string, elements s ≡ₚ elements s)
  /\ Z.of_nat 2 < 3
  /\ generate_mac_addresses elements 2 3 (1 : Z) = None.
Proof.
  assert (forall s : gset string, elements s ≡ₚ elements s) as Hperm by reflexivity.
  assert (Z.of_nat 2 < 3) as Hfuel by lia.
  split; [exact Hperm |]. split; [exact Hfuel |].
  exact (proj1 (generate_mac_addresses_iterations elements Hperm 2 3 (1 : Z)) Hfuel).
Defined.

End MoreOnTheGenerator.

(** ** The store *)

Section MoreOnTheStore.

Lemma dict_getitem_setitem_eq {V : Type} (d : dict V) (key : string) (v : V) :
  dict_getitem (dict_setitem d key v) key = Ok v.
Proof.
  induction d as [| [k v'] d IH]; cbn.
  - now rewrite String.eqb_refl.
  - destruct (String.eqb_spec k key) as [-> | Hne]; cbn.
    + now rewrite String.eqb_refl.
    + destruct (String.eqb_spec k key); [contradiction | exact IH].
Qed.

Lemma dict_getitem_setitem_ne {V : Type} (d : dict V) (key key' : string) (v : V) :
  key <> key' -> dict_getitem (dict_setitem d key v) key' = dict_getitem d key'.
Proof.
  intros Hne. induction d as [| [k v'] d IH]; cbn.
  - destruct (String.eqb_spec key key'); [contradiction | reflexivity].
  - destruct (String.eqb_spec k key) as [-> | Hk]; cbn.
    + destruct (String.eqb_spec key key'); [contradiction | reflexivity].
    + destruct (String.eqb_spec k key'); [reflexivity | exact IH].
Qed.

Lemma dict_setitem_NoDup {V : Type} (d : dict V) (key : string) (v : V) :
  NoDup (dict_keys d) -> NoDup (dict_keys (dict_setitem d key v)).
Proof.
  induction d as [| [k v'] d IH]; cbn; intros Hd.
  - apply NoDup_singleton.
  - apply NoDup_cons in Hd as [Hk Hd].
    destruct (String.eqb_spec k key) as [-> | Hne]; cbn.
    + apply NoDup_cons. auto.
    + apply NoDup_cons. split; [| now apply IH].
      fold (dict_keys (dict_setitem d key v)). rewrite dict_setitem_keys.
      intros [-> | Hin]; [contradiction | contradiction].
Qed.

Lemma store_of_NoDup (device_ids : list string) (results : list (dict pyval))
    (acc : dict (dict pyval)) :
  NoDup (dict_keys acc) -> NoDup (dict_keys (store_of device_ids results acc)).
Proof.
  revert results acc. induction device_ids as [| id device_ids IH];
    intros [| c results] acc Hacc; cbn [store_of]; auto.
  apply IH. destruct (dict_truthy c); [now apply dict_setitem_NoDup | exact Hacc].
Qed.

Lemma results_for_cons (id k : string) (device_ids : list string)
    (c : dict pyval) (results : list (dict pyval)) :
  results_for id (k :: device_ids) (c :: results) =
  (if String.eqb k id && dict_truthy c then [c] else [])
  ++ results_for id device_ids results.
Proof.
  unfold results_for. cbn.
  destruct (String.eqb k id && dict_truthy c); reflexivity.
Qed.

Lemma store_of_getitem (device_ids : list string) (results : list (dict pyval))
    (acc : dict (dict pyval)) (id : string) :
  dict_getitem (store_of device_ids results acc) id =
  match last (results_for id device_ids results) with
  | Some c => Ok c
  | None => dict_getitem acc id
  end.
Proof.
  revert results acc. induction device_ids as [| k device_ids IH];
    intros [| c results] acc; cbn [store_of]; try reflexivity.
  rewrite IH, results_for_cons.
  destruct (String.eqb_spec k id) as [-> | Hne]; cbn [andb].
  - destruct (dict_truthy c); [| reflexivity].
    cbn [app]. rewrite last_cons.
    destruct (last (results_for id device_ids results)); [reflexivity |].
    apply dict_getitem_setitem_eq.
  - cbn [app].
    destruct (last (results_for id device_ids results)); [reflexivity |].
    destruct (dict_truthy c); [now apply dict_getitem_setitem_ne | reflexivity].
Qed.

(** X4. The loop that assembles the store, for as many results as
    identifiers: it raises no [IndexError]; the keys of the store are
    pairwise distinct; and [store[id]] is the last non-empty result among
    the positions that hold [id] (a later result for a repeated
    identifier replaces the earlier one), [KeyError] when there is none. *)
Theorem update_credentials_last_wins (device_ids : list string)
    (results : list (dict pyval)) (Hlen : length results = length device_ids) :
  exists store,
    update_credentials device_ids (enumerate results) [] = Ok store
    /\ NoDup (dict_keys store)
    /\ forall id,
         dict_getitem store id =
         match last (results_for id device_ids results) with
         | Some c => Ok c
         | None => Raise (KeyError id)
         end.
Proof.
  exists (store_of device_ids results []).
  split; [now apply update_credentials_enumerate |].
  split; [apply store_of_NoDup, NoDup_nil_2 |].
  intros id. apply store_of_getitem.
Qed.

(** X4 for the identifiers ["a"; "b"; "a"]: the second result for ["a"]
    is the one stored, in the place of the first; ["b"] failed. *)
Lemma update_credentials_last_wins_witness :
  length [[("k", PStr "1")]; []; [("k", PStr "2")]] = length ["a"; "b"; "a"]
  /\ exists store,
       update_credentials ["a"; "b"; "a"]
         (enumerate [[("k", PStr "1")]; []; [("k", PStr "2")]]) [] = Ok store
       /\ NoDup (dict_keys store)
       /\ forall id,
            dict_getitem store id =
            match last (results_for id ["a"; "b"; "a"]
                          [[("k", PStr "1")]; []; [("k", PStr "2")]]) with
            | Some c => Ok c
            | None => Raise (KeyError id)
            end.
Proof.
  split; [reflexivity |].
  exact (update_credentials_last_wins ["a"; "b"; "a"]
           [[("k", PStr "1")]; []; [("k", PStr "2")]] eq_refl).
Defined.

Example update_credentials_repeated :
  update_credentials ["a"; "b"; "a"]
    (enumerate [[("k", PStr "1")]; []; [("k", PStr "2")]]) []
  = Ok [("a", [("k", PStr "2")])].
Proof. reflexivity. Qed.

End MoreOnTheStore.

(** ** What the batches touch *)

Section MoreOnTheBatches.
Context {E RM DC : Type} `{Environment E RM DC}.

Lemma extends_refl (P : event DC -> Prop) (w : World E DC) : extends P w w.
Proof.
  split; [reflexivity |]. exists []. rewrite app_nil_r. auto.
Qed.

Lemma extends_trans (P : event DC -> Prop) (w1 w2 w3 : World E DC) :
  extends P w1 w2 -> extends P w2 w3 -> extends P w1 w3.
Proof.
  intros [Hf1 (evs1 & Hh1 & HP1)] [Hf2 (evs2 & Hh2 & HP2)].
  split; [congruence |]. exists (evs1 ++ evs2).
  split; [rewrite Hh2, Hh1, app_assoc; reflexivity | apply Forall_app; auto].
Qed.

Lemma extends_mk (P : event DC -> Prop) (w : World E DC) (e : E) (evs : list (event DC)) :
  Forall P evs -> extends P w (mk_world e (files w) (history w ++ evs)).
Proof. intros HP. split; [reflexivity |]. exists evs. auto. Qed.

(** The join stays within what its tasks stay within. *)
Lemma gather_confined {A : Type} (R : World E DC -> World E DC -> Prop)
    (schedule : list nat) (tasks tasks' : list (Coro E DC A)) (w w' : World E DC)
    (r : result (list A)) :
  (forall w, R w w) -> (forall w1 w2 w3, R w1 w2 -> R w2 w3 -> R w1 w3) ->
  Forall (confined R) tasks ->
  gather schedule tasks w = Some (r, tasks', w') ->
  R w w'.
Proof.
  intros Hrefl Htrans. revert tasks w.
  induction schedule as [| i schedule IH]; intros tasks w Hconf;
    rewrite gather_unfold; destruct (all_returned tasks) as [results |].
  1, 3: intros [= <- <- <-]; apply Hrefl.
  - discriminate.
  - destruct (tasks !! i) as [[r0 | k eff] |] eqn:Hi; [now apply IH | | now apply IH].
    pose proof (proj1 (Forall_lookup _ _) Hconf i _ Hi) as Hc.
    inversion Hc as [| k' eff' Heff Hk]; subst.
    assert (Forall (confined R) (<[i := k w]> tasks)) as Hconf'.
    { apply Forall_insert; auto. }
    destruct (k w) as [[a | e] | k2 eff2] eqn:Hkw.
    + intros Hrun. eapply Htrans; [apply Heff | eapply IH; eauto].
    + intros [= <- <- <-]. apply Heff.
    + intros Hrun. eapply Htrans; [apply Heff | eapply IH; eauto].
Qed.

Lemma confined_task_of {A : Type} (R : World E DC -> World E DC -> Prop)
    (body : M E DC A) :
  (forall w, R w (snd (body w))) -> confined R (task_of body).
Proof.
  intros Hbody. unfold task_of, suspended. constructor; intros w.
  - specialize (Hbody w). now destruct (body w).
  - destruct (body w). cbn. constructor.
Qed.

Lemma retrieve_run_extends (self : DeviceHandler RM) (client : RM) (device_id : string)
    (device_ids : list string) (w : World E DC) (evs : list (event DC)) (e : E) :
  device_id ∈ device_ids -> Forall (registry_event device_ids) evs ->
  extends (registry_event device_ids) w
    (snd (retrieve_run self client device_id (files w) (history w ++ evs) e)).
Proof.
  intros Hin Hevs. unfold retrieve_run.
  destruct (get_device client device_id e) as [[d | x] e'];
    [destruct (get_primary_key d) |]; cbn [snd];
    rewrite <- app_assoc; apply extends_mk, Forall_app; (split; [exact Hevs |]);
    repeat constructor; exact Hin.
Qed.

(** [create_device] adds to the history calls of the registry about its
    identifier and log records, and leaves the credential file as it is. *)
Lemma create_device_extends (self : DeviceHandler RM) (device_id : string)
    (device_ids : list string) (w : World E DC) :
  device_id ∈ device_ids ->
  extends (registry_event device_ids) w (snd (create_device self device_id w)).
Proof.
  intros Hin. destruct (device_client self) as [client |] eqn:Hclient.
  - rewrite (create_device_run self client) by exact Hclient.
    destruct (get_device client device_id (env w)) as [[d1 | x1] e1].
    + apply retrieve_run_extends; [exact Hin |]. repeat constructor. exact Hin.
    + destruct (create_device_with_sas client device_id PNone PNone "enabled" e1)
        as [[d2 | x2] e2].
      * apply retrieve_run_extends; [exact Hin |]. repeat constructor; exact Hin.
      * cbn [snd]. apply extends_mk. repeat constructor; exact Hin.
  - rewrite create_device_run_disconnected by exact Hclient. cbn [snd].
    apply extends_mk. repeat constructor.
Qed.

Lemma substring_all (s : string) : substring 0 (String.length s) s = s.
Proof. induction s as [| c s IH]; cbn; [reflexivity | now rewrite IH]. Qed.

Lemma create_device_credentials_file_frame (credentials : dict (dict pyval))
    (w : World E DC) :
  exists evs n,
    history (snd (create_device_credentials_file credentials w)) = history w ++ evs
    /\ Forall file_event evs
    /\ (files (snd (create_device_credentials_file credentials w)) !! file_path
        = files w !! file_path
        \/ files (snd (create_device_credentials_file credentials w)) !! file_path
           = Some (substring 0 n (Json.dumps credentials))).
Proof.
  rewrite create_device_credentials_file_run. cbv zeta.
  destruct (file_outcome (FOpen file_path "w") (env w)) as [[| x1 n1] e1].
  - destruct (file_outcome (FWrite file_path (Json.dumps credentials)) e1)
      as [[| x2 n2] e2];
      destruct (file_outcome (FClose file_path) e2) as [[| x3 n3] e3];
      cbn [snd history files mk_world]; eexists;
      [exists (String.length (Json.dumps credentials))
      | exists (String.length (Json.dumps credentials)) | exists n2 | exists n2];
      (split; [reflexivity |]); (split; [repeat constructor |]); right;
      rewrite ?substring_all; apply lookup_insert_eq.
  - cbn [snd history files mk_world]. eexists. exists 0%nat.
    split; [reflexivity |]. split; [repeat constructor | now left].
Qed.

Lemma extends_record (P : event DC -> Prop) (w w1 : World E DC) (ev : event DC) :
  extends P w w1 -> P ev -> extends P w (record ev w1).
Proof.
  intros [Hf (evs & Hh & HP)] Hev. split; [exact Hf |].
  exists (evs ++ [ev]). cbn [history record]. rewrite Hh, app_assoc.
  split; [reflexivity |]. apply Forall_app. auto.
Qed.

Lemma extends_env (P : event DC -> Prop) (w : World E DC) (e : E) :
  extends P w {| env := e; files := files w; history := history w |}.
Proof. split; [reflexivity |]. exists []. cbn. rewrite app_nil_r. auto. Qed.

Lemma confined_coro_of {A : Type} (R : World E DC -> World E DC -> Prop)
    (step : M E DC (Coro E DC A)) :
  (forall w, R w (snd (step w))) ->
  (forall w c, fst (step w) = Ok c -> confined R c) ->
  confined R (coro_of step).
Proof.
  intros Heff Hk. unfold coro_of, suspended.
  constructor; intros w; specialize (Heff w); specialize (Hk w);
    destruct (step w) as [[c | e] w1]; cbn in *; auto; constructor.
Qed.

Ltac extends_step :=
  repeat first [ apply extends_refl | apply extends_env
               | apply extends_record; [| exact I] ].

(** [connect_device], for any dictionary: whenever it is resumed it adds
    to the history calls on device clients and log records, and leaves the
    credential file as it is. *)
Lemma connect_device_confined (device_credential : dict pyval) :
  confined (extends client_event) (connect_device device_credential).
Proof.
  unfold connect_device, connect_failed.
  apply confined_coro_of; intros w;
    unfold bind, lift, try_except, external, logger_info, logger_error, ret;
    destruct (connection_string_of device_credential) as [cs | x0]; cbn;
    try (extends_step; fail); try discriminate;
    destruct (client_create_from_connection_string cs (env w)) as [[dc | x1] e1]; cbn;
    destruct (dict_getitem device_credential "device_id") as [id | x]; cbn;
    try (extends_step; fail); intros c Hc; try discriminate; injection Hc as <-;
    try apply confined_done.
  all: apply confined_coro_of; intros w2;
    unfold bind, lift, try_except, external, logger_info, logger_error, ret;
    destruct (client_connect dc (env w2)) as [[[] | x2] e2]; cbn;
    try (extends_step; fail); try (intros c Hc; try discriminate; injection Hc as <-);
    try apply confined_done.
  all: try (apply confined_coro_of; intros w3;
    unfold bind, lift, try_except, external, logger_info, logger_error, ret;
    destruct (client_disconnect dc (env w3)) as [[[] | x3] e3]; cbn;
    try (extends_step; fail); try (intros c Hc; try discriminate; injection Hc as <-);
    try apply confined_done).
Qed.

Lemma registry_event_not_client (device_ids : list string) (ev : event DC) :
  registry_event device_ids ev -> is_client_call ev = false.
Proof. destruct ev as [| [] ?]; cbn; tauto. Qed.

Lemma file_event_not_client (ev : event DC) :
  file_event ev -> is_client_call ev = false.
Proof. destruct ev as [| [] ?]; cbn; tauto. Qed.

Lemma existsb_false_Forall {A : Type} (f : A -> bool) (l : list A) :
  Forall (fun a => f a = false) l -> existsb f l = false.
Proof. induction 1 as [| a l Ha _ IH]; cbn; [reflexivity | now rewrite Ha, IH]. Qed.

(** X5. Whatever the schedule, the sessions and the answers of the
    collaborators: when [create_devices_from_list] returns, it has first
    made calls of the registry about the listed identifiers only (fetches,
    and creations with no keys and status ["enabled"]), then operations on
    the credential file only, logging in between; it has made no call on
    a device client; and the credential file is as it was or holds a
    prefix of the serialized store. *)
Theorem create_devices_from_list_frame (schedule : list nat) (self : DeviceHandler RM)
    (device_ids : list string) (w w' : World E DC) (r : result (dict (dict pyval)))
    (tasks : list (Coro E DC (dict pyval)))
    (Hrun : create_devices_from_list schedule self device_ids w = Some (r, tasks, w')) :
  (exists store n,
      r = Ok store
      /\ (files w' !! file_path = files w !! file_path
          \/ files w' !! file_path = Some (substring 0 n (Json.dumps store))))
  /\ exists evs1 evs2,
       history w' = history w ++ evs1 ++ evs2
       /\ Forall (registry_event device_ids) evs1
       /\ Forall file_event evs2
       /\ existsb is_client_call (evs1 ++ evs2) = false.
Proof.
  destruct (create_devices_from_list_run _ _ _ _ _ _ _ Hrun)
    as (results & w1 & Hgather & _ & _ & -> & Hfile).
  assert (extends (registry_event device_ids) w w1) as [Hfiles (evs1 & Hh1 & Hevs1)].
  { eapply gather_confined; [apply extends_refl | apply extends_trans | | exact Hgather].
    unfold create_device_tasks. apply Forall_fmap, Forall_forall. intros id Hid.
    apply confined_task_of. intros w0. now apply create_device_extends. }
  destruct (create_device_credentials_file_frame (store_of device_ids results []) w1)
    as (evs2 & n & Hh2 & Hevs2 & Hf2).
  rewrite Hfile in Hh2, Hf2. cbn [snd] in Hh2, Hf2.
  split.
  { exists (store_of device_ids results []), n. split; [reflexivity |].
    destruct Hf2 as [Hf2 | Hf2]; [left; congruence | now right]. }
  exists evs1, evs2. split; [now rewrite Hh2, Hh1, app_assoc |].
  split; [exact Hevs1 |]. split; [exact Hevs2 |].
  apply existsb_false_Forall, Forall_app. split.
  - eapply Forall_impl; [exact Hevs1 |]. apply registry_event_not_client.
  - eapply Forall_impl; [exact Hevs2 |]. apply file_event_not_client.
Qed.

(** X6. Whatever the schedule and whatever the dictionaries of the store
    hold: when [connect_all_devices] returns or raises, what it added to
    the history are calls on device clients and log records: it has made
    no call of the registry and no operation on the credential file,
    which is as it was. *)
Theorem connect_all_devices_frame (schedule : list nat)
    (all_credentials : dict (dict pyval)) (w w' : World E DC) (r : result unit)
    (tasks : list (Coro E DC unit))
    (Hrun : connect_all_devices schedule all_credentials w = Some (r, tasks, w')) :
  files w' !! file_path = files w !! file_path
  /\ exists evs, history w' = history w ++ evs /\ Forall client_event evs.
Proof.
  unfold connect_all_devices in Hrun.
  destruct (gather schedule (connect_device_tasks all_credentials) w)
    as [[[r0 tasks0] w1] |] eqn:Hgather; [| discriminate].
  assert (extends client_event w w1) as Hext.
  { eapply gather_confined; [apply extends_refl | apply extends_trans | | exact Hgather].
    unfold connect_device_tasks. apply Forall_fmap, Forall_forall. intros [id c] _.
    apply connect_device_confined. }
  destruct r0; injection Hrun as <- <- <-; exact Hext.
Qed.

(** *** The order of the creations *)

Lemma all_returned_map {A : Type} (results : list A) :
  all_returned (map (fun a => Done (Ok a) : Coro E DC A) results) = Some results.
Proof. now apply all_returned_spec. Qed.

Lemma all_returned_pending {A : Type} (results : list A) (c : Coro E DC A)
    (tasks : list (Coro E DC A)) :
  is_done c = false ->
  all_returned (map (fun a => Done (Ok a)) results ++ c :: tasks) = None.
Proof.
  intros Hc. induction results as [| a results IH]; cbn.
  - destruct c; [discriminate | reflexivity].
  - now rewrite IH.
Qed.

(** Tasks that never suspend, resumed first to last: the join is the
    plain loop over their bodies. *)
Lemma gather_in_order {A : Type} (bodies : list (M E DC A)) (done : list A)
    (w : World E DC) :
  match run_in_order bodies w with
  | (Ok results, w1) =>
      gather (seq (length done) (length bodies))
        (map (fun a => Done (Ok a)) done ++ map task_of bodies) w
      = Some (Ok (done ++ results), map (fun a => Done (Ok a)) (done ++ results), w1)
  | (Raise e, w1) =>
      exists tasks',
        gather (seq (length done) (length bodies))
          (map (fun a => Done (Ok a)) done ++ map task_of bodies) w
        = Some (Raise e, tasks', w1)
  end.
Proof.
  revert done w. induction bodies as [| body bodies IH]; intros done w.
  - cbn [run_in_order length seq map]. unfold ret.
    rewrite !app_nil_r, gather_unfold, all_returned_map. reflexivity.
  - assert (forall schedule' : list nat,
              gather (length done :: schedule')
                (map (fun a => Done (Ok a)) done ++ task_of body :: map task_of bodies) w
              = match body w with
                | (Ok a, w1) =>
                    gather schedule'
                      (map (fun a => Done (Ok a)) (done ++ [a]) ++ map task_of bodies) w1
                | (Raise e, w1) =>
                    Some (Raise e,
                          map (fun a => Done (Ok a)) done
                          ++ Done (Raise e) :: map task_of bodies, w1)
                end) as Hstep.
    { intros schedule'.
      rewrite gather_unfold, all_returned_pending by reflexivity.
      rewrite list_lookup_middle by now rewrite length_map.
      unfold task_of at 1. unfold suspended.
      rewrite insert_app_r_alt by (rewrite length_map; lia).
      rewrite length_map, Nat.sub_diag. cbn [insert list_insert].
      destruct (body w) as [[a | e] w1]; cbn [fst snd]; [| reflexivity].
      now rewrite map_app, <- app_assoc. }
    cbn [length seq map run_in_order]. rewrite Hstep. unfold bind, ret.
    destruct (body w) as [[a | e] w1]; [| eauto].
    specialize (IH (done ++ [a]) w1).
    rewrite length_app, Nat.add_1_r in IH.
    destruct (run_in_order bodies w1) as [[results | e] w2];
      rewrite <- ?app_assoc in IH; exact IH.
Qed.

Lemma run_in_order_returns {A : Type} (bodies : list (M E DC A)) (w : World E DC) :
  Forall (fun body => forall w, is_ok (fst (body w)) = true) bodies ->
  exists results w1,
    run_in_order bodies w = (Ok results, w1) /\ length results = length bodies.
Proof.
  intros Hall. revert w. induction Hall as [| body bodies Hbody _ IH]; intros w; cbn.
  - exists [], w. auto.
  - unfold bind, ret. specialize (Hbody w).
    destruct (body w) as [[a | e] w1]; [| discriminate].
    destruct (IH w1) as (results & w2 & -> & Hlen).
    exists (a :: results), w2. cbn. auto.
Qed.

(** X7. Resumed in the order in which they were made (first to last,
    the order of the event loop for tasks just created), the tasks of
    [create_devices_from_list] run one after the other, each to its end:
    the batch does what the plain loop that calls [create_device] for one
    identifier after the other does, then assembles the store and writes
    the file. [create_device] awaits nothing, so the join adds no
    concurrency. *)
Theorem create_devices_from_list_in_order (self : DeviceHandler RM)
    (device_ids : list string) (w : World E DC) :
  exists results w1 w2,
    run_in_order (map (create_device self) device_ids) w = (Ok results, w1)
    /\ create_device_credentials_file (store_of device_ids results []) w1 = (Ok tt, w2)
    /\ create_devices_from_list (seq 0 (length device_ids)) self device_ids w
       = Some (Ok (store_of device_ids results []),
               map (fun c => Done (Ok c)) results, w2).
Proof.
  destruct (run_in_order_returns (map (create_device self) device_ids) w)
    as (results & w1 & Hrun & Hlen).
  { apply Forall_fmap, Forall_forall. intros id _ w0. cbn.
    destruct (create_device_returns self id w0) as (c & w' & -> & _). reflexivity. }
  rewrite length_map in Hlen.
  destruct (create_device_credentials_file_returns (store_of device_ids results []) w1)
    as [w2 Hfile].
  exists results, w1, w2. split; [exact Hrun |]. split; [exact Hfile |].
  pose proof (gather_in_order (map (create_device self) device_ids) [] w) as Hgather.
  rewrite Hrun, length_map, map_map in Hgather. cbn [length map app] in Hgather.
  unfold create_devices_from_list, create_device_tasks. rewrite Hgather.
  unfold bind, lift, ret. rewrite update_credentials_enumerate by exact Hlen.
  now rewrite Hfile.
Qed.

(** *** A handler without a session *)

Lemma store_of_all_empty (device_ids : list string) (results : list (dict pyval))
    (acc : dict (dict pyval)) :
  Forall (fun c => c = []) results -> store_of device_ids results acc = acc.
Proof.
  intros Hall. revert device_ids acc.
  induction Hall as [| c results -> _ IH]; intros [| id device_ids] acc;
    cbn [store_of dict_truthy]; auto.
Qed.

Lemma create_device_disconnected_confined (self : DeviceHandler RM)
    (device_id : string) :
  device_client self = None ->
  confined (fun w w1 : World E DC => env w1 = env w /\ extends log_event w w1)
           (task_of (create_device self device_id)).
Proof.
  intros Hclient. apply confined_task_of. intros w.
  rewrite create_device_run_disconnected by exact Hclient. cbn [snd].
  split; [reflexivity |]. apply extends_mk. repeat constructor.
Qed.

(** Without a session the batch only logs, then writes the empty store. *)
Lemma create_devices_from_list_disconnected (schedule : list nat)
    (self : DeviceHandler RM) (device_ids : list string) (w w' : World E DC)
    (r : result (dict (dict pyval))) (tasks : list (Coro E DC (dict pyval))) :
  device_client self = None ->
  create_devices_from_list schedule self device_ids w = Some (r, tasks, w') ->
  r = Ok []
  /\ exists w1,
       env w1 = env w /\ extends log_event w w1
       /\ create_device_credentials_file [] w1 = (Ok tt, w').
Proof.
  intros Hclient Hrun. unfold create_devices_from_list in Hrun.
  destruct (gather schedule (create_device_tasks self device_ids) w)
    as [[[r0 tasks0] w1] |] eqn:Hgather; [| discriminate].
  assert (Forall2 (fun (id : string) c => exists n, finishes (fun c => c = []) n c)
            device_ids (create_device_tasks self device_ids)) as Hfin.
  { unfold create_device_tasks. apply Forall2_fmap_r, Forall_Forall2_diag, Forall_forall.
    intros id _. exists 1%nat. apply finishes_task_of. intros w0.
    rewrite create_device_run_disconnected by exact Hclient. eauto. }
  destruct (gather_sound (fun _ c => c = []) _ _ _ _ _ _ _ Hfin Hgather)
    as (results & -> & -> & Hres).
  assert (env w1 = env w /\ extends log_event w w1) as [Henv Hext].
  { eapply (gather_confined (fun w w1 => env w1 = env w /\ extends log_event w w1));
      [| | | exact Hgather].
    - intros w0. split; [reflexivity | apply extends_refl].
    - intros wa wb wc [Ha1 Ha2] [Hb1 Hb2]. split; [congruence |].
      eapply extends_trans; eauto.
    - unfold create_device_tasks. apply Forall_fmap, Forall_forall. intros id _.
      now apply create_device_disconnected_confined. }
  unfold bind, lift, ret in Hrun.
  rewrite update_credentials_enumerate in Hrun
    by (symmetry; eapply Forall2_length; eauto).
  rewrite store_of_all_empty in Hrun
    by (eapply Forall2_Forall_r; [exact Hres |]; apply Forall_forall; auto).
  destruct (create_device_credentials_file_returns ([] : dict (dict pyval)) w1)
    as [w2 Hfile].
  rewrite Hfile in Hrun. injection Hrun as <- <- <-.
  split; [reflexivity |]. eauto.
Qed.

Lemma calls_of_log (evs : list (event DC)) :
  Forall log_event evs -> calls_of evs = [].
Proof.
  induction 1 as [| [lvl msg | c b] evs Hev _ IH]; cbn; [reflexivity | exact IH |].
  destruct Hev.
Qed.

(** X8. A handler without a registry session ([connect_hub] was not
    called, or failed): whatever the identifiers and the schedule, the
    batch returns the empty store; the only calls it makes are the
    operations on the credential file, to which it still writes the empty
    store. The credential file is afterwards as it was (it could not be
    opened) or holds a prefix of the two characters of the empty
    dictionary; when the write logs success, it holds these two
    characters, whatever it held before. *)
Theorem create_devices_from_list_no_session (schedule : list nat)
    (self : DeviceHandler RM) (Hclient : device_client self = None)
    (device_ids : list string) (w w' : World E DC) (r : result (dict (dict pyval)))
    (tasks : list (Coro E DC (dict pyval)))
    (Hrun : create_devices_from_list schedule self device_ids w = Some (r, tasks, w')) :
  r = Ok []
  /\ (exists evs,
        history w' = history w ++ evs
        /\ Forall (fun c : call DC * bool => exists op, c.1 = CallFile op) (calls_of evs))
  /\ (files w' !! file_path = files w !! file_path
      \/ exists n, files w' !! file_path = Some (substring 0 n "{}"))
  /\ (last (history w') = Some (Logged INFO stored_message) ->
      files w' !! file_path = Some "{}").
Proof.
  destruct (create_devices_from_list_disconnected _ _ _ _ _ _ _ Hclient Hrun)
    as (-> & w1 & _ & [Hfiles (evs1 & Hh1 & Hlog)] & Hfile).
  destruct (create_device_credentials_file_frame ([] : dict (dict pyval)) w1)
    as (evs2 & n & Hh2 & Hevs2 & Hf2).
  rewrite Hfile in Hh2, Hf2. cbn [snd] in Hh2, Hf2.
  split; [reflexivity |]. split.
  { exists (evs1 ++ evs2). split; [now rewrite Hh2, Hh1, app_assoc |].
    rewrite calls_of_app, (calls_of_log _ Hlog). cbn [app].
    clear -Hevs2. induction Hevs2 as [| [lvl msg | c b] evs Hev _ IH]; cbn;
      [constructor | exact IH |].
    constructor; [| exact IH]. destruct c; try destruct Hev. cbn. eauto. }
  split.
  { destruct Hf2 as [Hf2 | Hf2]; [left; congruence | right]. exists n. exact Hf2. }
  intros Hok.
  rewrite (proj2 (create_device_credentials_file_effect _ _ _ _ Hfile) Hok).
  apply lookup_insert_eq.
Qed.

(** *** Dictionaries that are no credentials *)








End MoreOnTheBatches.

(** X5 on a run whose write of the credential file fails after seven
    characters. *)
Lemma create_devices_from_list_frame_witness :
  exists r tasks w',
    create_devices_from_list [0; 1]%nat sim_handler ["a"; "b"]
      (sim_world (sim_io [IoOk; IoFail (RaisedError "disk full") 7]))
    = Some (r, tasks, w')
    /\ (exists store n,
          r = Ok store
          /\ (files w' !! file_path
              = files (sim_world (sim_io [IoOk; IoFail (RaisedError "disk full") 7]))
                !! file_path
              \/ files w' !! file_path = Some (substring 0 n (Json.dumps store))))
    /\ exists evs1 evs2,
         history w'
         = history (sim_world (sim_io [IoOk; IoFail (RaisedError "disk full") 7]))
           ++ evs1 ++ evs2
         /\ Forall (registry_event ["a"; "b"]) evs1
         /\ Forall file_event evs2
         /\ existsb is_client_call (evs1 ++ evs2) = false.
Proof.
  destruct (create_devices_from_list [0; 1]%nat sim_handler ["a"; "b"]
              (sim_world (sim_io [IoOk; IoFail (RaisedError "disk full") 7])))
    as [[[r tasks] w'] |] eqn:Hrun; [| vm_compute in Hrun; discriminate].
  exists r, tasks, w'. split; [reflexivity |].
  exact (create_devices_from_list_frame _ _ _ _ _ _ _ Hrun).
Defined.

Example create_devices_write_fails :
  match create_devices_from_list [0; 1]%nat sim_handler ["a"; "b"]
          (sim_world (sim_io [IoOk; IoFail (RaisedError "disk full") 7])) with
  | Some (Ok store, _, w') =>
      dict_keys store = ["a"; "b"]
      /\ files w' !! file_path = Some (substring 0 7 (Json.dumps store))
      /\ last (history w') = Some (Logged ERROR (failed_message (RaisedError "disk full")))
  | _ => False
  end.
Proof. vm_compute. auto. Qed.

(** X6 on a store of two entries, the second of which is no credential:
    the batch raises, and has touched device clients only. *)
Lemma connect_all_devices_frame_witness :
  exists r tasks w',
    connect_all_devices [0; 1; 0; 0]%nat
      [("a", credentials_of sim_handler "a" (PStr "k")); ("b", [("hostname", PStr "h")])]
      (sim_world sim_start)
    = Some (r, tasks, w')
    /\ files w' !! file_path = files (sim_world sim_start) !! file_path
    /\ exists evs, history w' = history (sim_world sim_start) ++ evs
                   /\ Forall client_event evs.
Proof.
  destruct (connect_all_devices [0; 1; 0; 0]%nat
              [("a", credentials_of sim_handler "a" (PStr "k"));
               ("b", [("hostname", PStr "h")])]
              (sim_world sim_start))
    as [[[r tasks] w'] |] eqn:Hrun; [| vm_compute in Hrun; discriminate].
  exists r, tasks, w'. split; [reflexivity |].
  exact (connect_all_devices_frame _ _ _ _ _ _ Hrun).
Defined.

(** The run of that witness: the batch raises the [KeyError] of the
    second entry. *)
Example connect_all_devices_raises :
  match connect_all_devices [0; 1; 0; 0]%nat
          [("a", credentials_of sim_handler "a" (PStr "k")); ("b", [("hostname", PStr "h")])]
          (sim_world sim_start) with
  | Some (Raise e, _, _) => e = KeyError "device_id"
  | _ => False
  end.
Proof. vm_compute. auto. Qed.

(** X8 on a handler fresh from [__init__]. *)
Lemma create_devices_from_list_no_session_witness :
  device_client (init "hub.example.net" "owner" "c2VjcmV0" : DeviceHandler unit) = None
  /\ exists r tasks w',
       create_devices_from_list [1; 0]%nat (init "hub.example.net" "owner" "c2VjcmV0")
         ["a"; "b"] (sim_world sim_start)
       = Some (r, tasks, w')
       /\ r = Ok []
       /\ (exists evs,
             history w' = history (sim_world sim_start) ++ evs
             /\ Forall (fun c : call string * bool => exists op, c.1 = CallFile op)
                       (calls_of evs))
       /\ (files w' !! file_path = files (sim_world sim_start) !! file_path
           \/ exists n, files w' !! file_path = Some (substring 0 n "{}"))
       /\ (last (history w') = Some (Logged INFO stored_message) ->
           files w' !! file_path = Some "{}").
Proof.
  split; [reflexivity |].
  destruct (create_devices_from_list [1; 0]%nat
              (init "hub.example.net" "owner" "c2VjcmV0" : DeviceHandler unit)
              ["a"; "b"] (sim_world sim_start))
    as [[[r tasks] w'] |] eqn:Hrun; [| vm_compute in Hrun; discriminate].
  exists r, tasks, w'. split; [reflexivity |].
  exact (create_devices_from_list_no_session _
           (init "hub.example.net" "owner" "c2VjcmV0") eq_refl _ _ _ _ _ Hrun).
Defined.


(** ** The driver *)

Section MoreOnTheDriver.
Context {E RM DC : Type} `{Environment E RM DC}.
Context {G : Type} `{RandomSource G}.

Lemma extends_impl (P Q : event DC -> Prop) (w w' : World E DC) :
  (forall ev, P ev -> Q ev) -> extends P w w' -> extends Q w w'.
Proof.
  intros HPQ [Hf (evs & Hh & HP)]. split; [exact Hf |]. exists evs.
  split; [exact Hh |]. eapply Forall_impl; eauto.
Qed.

Lemma extends_adds (P : event DC -> Prop) (w w' : World E DC) :
  extends P w w' -> adds P w w'.
Proof. now intros [_ Hh]. Qed.

Lemma adds_trans (P : event DC -> Prop) (w1 w2 w3 : World E DC) :
  adds P w1 w2 -> adds P w2 w3 -> adds P w1 w3.
Proof.
  intros (evs1 & Hh1 & HP1) (evs2 & Hh2 & HP2). exists (evs1 ++ evs2).
  split; [rewrite Hh2, Hh1, app_assoc; reflexivity | apply Forall_app; auto].
Qed.

Lemma create_device_credentials_file_adds (P : event DC -> Prop)
    (credentials : dict (dict pyval)) (w : World E DC) :
  (forall ev, file_event ev -> P ev) ->
  adds P w (snd (create_device_credentials_file credentials w)).
Proof.
  intros HP.
  destruct (create_device_credentials_file_frame credentials w)
    as (evs & n & Hh & Hevs & _).
  exists evs. split; [exact Hh |]. eapply Forall_impl; eauto.
Qed.

Lemma registry_event_main (connects : bool) (device_ids : list string) (ev : event DC) :
  Forall (fun id => GenerateMacID.mac_format id = true) device_ids ->
  registry_event device_ids ev -> main_event connects ev.
Proof.
  intros Hids. rewrite Forall_forall in Hids.
  destruct ev as [| [] ?]; cbn; try tauto.
  - apply Hids.
  - intros (Hin & -> & -> & ->). auto.
Qed.

Lemma file_event_main (connects : bool) (ev : event DC) :
  file_event ev -> main_event connects ev.
Proof. destruct ev as [| [] ?]; cbn; tauto. Qed.

Lemma client_event_main (ev : event DC) : client_event ev -> main_event true ev.
Proof. destruct ev as [| [] ?]; cbn; tauto. Qed.

(** The store [create_devices_from_list] returns holds credentials. *)
Lemma create_devices_from_list_credentials (schedule : list nat)
    (self : DeviceHandler RM) (device_ids : list string) (w w' : World E DC)
    (r : result (dict (dict pyval))) (tasks : list (Coro E DC (dict pyval))) :
  create_devices_from_list schedule self device_ids w = Some (r, tasks, w') ->
  exists store, r = Ok store /\ Forall (fun kv => is_credential kv.2 = true) store.
Proof.
  intros Hrun.
  destruct (create_devices_from_list_run _ _ _ _ _ _ _ Hrun)
    as (results & w1 & _ & _ & Hres & -> & _).
  exists (store_of device_ids results []). split; [reflexivity |].
  eapply Forall_impl;
    [apply (store_of_entries (credentials_for self) _ _ [] Hres); constructor |].
  intros [k c] [[-> | [key ->]] Hne]; [discriminate | reflexivity].
Qed.

Lemma dict_setitem_length_le {V : Type} (d : dict V) (key : string) (v : V) :
  (length (dict_setitem d key v) <= S (length d))%nat.
Proof.
  induction d as [| [k v'] d IH]; cbn; [lia |].
  destruct (String.eqb k key); cbn; lia.
Qed.

(** The store has at most one entry per identifier. *)
Lemma store_of_length_le (device_ids : list string) (results : list (dict pyval))
    (acc : dict (dict pyval)) :
  (length (store_of device_ids results acc) <= length acc + length device_ids)%nat.
Proof.
  revert results acc. induction device_ids as [| id device_ids IH];
    intros [| c results] acc; cbn [store_of length]; try lia.
  etransitivity; [apply IH |].
  destruct (dict_truthy c); [pose proof (dict_setitem_length_le acc id c) |]; lia.
Qed.

(** With three turns for every task, [connect_all_devices] returns, over
    a store of credentials. *)
Lemma connect_all_devices_returns (schedule : list nat)
    (all_credentials : dict (dict pyval)) (w : World E DC) :
  Forall (fun kv => is_credential kv.2 = true) all_credentials ->
  (forall i, (i < length all_credentials)%nat ->
             (3 <= count_occ Nat.eq_dec schedule i)%nat) ->
  exists tasks w', connect_all_devices schedule all_credentials w = Some (Ok tt, tasks, w').
Proof.
  intros Hwf Hsched.
  destruct (gather_complete (fun _ => True) schedule
              (connect_device_tasks all_credentials) w) as (results & tasks & w1 & Hgather).
  { intros i c Hc.
    pose proof (connect_device_tasks_finish all_credentials Hwf) as Hfin.
    destruct (Forall2_lookup_r _ _ _ _ _ Hfin Hc) as (kv & Hkv & Hc').
    apply (finishes_le _ 3); [exact Hc' |].
    apply Hsched. eapply lookup_lt_Some; eauto. }
  unfold connect_all_devices. rewrite Hgather. eauto.
Qed.

Lemma connect_hub_Ok (self : DeviceHandler RM) (w : World E DC) :
  exists self' w1, connect_hub self w = (Ok self', w1).
Proof.
  rewrite connect_hub_run. cbv zeta.
  destruct (registry_from_connection_string _ (env w)) as [[c | x] e1]; eauto.
Qed.

(** [main] once the count is read: none of its steps raises, up to the
    second [input]. *)
Lemma main_run (list_of_set : gset string -> list string) (fuel : nat)
    (schedule1 schedule2 : list nat) (num_of_ids : Z) (answer : result string)
    (g g' : G) (w w' : World E DC) (r : result unit) :
  main list_of_set fuel schedule1 schedule2 (Ok num_of_ids) answer g w
  = Some (r, g', w') ->
  r = Ok tt
  /\ exists self w1 mac_ids store tasks w3,
       connect_hub (init "<your-iothub-hostname>" "<your-iothub-shared-access-key-name>"
                         "<your-iothub-shared-access-key>") w = (Ok self, w1)
       /\ GenerateMacID.generate_mac_addresses list_of_set fuel num_of_ids g
          = Some (mac_ids, g')
       /\ create_devices_from_list schedule1 self mac_ids
            (record (Logged INFO ("mac_ids: " +:+ PyBuiltins.repr_list mac_ids)) w1)
          = Some (Ok store, tasks, w3)
       /\ Forall (fun kv => is_credential kv.2 = true) store
       /\ if answered_yes answer
          then exists tasks2,
                 connect_all_devices schedule2 store
                   (record (Logged INFO "Connecting all devices...") w3)
                 = Some (Ok tt, tasks2, w')
          else match answer with
               | Raise e => w' = main_failed e w3
               | Ok _ =>
                   w' = record (Logged INFO
                                  "Device creation completed. Devices are not connected.")
                               w3
               end.
Proof.
  unfold main. intros Hrun.
  destruct (connect_hub _ w) as [[self | e] w1] eqn:Hhub.
  2: { exfalso. rewrite connect_hub_run in Hhub. cbv zeta in Hhub.
       destruct (registry_from_connection_string _ (env w)) as [[c | x] e1];
         discriminate. }
  destruct (GenerateMacID.generate_mac_addresses list_of_set fuel num_of_ids g)
    as [[mac_ids g1] |] eqn:Hgen; [| discriminate].
  cbv zeta in Hrun. unfold logger_info in Hrun. cbn [snd] in Hrun.
  destruct (create_devices_from_list schedule1 self mac_ids _)
    as [[[r1 tasks] w3] |] eqn:Hcreate; [| discriminate].
  destruct (create_devices_from_list_credentials _ _ _ _ _ _ _ Hcreate)
    as (store & -> & Hwf).
  destruct answer as [user_response | e]; cbn [answered_yes].
  - destruct (String.eqb (PyBuiltins.lower (PyBuiltins.strip user_response)) "yes").
    + destruct (connect_all_devices schedule2 store _)
        as [[[r2 tasks2] w5] |] eqn:Hconn; [| discriminate].
      destruct (connect_all_devices_run _ _ _ _ _ _ Hwf Hconn) as (-> & _).
      injection Hrun as <- <- <-. split; [reflexivity |].
      exists self, w1, mac_ids, store, tasks, w3. eauto 8.
    + injection Hrun as <- <- <-. split; [reflexivity |].
      exists self, w1, mac_ids, store, tasks, w3. auto 8.
  - injection Hrun as <- <- <-. split; [reflexivity |].
    exists self, w1, mac_ids, store, tasks, w3. auto 8.
Qed.

(** [main] comes to its end when the generator returns and the event
    loop gives the tasks their turns. *)
Lemma main_returns (list_of_set : gset string -> list string) (fuel : nat)
    (schedule1 schedule2 : list nat) (num_of_ids : Z) (answer : result string)
    (g g1 : G) (w : World E DC) (mac_ids : list string) :
  GenerateMacID.generate_mac_addresses list_of_set fuel num_of_ids g
  = Some (mac_ids, g1) ->
  (forall i, (i < length mac_ids)%nat -> i ∈ schedule1) ->
  exists self w1 store tasks w3,
    connect_hub (init "<your-iothub-hostname>" "<your-iothub-shared-access-key-name>"
                      "<your-iothub-shared-access-key>") w = (Ok self, w1)
    /\ create_devices_from_list schedule1 self mac_ids
         (record (Logged INFO ("mac_ids: " +:+ PyBuiltins.repr_list mac_ids)) w1)
       = Some (Ok store, tasks, w3)
    /\ (length store <= length mac_ids)%nat
    /\ ((answered_yes answer = true ->
         forall i, (i < length store)%nat -> (3 <= count_occ Nat.eq_dec schedule2 i)%nat) ->
        exists w', main list_of_set fuel schedule1 schedule2 (Ok num_of_ids) answer g w
                   = Some (Ok tt, g1, w')).
Proof.
  intros Hgen Hs1.
  destruct (connect_hub_Ok (init "<your-iothub-hostname>"
                                 "<your-iothub-shared-access-key-name>"
                                 "<your-iothub-shared-access-key>") w)
    as (self & w1 & Hhub).
  destruct (create_devices_from_list_returns schedule1 self mac_ids
              (record (Logged INFO ("mac_ids: " +:+ PyBuiltins.repr_list mac_ids)) w1) Hs1)
    as (store & tasks & w3 & Hcreate).
  exists self, w1, store, tasks, w3. split; [exact Hhub |]. split; [exact Hcreate |].
  destruct (create_devices_from_list_credentials _ _ _ _ _ _ _ Hcreate)
    as (store' & [= <-] & Hwf).
  split.
  { destruct (create_devices_from_list_run _ _ _ _ _ _ _ Hcreate)
      as (results & w2 & _ & _ & _ & [= ->] & _).
    apply (store_of_length_le mac_ids results []). }
  intros Hs2. unfold main. rewrite Hhub, Hgen. cbv zeta.
  unfold logger_info at 1. cbn [snd]. rewrite Hcreate.
  destruct answer as [user_response | e]; cbn [answered_yes] in Hs2; [| eauto].
  destruct (String.eqb (PyBuiltins.lower (PyBuiltins.strip user_response)) "yes");
    [| eauto].
  unfold logger_info. cbn [snd].
  destruct (connect_all_devices_returns schedule2 store
              (record (Logged INFO "Connecting all devices...") w3) Hwf (Hs2 eq_refl))
    as (tasks2 & w5 & ->). eauto.
Qed.

Lemma main_waits (list_of_set : gset string -> list string) (fuel : nat)
    (schedule1 schedule2 : list nat) (num_of_ids : Z) (answer : result string)
    (g : G) (w : World E DC) :
  GenerateMacID.generate_mac_addresses list_of_set fuel num_of_ids g = None ->
  main list_of_set fuel schedule1 schedule2 (Ok num_of_ids) answer g w = None.
Proof.
  intros Hgen. unfold main.
  destruct (connect_hub_Ok (init "<your-iothub-hostname>"
                                 "<your-iothub-shared-access-key-name>"
                                 "<your-iothub-shared-access-key>") w)
    as (self & w1 & ->).
  now rewrite Hgen.
Qed.

(** X10. [main] raises exactly when the count does not parse: the first
    [input] is read outside the [try], and then nothing has been logged
    or called. Once the count is read, [main] does not raise. It comes to
    its end, returning [None], when the generator returns and the event
    loop gives every task its turns (one for a creation, three for a
    connectivity check); this happens, with enough executions of the
    loop of the generator, for a fair source and a count from 0 to [2^23].
    It does not come to its end while the generator does not return,
    which is forever for a count above [2^23]. And when it comes to its
    end, no failure of the hub, the registry, the file system or a device
    has reached its [except] clause, which runs only when the second
    [input] raises: [connect_hub] returned, the identifiers were
    generated and logged, [create_devices_from_list] returned a store of
    credentials, and then either the devices were connected (the answer
    is yes), or the closing record was logged, or the exception of
    [input] was logged twice. *)
Theorem main_outcome (list_of_set : gset string -> list string)
    (Hperm : forall s, list_of_set s ≡ₚ elements s) (fuel : nat)
    (schedule1 schedule2 : list nat) (count_input : result Z) (answer : result string)
    (g : G) (w : World E DC) :
  match count_input with
  | Raise e =>
      main list_of_set fuel schedule1 schedule2 (Raise e) answer g w
      = Some (Raise e, g, w)
  | Ok num_of_ids =>
      (forall mac_ids g1,
          GenerateMacID.generate_mac_addresses list_of_set fuel num_of_ids g
          = Some (mac_ids, g1) ->
          (forall i, (i < length mac_ids)%nat -> i ∈ schedule1) ->
          (answered_yes answer = true ->
           forall i, (i < length mac_ids)%nat ->
                     (3 <= count_occ Nat.eq_dec schedule2 i)%nat) ->
          exists w', main list_of_set fuel schedule1 schedule2 (Ok num_of_ids) answer g w
                     = Some (Ok tt, g1, w'))
      /\ (GenerateMacID.fair g -> 0 <= num_of_ids <= GenerateMacID.mac_space_size ->
          exists fuel',
            forall schedule1' schedule2',
              (forall i, (i < Z.to_nat num_of_ids)%nat -> i ∈ schedule1') ->
              (answered_yes answer = true ->
               forall i, (i < Z.to_nat num_of_ids)%nat ->
                         (3 <= count_occ Nat.eq_dec schedule2' i)%nat) ->
              exists g1 w',
                main list_of_set fuel' schedule1' schedule2' (Ok num_of_ids) answer g w
                = Some (Ok tt, g1, w'))
      /\ (GenerateMacID.generate_mac_addresses list_of_set fuel num_of_ids g = None ->
          main list_of_set fuel schedule1 schedule2 (Ok num_of_ids) answer g w = None)
      /\ (GenerateMacID.mac_space_size < num_of_ids ->
          main list_of_set fuel schedule1 schedule2 (Ok num_of_ids) answer g w = None)
      /\ forall r g' w',
          main list_of_set fuel schedule1 schedule2 (Ok num_of_ids) answer g w
          = Some (r, g', w') ->
          r = Ok tt
          /\ exists self w1 mac_ids store tasks w3,
               connect_hub (init "<your-iothub-hostname>"
                                 "<your-iothub-shared-access-key-name>"
                                 "<your-iothub-shared-access-key>") w = (Ok self, w1)
               /\ GenerateMacID.generate_mac_addresses list_of_set fuel num_of_ids g
                  = Some (mac_ids, g')
               /\ create_devices_from_list schedule1 self mac_ids
                    (record (Logged INFO ("mac_ids: " +:+ PyBuiltins.repr_list mac_ids))
                            w1)
                  = Some (Ok store, tasks, w3)
               /\ Forall (fun kv => is_credential kv.2 = true) store
               /\ if answered_yes answer
                  then exists tasks2,
                         connect_all_devices schedule2 store
                           (record (Logged INFO "Connecting all devices...") w3)
                         = Some (Ok tt, tasks2, w')
                  else match answer with
                       | Raise e =>
                           w' = record
                                  (Logged ERROR ("Twin connection failed with IoTHub: "
                                                 +:+ exn_str e))
                                  (record (Logged INFO ("Exception occurred: "
                                                        +:+ exn_str e)) w3)
                       | Ok _ =>
                           w' = record
                                  (Logged INFO
                                     "Device creation completed. Devices are not connected.")
                                  w3
                       end
  end.
Proof.
  destruct count_input as [num_of_ids | e]; [| reflexivity].
  split.
  { intros mac_ids g1 Hgen Hs1 Hs2.
    destruct (main_returns list_of_set fuel schedule1 schedule2 num_of_ids answer
                g g1 w mac_ids Hgen Hs1)
      as (self & w1 & store & tasks & w3 & _ & _ & Hlen & Hmain).
    apply Hmain. intros Hyes i Hi. apply (Hs2 Hyes). lia. }
  split.
  { intros Hfair [Hlo Hhi].
    destruct (fair_covers g (Z.to_nat num_of_ids) Hfair) as [n Hn]; [lia |].
    destruct (generate_loop_enough n num_of_ids ∅ g) as [[s g1] Hloop].
    { rewrite (right_id_L ∅ (∪)). lia. }
    assert (GenerateMacID.generate_mac_addresses list_of_set n num_of_ids g
            = Some (list_of_set s, g1)) as Hgen
      by (unfold GenerateMacID.generate_mac_addresses; now rewrite Hloop).
    destruct (generate_mac_addresses_sound list_of_set Hperm _ _ _ _ _ Hgen)
      as (Hlen & _ & _).
    exists n. intros schedule1' schedule2' Hs1 Hs2.
    destruct (main_returns list_of_set n schedule1' schedule2' num_of_ids answer
                g g1 w (list_of_set s) Hgen)
      as (self & w1 & store & tasks & w3 & _ & _ & Hle & Hmain).
    { intros i Hi. apply Hs1. lia. }
    exists g1. apply Hmain. intros Hyes i Hi. apply (Hs2 Hyes). lia. }
  split; [apply main_waits |].
  split.
  { intros Hbig. apply main_waits. unfold GenerateMacID.generate_mac_addresses.
    rewrite generate_loop_starves; [reflexivity | apply empty_subseteq | exact Hbig]. }
  intros r g' w' Hrun.
  destruct (main_run _ _ _ _ _ _ _ _ _ _ _ Hrun)
    as (-> & self & w1 & mac_ids & store & tasks & w3 & Hhub & Hgen & Hcreate & Hwf & Hend).
  split; [reflexivity |]. exists self, w1, mac_ids, store, tasks, w3.
  repeat (split; [assumption |]).
  destruct (answered_yes answer); [exact Hend |].
  destruct answer; exact Hend.
Qed.

Lemma connect_all_devices_extends (schedule : list nat)
    (all_credentials : dict (dict pyval)) (w w' : World E DC) (r : result unit)
    (tasks : list (Coro E DC unit)) (P : event DC -> Prop) :
  (forall ev, client_event ev -> P ev) ->
  connect_all_devices schedule all_credentials w = Some (r, tasks, w') ->
  extends P w w'.
Proof.
  intros HP Hrun. unfold connect_all_devices in Hrun.
  destruct (gather schedule (connect_device_tasks all_credentials) w)
    as [[[r0 tasks0] w1] |] eqn:Hgather; [| discriminate].
  assert (extends client_event w w1) as Hext.
  { eapply gather_confined; [apply extends_refl | apply extends_trans | | exact Hgather].
    unfold connect_device_tasks. apply Forall_fmap, Forall_forall. intros [id c] _.
    apply connect_device_confined. }
  apply (extends_impl client_event); [exact HP |].
  destruct r0; injection Hrun as <- <- <-; exact Hext.
Qed.

Lemma create_devices_from_list_adds (schedule : list nat) (self : DeviceHandler RM)
    (device_ids : list string) (w w' : World E DC) (r : result (dict (dict pyval)))
    (tasks : list (Coro E DC (dict pyval))) (P : event DC -> Prop) :
  (forall ev, registry_event device_ids ev -> P ev) ->
  (forall ev, file_event ev -> P ev) ->
  create_devices_from_list schedule self device_ids w = Some (r, tasks, w') ->
  adds P w w'.
Proof.
  intros Hreg Hfil Hrun.
  destruct (create_devices_from_list_run _ _ _ _ _ _ _ Hrun)
    as (results & w1 & Hgather & _ & _ & _ & Hfile).
  apply (adds_trans _ _ w1).
  - apply extends_adds, (extends_impl (registry_event device_ids)); [exact Hreg |].
    eapply gather_confined; [apply extends_refl | apply extends_trans | | exact Hgather].
    unfold create_device_tasks. apply Forall_fmap, Forall_forall. intros id Hid.
    apply confined_task_of. intros w0. now apply create_device_extends.
  - pose proof (create_device_credentials_file_adds P
                  (store_of device_ids results []) w1 Hfil) as Hout.
    now rewrite Hfile in Hout.
Qed.

Lemma connect_hub_extends (w w1 : World E DC) (self : DeviceHandler RM)
    (P : event DC -> Prop) :
  (forall b, P (Called (CallRegistryFromConnectionString main_connection_string) b)) ->
  (forall lvl msg, P (Logged lvl msg)) ->
  connect_hub (init "<your-iothub-hostname>" "<your-iothub-shared-access-key-name>"
                    "<your-iothub-shared-access-key>") w = (Ok self, w1) ->
  extends P w w1.
Proof.
  intros Hcall Hlog. rewrite connect_hub_run. cbv zeta.
  change (hub_connection_string _) with main_connection_string.
  destruct (registry_from_connection_string main_connection_string (env w))
    as [[c | x] e1]; intros [= <- <-]; apply extends_mk; repeat constructor; auto.
Qed.

(** X11. What a run of [main] does, once the count is read, for a
    [list] that lists the elements of the set. Apart from logging, every
    step it has taken when it comes to its end is one of these: opening
    the registry session with the connection string of its three
    placeholders; fetching or creating a device whose identifier has the
    generator's format (the prefix [00-16-3e] and three octets in
    lower-case hexadecimal, the first below [0x80]), created with no keys
    and status ["enabled"]; an operation on the credential file; and,
    only when the answer, stripped and lower-cased, is ["yes"], a call on
    a device client. *)
Theorem main_confined (list_of_set : gset string -> list string)
    (Hperm : forall s, list_of_set s ≡ₚ elements s) (fuel : nat)
    (schedule1 schedule2 : list nat) (num_of_ids : Z) (answer : result string)
    (g g' : G) (w w' : World E DC) (r : result unit)
    (Hrun : main list_of_set fuel schedule1 schedule2 (Ok num_of_ids) answer g w
            = Some (r, g', w')) :
  exists evs,
    history w' = history w ++ evs
    /\ Forall (main_event (answered_yes answer)) evs.
Proof.
  destruct (main_run _ _ _ _ _ _ _ _ _ _ _ Hrun)
    as (_ & self & w1 & mac_ids & store & tasks & w3 & Hhub & Hgen & Hcreate & _ & Hend).
  destruct (generate_mac_addresses_sound _ Hperm _ _ _ _ _ Hgen)
    as (_ & _ & Hids).
  assert (Forall (fun id => GenerateMacID.mac_format id = true) mac_ids) as Hformat.
  { eapply Forall_impl; [exact Hids |]. apply mac_space_format. }
  set (P := main_event (answered_yes answer)).
  assert (forall lvl msg, P (Logged lvl msg)) as Hlog by (intros; exact I).
  change (adds P w w').
  apply (adds_trans _ _ w1).
  { apply extends_adds.
    apply (connect_hub_extends _ _ self); [| exact Hlog | exact Hhub].
    intros b. reflexivity. }
  apply (adds_trans _ _ w3).
  { apply (adds_trans _ _
             (record (Logged INFO ("mac_ids: " +:+ PyBuiltins.repr_list mac_ids)) w1)).
    - apply extends_adds, extends_record; [apply extends_refl | apply Hlog].
    - eapply create_devices_from_list_adds; [| | exact Hcreate].
      + intros ev. now apply registry_event_main.
      + apply file_event_main. }
  apply extends_adds. subst P.
  destruct (answered_yes answer).
  - destruct Hend as [tasks2 Hconn].
    apply (extends_trans _ _ (record (Logged INFO "Connecting all devices...") w3)).
    + apply extends_record; [apply extends_refl | exact I].
    + eapply connect_all_devices_extends; [| exact Hconn]. apply client_event_main.
  - destruct answer as [user_response | e]; subst w'.
    + apply extends_record; [apply extends_refl | exact I].
    + unfold main_failed, logger_info, logger_error. cbn [snd].
      repeat apply extends_record; try exact I. apply extends_refl.
Qed.

Lemma gather_nil {A : Type} (schedule : list nat) (w : World E DC) :
  gather schedule ([] : list (Coro E DC A)) w = Some (Ok [], [], w).
Proof. now rewrite gather_unfold. Qed.

(** X12. A hub that cannot be reached does not stop [main]: when opening
    the registry session raises, [main] still comes to its end once the
    generator has returned and the event loop has given every creation
    task a turn, whatever the answer. It has then run the batch with a
    handler that has no session: no device has been fetched, created or
    connected; the only calls of the run are the failed opening of the
    session and the operations on the credential file, which is written
    with the empty store. The credential file is afterwards as it was (it
    could not be opened) or holds a prefix of the two characters of the
    empty dictionary: the credentials of an earlier run are gone. *)
Theorem main_hub_unreachable (list_of_set : gset string -> list string) (fuel : nat)
    (schedule1 schedule2 : list nat) (num_of_ids : Z) (answer : result string)
    (g : G) (w : World E DC)
    (Hhub : is_ok (fst (registry_from_connection_string main_connection_string (env w)))
            = false) :
  (forall mac_ids g1,
      GenerateMacID.generate_mac_addresses list_of_set fuel num_of_ids g
      = Some (mac_ids, g1) ->
      (forall i, (i < length mac_ids)%nat -> i ∈ schedule1) ->
      exists w', main list_of_set fuel schedule1 schedule2 (Ok num_of_ids) answer g w
                 = Some (Ok tt, g1, w'))
  /\ forall r g' w',
      main list_of_set fuel schedule1 schedule2 (Ok num_of_ids) answer g w
      = Some (r, g', w') ->
      r = Ok tt
      /\ (exists evs calls,
            history w' = history w ++ evs
            /\ calls_of evs
               = (CallRegistryFromConnectionString main_connection_string, false) :: calls
            /\ Forall (fun c : call DC * bool => exists op, c.1 = CallFile op) calls)
      /\ (files w' !! file_path = files w !! file_path
          \/ exists n, files w' !! file_path = Some (substring 0 n "{}")).
Proof.
  assert (forall self w1,
             connect_hub (init "<your-iothub-hostname>"
                               "<your-iothub-shared-access-key-name>"
                               "<your-iothub-shared-access-key>") w = (Ok self, w1) ->
             exists x e1,
               self = init "<your-iothub-hostname>" "<your-iothub-shared-access-key-name>"
                           "<your-iothub-shared-access-key>"
               /\ w1 = mk_world e1 (files w)
                         (history w
                          ++ [Called (CallRegistryFromConnectionString
                                        main_connection_string) false;
                              Logged ERROR (hub_failed_message x)])) as Hdown.
  { intros self w1. rewrite connect_hub_run. cbv zeta.
    change (hub_connection_string _) with main_connection_string.
    destruct (registry_from_connection_string main_connection_string (env w))
      as [[c | x] e1]; [discriminate |].
    intros [= <- <-]. eauto. }
  split.
  { intros mac_ids g1 Hgen Hs1.
    destruct (main_returns list_of_set fuel schedule1 schedule2 num_of_ids answer
                g g1 w mac_ids Hgen Hs1)
      as (self & w1 & store & tasks & w3 & Hconn & Hcreate & _ & Hmain).
    destruct (Hdown _ _ Hconn) as (x & e1 & -> & _).
    destruct (create_devices_from_list_disconnected _ (init _ _ _) _ _ _ _ _
                eq_refl Hcreate) as ([= ->] & _).
    apply Hmain. intros _ i Hi. cbn in Hi. lia. }
  intros r g' w' Hrun.
  destruct (main_run _ _ _ _ _ _ _ _ _ _ _ Hrun)
    as (-> & self & w1 & mac_ids & store & tasks & w3 & Hconn & _ & Hcreate & _ & Hend).
  split; [reflexivity |].
  destruct (Hdown _ _ Hconn) as (x & e1 & -> & ->). clear Hdown Hhub Hconn.
  destruct (create_devices_from_list_disconnected _ (init _ _ _) _ _ _ _ _ eq_refl Hcreate)
    as ([= ->] & w2 & _ & [Hfiles2 (evs2 & Hh2 & Hlog2)] & Hfile).
  destruct (create_device_credentials_file_frame ([] : dict (dict pyval)) w2)
    as (evs3 & n & Hh3 & Hevs3 & Hf3).
  rewrite Hfile in Hh3, Hf3. cbn [snd] in Hh3, Hf3.
  cbn [files history record mk_world] in Hfiles2, Hh2.
  assert (exists evs4, history w' = history w3 ++ evs4 /\ Forall log_event evs4
                       /\ files w' = files w3) as (evs4 & Hh4 & Hlog4 & Hf4).
  { destruct (answered_yes answer).
    - destruct Hend as [tasks2 Hrun2].
      unfold connect_all_devices, connect_device_tasks in Hrun2. cbn [map] in Hrun2.
      rewrite gather_nil in Hrun2. injection Hrun2 as _ <-.
      exists [Logged INFO "Connecting all devices..."]. repeat constructor.
    - destruct answer as [user_response | e]; subst w'.
      + eexists [_]. repeat constructor.
      + unfold main_failed, logger_info, logger_error. cbn [snd].
        eexists [_; _]. cbn [history record files].
        rewrite <- app_assoc. repeat constructor. }
  assert (Forall (fun c : call DC * bool => exists op, c.1 = CallFile op)
                 (calls_of evs3)) as Hcalls.
  { clear -Hevs3. induction Hevs3 as [| [lvl msg | c b] evs Hev _ IH]; cbn;
      [constructor | exact IH |].
    constructor; [| exact IH]. destruct c; try destruct Hev. cbn. eauto. }
  split.
  { exists ([Called (CallRegistryFromConnectionString main_connection_string) false;
             Logged ERROR (hub_failed_message x);
             Logged INFO ("mac_ids: " +:+ PyBuiltins.repr_list mac_ids)]
            ++ evs2 ++ evs3 ++ evs4), (calls_of evs3).
    split.
    { rewrite Hh4, Hh3, Hh2. rewrite <- !app_assoc. reflexivity. }
    split; [| exact Hcalls].
    rewrite !calls_of_app, (calls_of_log _ Hlog2), (calls_of_log _ Hlog4).
    cbn. now rewrite app_nil_r. }
  rewrite Hf4. destruct Hf3 as [Hf3 | Hf3]; [left; congruence | right; eauto].
Qed.

End MoreOnTheDriver.

(** X10 on a run with the linear congruential source and the simulated
    hub, the answer being [" Yes "]: [main] comes to its end. *)
Lemma main_outcome_witness :
  (forall s : gset string, elements s ≡ₚ elements s)
  /\ GenerateMacID.generate_mac_addresses elements 5 2 (1 : Z)
     = Some (["00-16-3e-6b-4b-fb"; "00-16-3e-46-7e-81"], 368800899)
  /\ exists w',
       main elements 5 [0; 1]%nat [0; 1; 0; 1; 0; 1]%nat (Ok 2) (Ok " Yes ") (1 : Z)
         (sim_world sim_start)
       = Some (Ok tt, 368800899, w').
Proof.
  assert (forall s : gset string, elements s ≡ₚ elements s) as Hperm by reflexivity.
  assert (GenerateMacID.generate_mac_addresses elements 5 2 (1 : Z)
          = Some (["00-16-3e-6b-4b-fb"; "00-16-3e-46-7e-81"], 368800899)) as Hgen
    by (vm_compute; reflexivity).
  split; [exact Hperm |]. split; [exact Hgen |].
  refine (proj1 (main_outcome elements Hperm 5 [0; 1]%nat [0; 1; 0; 1; 0; 1]%nat
                   (Ok 2) (Ok " Yes ") (1 : Z) (sim_world sim_start))
            _ _ Hgen _ _).
  - intros [| [| i]] Hi; cbn in Hi; [repeat constructor.. | lia].
  - intros _ [| [| i]] Hi; cbn in Hi; [cbn; lia.. | lia].
Defined.

(** That run: two devices created, connected and disconnected. *)
Example main_answers_yes :
  match main elements 5 [0; 1]%nat [0; 1; 0; 1; 0; 1]%nat (Ok 2) (Ok " Yes ") (1 : Z)
          (sim_world sim_start) with
  | Some (Ok _, _, w') =>
      registered (env w') = ["00-16-3e-46-7e-81"; "00-16-3e-6b-4b-fb"]
      /\ length (filter (fun ev => is_client_call ev = true) (history w')) = 6%nat
      /\ last (history w')
         = Some (Called (CallDisconnect
                           ("HostName=<your-iothub-hostname>;DeviceId=00-16-3e-46-7e-81;"
                            +:+ "SharedAccessKey=key-00-16-3e-46-7e-81-")) true)
  | _ => False
  end.
Proof. vm_compute. auto. Qed.

(** A count that does not parse: [main] raises at once. *)
Example main_count_not_a_number :
  main elements 5 [0; 1]%nat [] (Raise (RaisedError "invalid literal for int()"))
    (Ok "yes") (1 : Z) (sim_world sim_start)
  = Some (Raise (RaisedError "invalid literal for int()"), 1, sim_world sim_start).
Proof. reflexivity. Qed.

(** X11 on a run where the answer is no. *)
Lemma main_confined_witness :
  (forall s : gset string, elements s ≡ₚ elements s)
  /\ exists r g' w',
       main elements 5 [0; 1]%nat [] (Ok 2) (Ok "no") (1 : Z) (sim_world sim_start)
       = Some (r, g', w')
       /\ exists evs,
            history w' = history (sim_world sim_start) ++ evs
            /\ Forall (main_event (answered_yes (Ok "no"))) evs.
Proof.
  assert (forall s : gset string, elements s ≡ₚ elements s) as Hperm by reflexivity.
  split; [exact Hperm |].
  destruct (main elements 5 [0; 1]%nat [] (Ok 2) (Ok "no") (1 : Z) (sim_world sim_start))
    as [[[r g'] w'] |] eqn:Hrun; [| vm_compute in Hrun; discriminate].
  exists r, g', w'. split; [reflexivity |].
  exact (main_confined elements Hperm _ _ _ _ _ _ _ _ _ _ Hrun).
Defined.

(** X12 on a run against a hub that is down, over a credential file left
    by an earlier run. *)
Lemma main_hub_unreachable_witness :
  is_ok (fst (registry_from_connection_string main_connection_string
                (env ({| env := sim_down; files := {[file_path := "earlier"]};
                         history := [] |} : World Sim string))))
  = false
  /\ GenerateMacID.generate_mac_addresses elements 5 2 (1 : Z)
     = Some (["00-16-3e-6b-4b-fb"; "00-16-3e-46-7e-81"], 368800899)
  /\ exists w',
       main elements 5 [0; 1]%nat [] (Ok 2) (Ok "yes") (1 : Z)
         ({| env := sim_down; files := {[file_path := "earlier"]}; history := [] |}
          : World Sim string)
       = Some (Ok tt, 368800899, w').
Proof.
  assert (GenerateMacID.generate_mac_addresses elements 5 2 (1 : Z)
          = Some (["00-16-3e-6b-4b-fb"; "00-16-3e-46-7e-81"], 368800899)) as Hgen
    by (vm_compute; reflexivity).
  split; [reflexivity |]. split; [exact Hgen |].
  refine (proj1 (main_hub_unreachable elements 5 [0; 1]%nat [] 2 (Ok "yes") (1 : Z)
                   ({| env := sim_down; files := {[file_path := "earlier"]};
                       history := [] |} : World Sim string) eq_refl)
            _ _ Hgen _).
  intros [| [| i]] Hi; cbn in Hi; [repeat constructor.. | lia].
Defined.

(** That run: the credentials of the earlier run are replaced by the
    empty dictionary. *)
Example main_hub_down :
  match main elements 5 [0; 1]%nat [] (Ok 2) (Ok "yes") (1 : Z)
          ({| env := sim_down; files := {[file_path := "earlier"]}; history := [] |}
           : World Sim string) with
  | Some (Ok _, _, w') =>
      files w' !! file_path = Some "{}"
      /\ length (calls_of (history w')) = 4%nat
      /\ last (history w') = Some (Logged INFO "Connecting all devices...")
  | _ => False
  end.
Proof. vm_compute. auto. Qed.

(** ** Connections opened and closed *)

Section MoreOnTheConnections.
Context {E RM DC : Type} `{Environment E RM DC}.

Lemma merges_prepend {A : Type} (traces : list (list A)) (evs pre t : list A) (i : nat) :
  merges traces evs -> traces !! i = Some t ->
  merges (<[i := pre ++ t]> traces) (pre ++ evs).
Proof.
  intros Hm Hi. induction pre as [| a pre IH]; cbn [app].
  - now rewrite list_insert_id.
  - apply (merges_cons i a (pre ++ t)).
    + apply list_lookup_insert_eq. eapply lookup_lt_Some; eauto.
    + now rewrite list_insert_insert_eq.
Qed.

Lemma plays_returned {A : Type} (Qs : list (list (event DC) -> Prop)) (results : list A) :
  Forall2 (fun Q (c : Coro E DC A) => plays c Q) Qs (map (fun a => Done (Ok a)) results) ->
  Forall2 (fun Q t => Q t) Qs (replicate (length Qs) []).
Proof.
  intros Hall%Forall2_fmap_r.
  induction Hall as [| Q a Qs results HQ _ IH]; cbn; constructor; auto.
Qed.

(** The join adds to the history an interleaving of what its tasks
    add, one list of events for each task. *)
Lemma gather_plays {A : Type} (schedule : list nat)
    (Qs : list (list (event DC) -> Prop)) (tasks tasks' : list (Coro E DC A))
    (w w' : World E DC) (results : list A) :
  Forall2 (fun Q c => plays c Q) Qs tasks ->
  gather schedule tasks w = Some (Ok results, tasks', w') ->
  exists evs traces,
    history w' = history w ++ evs
    /\ merges traces evs
    /\ Forall2 (fun Q t => Q t) Qs traces.
Proof.
  revert Qs tasks w. induction schedule as [| i schedule IH]; intros Qs tasks w Hplays;
    rewrite gather_unfold; destruct (all_returned tasks) as [results0 |] eqn:Hret.
  1, 3: intros [= <- <- <-]; apply all_returned_spec in Hret; subst tasks;
    exists [], (replicate (length Qs) []); rewrite app_nil_r;
    (split; [reflexivity |]);
    (split; [constructor; apply Forall_forall; intros t Ht;
             now apply elem_of_replicate in Ht as [-> _]
            | eapply plays_returned; eauto]).
  - discriminate.
  - destruct (tasks !! i) as [[r0 | k eff] |] eqn:Hi; [now apply IH | | now apply IH].
    destruct (Forall2_lookup_r _ _ _ _ _ Hplays Hi) as (Q & HQ & Hc).
    cbn [plays] in Hc. destruct (Hc w) as (evs1 & Hh1 & Hk).
    assert (Forall2 (fun Q c => plays c Q) (<[i := fun t => Q (evs1 ++ t)]> Qs)
                    (<[i := k w]> tasks)) as Hplays'
      by (apply Forall2_insert; auto).
    assert (gather schedule (<[i := k w]> tasks) (eff w) = Some (Ok results, tasks', w') ->
            exists evs traces,
              history w' = history w ++ evs
              /\ merges traces evs
              /\ Forall2 (fun Q t => Q t) Qs traces) as Hrest.
    { intros Hrun.
      destruct (IH _ _ _ Hplays' Hrun) as (evs2 & traces & Hh2 & Hm & Hall).
      assert (i < length Qs)%nat as Hlt by (eapply lookup_lt_Some; eauto).
      destruct (Forall2_lookup_l _ _ _ i (fun t => Q (evs1 ++ t)) Hall)
        as (t & Ht & HQt); [now apply list_lookup_insert_eq |].
      exists (evs1 ++ evs2), (<[i := evs1 ++ t]> traces).
      split; [now rewrite Hh2, Hh1, app_assoc |].
      split; [now apply merges_prepend |].
      rewrite <- (list_insert_id Qs i Q HQ),
        <- (list_insert_insert_eq Qs i Q (fun t => Q (evs1 ++ t))).
      apply Forall2_insert; auto. }
    destruct (k w) as [[a | e] | k2 eff2] eqn:Hkw; [exact Hrest | discriminate | exact Hrest].
Qed.

Lemma plays_coro_of {A : Type} (step : M E DC (Coro E DC A))
    (Q : list (event DC) -> Prop) :
  (forall w, exists evs,
      history (snd (step w)) = history w ++ evs
      /\ match fst (step w) with
         | Ok c => plays c (fun t => Q (evs ++ t))
         | Raise _ => True
         end) ->
  plays (coro_of step) Q.
Proof.
  intros Hstep. unfold coro_of, suspended. cbn [plays]. intros w.
  destruct (Hstep w) as (evs & Hh & Hc). exists evs.
  destruct (step w) as [[c | e] w1]; cbn in *; auto.
Qed.

(** The events of [connect_device] for a credential, in any interleaving
    with other tasks. *)
Lemma connect_device_plays (device_credential : dict pyval) :
  is_credential device_credential = true ->
  plays (connect_device device_credential) (connect_trace device_credential).
Proof.
  unfold is_credential, connect_trace.
  destruct (connection_string_of device_credential) as [cs | x0] eqn:Hcs;
    [intros _ | discriminate].
  destruct (connection_string_of_Ok _ _ Hcs) as (host & id & key & _ & Hid & _ & _).
  unfold connect_device, connect_failed. rewrite Hcs, Hid.
  apply plays_coro_of. intros w.
  unfold bind, lift, try_except, external, logger_info, logger_error, ret. cbn.
  destruct (client_create_from_connection_string cs (env w)) as [[dc | x1] e1]; cbn.
  2: { eexists [_; _]. rewrite <- app_assoc. split; [reflexivity |].
       exists cs, id. split; [reflexivity |]. split; [reflexivity |]. left. eauto. }
  eexists [_]. split; [reflexivity |].
  intros w2.
  destruct (client_connect dc (env w2)) as [[[] | x2] e2]; cbn.
  2: { eexists [_; _]. rewrite <- app_assoc. split; [reflexivity |].
       exists cs, id. split; [reflexivity |]. split; [reflexivity |].
       right. exists dc. left. eauto. }
  eexists [_; _]. rewrite <- app_assoc. split; [reflexivity |].
  intros w3.
  destruct (client_disconnect dc (env w3)) as [[[] | x3] e3]; cbn.
  - eexists [_]. split; [reflexivity |].
    exists cs, id. split; [reflexivity |]. split; [reflexivity |].
    right. exists dc. right. left. reflexivity.
  - eexists [_; _]. rewrite <- app_assoc. split; [reflexivity |].
    exists cs, id. split; [reflexivity |]. split; [reflexivity |].
    right. exists dc. right. right. eauto.
Qed.

(** X13. The connections of a batch, over a store of credentials and
    whatever the interleaving of the tasks: when [connect_all_devices]
    returns, what it added to the history is an interleaving of one list
    of events for each entry of the store, in the order of the store. The
    list of an entry asks for one device client, with the connection
    string of that entry; when a client is returned, it calls [connect]
    on it, once; and when that returns, it logs the success and then
    calls [disconnect] on this same client, once: every connection that
    was opened is followed by the call that closes it. A call that raises
    ends the list of its entry with the error record. *)
Theorem connect_all_devices_traces (schedule : list nat)
    (all_credentials : dict (dict pyval))
    (Hwf : Forall (fun kv => is_credential kv.2 = true) all_credentials)
    (w w' : World E DC) (r : result unit) (tasks : list (Coro E DC unit))
    (Hrun : connect_all_devices schedule all_credentials w = Some (r, tasks, w')) :
  exists evs traces,
    history w' = history w ++ evs
    /\ merges traces evs
    /\ Forall2 (fun kv t => connect_trace kv.2 t) all_credentials traces.
Proof.
  destruct (connect_all_devices_run _ _ _ _ _ _ Hwf Hrun)
    as (_ & results & Hgather & _ & _).
  assert (Forall2 (fun Q c => plays c Q)
                  (map (fun kv : string * dict pyval => connect_trace kv.2) all_credentials)
                  (connect_device_tasks all_credentials)) as Hplays.
  { unfold connect_device_tasks. clear -Hwf.
    induction Hwf as [| [k c] l Hc _ IH]; cbn; constructor; [| exact IH].
    now apply connect_device_plays. }
  destruct (gather_plays _ _ _ _ _ _ _ Hplays Hgather) as (evs & traces & Hh & Hm & Hall).
  exists evs, traces. split; [exact Hh |]. split; [exact Hm |].
  now apply Forall2_fmap_l in Hall.
Qed.

End MoreOnTheConnections.

(** X13 on a store of two credentials, the second of which cannot be
    reached, the two tasks being interleaved. *)
Lemma connect_all_devices_traces_witness :
  Forall (fun kv : string * dict pyval => is_credential kv.2 = true)
    [("a", credentials_of sim_handler "a" (PStr "k"));
     ("b", credentials_of sim_handler "b" (PStr "k"))]
  /\ exists r tasks w',
       connect_all_devices [0; 1; 1; 0; 0; 1]%nat
         [("a", credentials_of sim_handler "a" (PStr "k"));
          ("b", credentials_of sim_handler "b" (PStr "k"))]
         (sim_world (sim_unreachable
            ["HostName=hub.example.net;DeviceId=b;SharedAccessKey=k"]))
       = Some (r, tasks, w')
       /\ exists evs traces,
            history w'
            = history (sim_world (sim_unreachable
                         ["HostName=hub.example.net;DeviceId=b;SharedAccessKey=k"]))
              ++ evs
            /\ merges traces evs
            /\ Forall2 (fun (kv : string * dict pyval) t => connect_trace kv.2 t)
                 [("a", credentials_of sim_handler "a" (PStr "k"));
                  ("b", credentials_of sim_handler "b" (PStr "k"))]
                 traces.
Proof.
  assert (Forall (fun kv : string * dict pyval => is_credential kv.2 = true)
            [("a", credentials_of sim_handler "a" (PStr "k"));
             ("b", credentials_of sim_handler "b" (PStr "k"))]) as Hwf
    by (repeat constructor).
  split; [exact Hwf |].
  destruct (connect_all_devices [0; 1; 1; 0; 0; 1]%nat
              [("a", credentials_of sim_handler "a" (PStr "k"));
               ("b", credentials_of sim_handler "b" (PStr "k"))]
              (sim_world (sim_unreachable
                 ["HostName=hub.example.net;DeviceId=b;SharedAccessKey=k"])))
    as [[[r tasks] w'] |] eqn:Hrun; [| vm_compute in Hrun; discriminate].
  exists r, tasks, w'. split; [reflexivity |].
  exact (connect_all_devices_traces _ _ Hwf _ _ _ _ Hrun).
Defined.

(** The run of that witness: the events of the two checks, interleaved. *)
Example connect_all_devices_one_unreachable :
  match connect_all_devices [0; 1; 1; 0; 0; 1]%nat
          [("a", credentials_of sim_handler "a" (PStr "k"));
           ("b", credentials_of sim_handler "b" (PStr "k"))]
          (sim_world (sim_unreachable
             ["HostName=hub.example.net;DeviceId=b;SharedAccessKey=k"])) with
  | Some (Ok _, _, w') =>
      calls_of (history w')
      = [(CallClientCreate "HostName=hub.example.net;DeviceId=a;SharedAccessKey=k", true);
         (CallClientCreate "HostName=hub.example.net;DeviceId=b;SharedAccessKey=k", true);
         (CallConnect "HostName=hub.example.net;DeviceId=b;SharedAccessKey=k", false);
         (CallConnect "HostName=hub.example.net;DeviceId=a;SharedAccessKey=k", true);
         (CallDisconnect "HostName=hub.example.net;DeviceId=a;SharedAccessKey=k", true)]
  | _ => False
  end.
Proof. vm_compute. auto. Qed.

(** ** The credential file *)

Section MoreOnTheFile.
Context {E RM DC : Type} `{Environment E RM DC}.

(** X14. [create_device_credentials_file] never raises. Either the
    file could not be opened: nothing else is called, the credential file
    is as it was, and the failure is logged. Or it was opened: then the
    text is written and the file is closed, also when the write raises;
    the earlier content is gone, the file holding a prefix of the text;
    and success is logged exactly when both the write and the close
    returned, in which case the file holds the whole text. *)
Theorem create_device_credentials_file_outcome (credentials : dict (dict pyval))
    (w : World E DC) :
  exists w',
    create_device_credentials_file credentials w = (Ok tt, w')
    /\ ((calls_of (new_events w w') = [(CallFile (FOpen file_path "w"), false)]
         /\ files w' !! file_path = files w !! file_path
         /\ exists x, last (history w') = Some (Logged ERROR (failed_message x)))
        \/ exists wrote closed n,
             calls_of (new_events w w')
             = [(CallFile (FOpen file_path "w"), true);
                (CallFile (FWrite file_path (Json.dumps credentials)), wrote);
                (CallFile (FClose file_path), closed)]
             /\ files w' !! file_path = Some (substring 0 n (Json.dumps credentials))
             /\ (last (history w') = Some (Logged INFO stored_message)
                 <-> wrote = true /\ closed = true)
             /\ (last (history w') = Some (Logged INFO stored_message) ->
                 files w' !! file_path = Some (Json.dumps credentials))
             /\ (last (history w') = Some (Logged INFO stored_message)
                 \/ exists x, last (history w') = Some (Logged ERROR (failed_message x)))).
Proof.
  rewrite create_device_credentials_file_run. cbv zeta.
  destruct (file_outcome (FOpen file_path "w") (env w)) as [[| x1 n1] e1].
  - destruct (file_outcome (FWrite file_path (Json.dumps credentials)) e1)
      as [[| x2 n2] e2];
      destruct (file_outcome (FClose file_path) e2) as [[| x3 n3] e3];
      eexists; (split; [reflexivity |]);
      right; rewrite new_events_app; cbn [files history mk_world];
      rewrite last_app, lookup_insert_eq; cbn [last calls_of omap].
    + exists true, true, (String.length (Json.dumps credentials)).
      rewrite substring_all. split; [reflexivity |]. split; [reflexivity |].
      split; [split; auto |]. split; [reflexivity | now left].
    + exists true, false, (String.length (Json.dumps credentials)).
      rewrite substring_all. split; [reflexivity |]. split; [reflexivity |].
      split; [split; [discriminate | intros [_ [=]]] |].
      split; [discriminate | eauto].
    + exists false, true, n2. split; [reflexivity |]. split; [reflexivity |].
      split; [split; [discriminate | intros [[=] _]] |].
      split; [discriminate | eauto].
    + exists false, false, n2. split; [reflexivity |]. split; [reflexivity |].
      split; [split; [discriminate | intros [[=] _]] |].
      split; [discriminate | eauto].
  - eexists. split; [reflexivity |]. left.
    rewrite new_events_app. cbn [files history mk_world]. rewrite last_app.
    split; [reflexivity |]. split; [reflexivity |]. eauto.
Qed.

End MoreOnTheFile.

(** A write that raises after twelve characters, over the file of an
    earlier run. *)
Example create_device_credentials_file_truncated :
  let w := ({| env := sim_io [IoOk; IoFail (RaisedError "disk full") 12];
               files := {[file_path := "earlier"]}; history := [] |}
            : World Sim string) in
  match create_device_credentials_file [("a", credentials_of sim_handler "a" (PStr "k"))] w
  with
  | (Ok _, w') =>
      files w' !! file_path = Some (String "{" (Json.newline +:+ "    " +:+ Json.quote
                                                +:+ "a" +:+ Json.quote +:+ ": {"))
      /\ map snd (calls_of (history w')) = [true; false; true]
  | _ => False
  end.
Proof. vm_compute. auto. Qed.

(** ** The answer to the question of [main] *)

Section MoreOnTheAnswer.
Import PyBuiltins.

Lemma append_nil (s : string) : "" +:+ s = s.
Proof. reflexivity. Qed.

Lemma append_cons (c : ascii) (s1 s2 : string) :
  String c s1 +:+ s2 = String c (s1 +:+ s2).
Proof. reflexivity. Qed.

(** [lstrip] removes a blank prefix, up to the first character that is
    no whitespace. *)
Lemma lstrip_spec (s : string) :
  exists l, s = l +:+ lstrip s /\ blank l = true.
Proof.
  induction s as [| c s (l & Hs & Hl)]; cbn [lstrip].
  - exists "". auto.
  - destruct (is_space c) eqn:Hsp.
    + exists (String c l). rewrite append_cons, <- Hs. cbn [blank].
      now rewrite Hsp, Hl.
    + exists "". auto.
Qed.

Lemma lstrip_blank_app (l s : string) :
  blank l = true -> lstrip (l +:+ s) = lstrip s.
Proof.
  induction l as [| c l IH]; cbn [blank]; [reflexivity |].
  intros [Hc Hl]%andb_prop. rewrite append_cons. cbn [lstrip]. now rewrite Hc, IH.
Qed.

(** [rstrip] removes a blank suffix. *)
Lemma rstrip_spec (s : string) :
  exists r, s = rstrip s +:+ r /\ blank r = true.
Proof.
  induction s as [| c s (r & Hs & Hr)]; cbn [rstrip].
  - exists "". auto.
  - destruct (rstrip s) as [| c' t] eqn:Ht.
    + destruct (is_space c) eqn:Hsp.
      * exists (String c r). rewrite append_nil in *. cbn [blank].
        rewrite Hsp, Hr, <- Hs. auto.
      * exists r. rewrite append_cons, <- Hs. auto.
    + exists r. rewrite append_cons, <- Hs. auto.
Qed.

Lemma rstrip_blank (r : string) : blank r = true -> rstrip r = "".
Proof.
  induction r as [| c r IH]; cbn [blank rstrip]; [reflexivity |].
  intros [Hc Hr]%andb_prop. now rewrite IH, Hc.
Qed.

Lemma lower_char_y (c : ascii) : lower_char c = "y"%char <-> c = "y"%char \/ c = "Y"%char.
Proof.
  split; [| intros [-> | ->]; reflexivity].
  destruct c as [[] [] [] [] [] [] [] []]; vm_compute; intros Hc;
    try discriminate Hc; auto.
Qed.

Lemma lower_char_e (c : ascii) : lower_char c = "e"%char <-> c = "e"%char \/ c = "E"%char.
Proof.
  split; [| intros [-> | ->]; reflexivity].
  destruct c as [[] [] [] [] [] [] [] []]; vm_compute; intros Hc;
    try discriminate Hc; auto.
Qed.

Lemma lower_char_s (c : ascii) : lower_char c = "s"%char <-> c = "s"%char \/ c = "S"%char.
Proof.
  split; [| intros [-> | ->]; reflexivity].
  destruct c as [[] [] [] [] [] [] [] []]; vm_compute; intros Hc;
    try discriminate Hc; auto.
Qed.

Lemma lower_yes (t : string) :
  lower t = "yes" <->
  exists a b c,
    t = String a (String b (String c ""))
    /\ (a = "y"%char \/ a = "Y"%char) /\ (b = "e"%char \/ b = "E"%char)
    /\ (c = "s"%char \/ c = "S"%char).
Proof.
  split.
  - destruct t as [| a [| b [| c [| d t]]]]; cbn; try discriminate.
    intros [= Ha Hb Hc]. exists a, b, c.
    rewrite <- lower_char_y, <- lower_char_e, <- lower_char_s. auto.
  - intros (a & b & c & -> & Ha & Hb & Hc). cbn.
    apply lower_char_y in Ha. apply lower_char_e in Hb. apply lower_char_s in Hc.
    now rewrite Ha, Hb, Hc.
Qed.

(** X15. The answers [main] takes for a yes, for answers in Latin-1:
    exactly the strings made of whitespace, then the three letters of
    [yes], each in either case, then whitespace. Everything else, such as
    [y] or [yes!], leaves the devices not connected. *)
Theorem answered_yes_spec (user_response : string) :
  answered_yes (Ok user_response) = true <->
  exists l a b c r,
    user_response = l +:+ String a (String b (String c "")) +:+ r
    /\ blank l = true /\ blank r = true
    /\ (a = "y"%char \/ a = "Y"%char) /\ (b = "e"%char \/ b = "E"%char)
    /\ (c = "s"%char \/ c = "S"%char).
Proof.
  cbn [answered_yes]. rewrite String.eqb_eq, lower_yes. unfold strip. split.
  - intros (a & b & c & Hstrip & Ha & Hb & Hc).
    destruct (lstrip_spec user_response) as (l & Hs & Hl).
    destruct (rstrip_spec (lstrip user_response)) as (r & Ht & Hr).
    exists l, a, b, c, r. rewrite Hstrip in Ht. rewrite Hs at 1. rewrite Ht at 1.
    rewrite !append_cons, append_nil. auto 8.
  - intros (l & a & b & c & r & -> & Hl & Hr & Ha & Hb & Hc).
    exists a, b, c. split; [| auto].
    rewrite lstrip_blank_app by exact Hl.
    assert (is_space a = false /\ is_space c = false) as [Hna Hnc]
      by (destruct Ha as [-> | ->], Hc as [-> | ->]; split; reflexivity).
    rewrite !append_cons, append_nil. cbn [lstrip]. rewrite Hna. cbn [rstrip].
    rewrite (rstrip_blank r Hr), Hnc. reflexivity.
Qed.

End MoreOnTheAnswer.

Example answered_yes_examples :
  map (fun s => answered_yes (Ok s))
      ["yes"; "  YeS "; String "009"%char ("yes" +:+ String "010"%char ""); "y"; "yes!";
       "y e s"; ""; "no"]
  = [true; true; true; false; false; false; false; false].
Proof. reflexivity. Qed.
